(** * s3_deploy: reconciliation of a build directory with an S3 prefix

    A shallow embedding of [s3_deploy/main.py].  The script lists the
    files of a create-react-app build, lists the objects stored under
    [deployments/<product>/<deployment>] in a bucket, decides which files
    to transfer and which objects to remove, optionally keeps the files
    of older versions (those named by retained precache manifests), and
    finally invalidates the CloudFront distribution.

    Conventions of the embedding:
    - Python strings are [string]; a [list] is a [list]; a [set] of
      strings is a [gset string], and turning a set into a list goes
      through [py_list], which is only known to enumerate the set;
    - a [dict] is an association list in insertion order;
    - calls on the boto3 clients and [print] are recorded in a log of
      [event]s, exceptions are values of [exn]; both live in the monad
      [M];
    - what the clients answer, the local files and [mimetypes] are
      fields of records the methods receive. *)

From Stdlib Require Import ZArith String Ascii List DecimalString.
From stdpp Require Import gmap strings list sorting.

Open Scope string_scope.
Open Scope list_scope.
Open Scope stdpp_scope.

(** ** Python primitives *)

Module Py.

(** The two characters that cannot be written inside a string literal
    here: the double quote and the line feed. *)
Definition dquote : ascii := "034"%char.
Definition newline : ascii := "010"%char.
Definition DQ : string := String dquote EmptyString.

(** A Python value as [searchList] returns it: an [int] or a [bool]. *)
Inductive value :=
| Int (i : nat)
| Bool (b : bool).

(** [v is False]: identity with the singleton [False]; the integer [0]
    equals [False] but is not [False]. *)
Definition is_False (v : value) : bool :=
  match v with
  | Bool false => true
  | _ => false
  end.

(** [aHaystack.index(sNeedle)]; [None] stands for [ValueError]. *)
Fixpoint index (sNeedle : string) (aHaystack : list string) : option nat :=
  match aHaystack with
  | [] => None
  | s :: rest =>
      if String.eqb s sNeedle then Some 0
      else match index sNeedle rest with
           | Some i => Some (S i)
           | None => None
           end
  end.

(** [re.match(pat, s)] for a pattern without special characters, read
    as a truth value: [s] starts with [pat]. *)
Definition re_match (pat s : string) : bool := String.prefix pat s.

(** [s.replace(old, new)] for a non-empty [old]: every occurrence,
    left to right, without overlap.  [skip] counts the characters of
    an occurrence still to be dropped. *)
Fixpoint replace_from (old new : string) (skip : nat) (s : string) : string :=
  match s with
  | EmptyString => EmptyString
  | String c t =>
      match skip with
      | S k => replace_from old new k t
      | O =>
          if String.prefix old s
          then new +:+ replace_from old new (String.length old - 1) t
          else String c (replace_from old new 0 t)
      end
  end.

Definition replace (old new s : string) : string := replace_from old new 0 s.

(** [s] without its last character, and that character. *)
Fixpoint unsnoc (s : string) : option (string * ascii) :=
  match s with
  | EmptyString => None
  | String c t =>
      match unsnoc t with
      | None => Some (EmptyString, c)
      | Some (init, last) => Some (String c init, last)
      end
  end.

(** No line feed in [s]: what a starred dot can run over. *)
Fixpoint dot_star (s : string) : bool :=
  match s with
  | EmptyString => true
  | String c t => negb (Ascii.eqb c newline) && dot_star t
  end.

(** [re.sub] of line 193, whose pattern is a double quote at the
    start, a greedy group of any characters, and a double quote at the end: a string
    enclosed in double quotes loses them.  [$] also matches before a
    final line feed, which is then left in place; [.] does not match a
    line feed. *)
Definition unquote (s : string) : string :=
  match s with
  | String q r =>
      if Ascii.eqb q dquote then
        match unsnoc r with
        | Some (m, c) =>
            if Ascii.eqb c dquote then
              if dot_star m then m else s
            else if Ascii.eqb c newline then
              match unsnoc m with
              | Some (m', c') =>
                  if Ascii.eqb c' dquote && dot_star m'
                  then m' +:+ String newline EmptyString
                  else s
              | None => s
              end
            else s
        | None => s
        end
      else s
  | EmptyString => s
  end.

(** [re.sub(r'^\./', '', s)]. *)
Definition strip_dot_slash (s : string) : string :=
  match s with
  | String "." (String "/" t) => t
  | _ => s
  end.

(** The regular expression of [maintainVersions] (line 270) opens with
    the ten characters of [url_open], then has the lazy group [(.*?)]
    and a closing double quote. *)
Definition url_open : string := DQ +:+ "url" +:+ DQ +:+ ": " +:+ DQ +:+ "/".

(** [s] without the prefix [p], when it starts with it. *)
Fixpoint strip_prefix (p s : string) : option string :=
  match p, s with
  | EmptyString, _ => Some s
  | String a p', String b s' =>
      if Ascii.eqb a b then strip_prefix p' s' else None
  | String _ _, EmptyString => None
  end.

(** The lazy group and the closing quote: the shortest run of
    characters other than a line feed that a double quote closes; with
    it, how many characters were read, the quote included. *)
Fixpoint lazy_group (s : string) : option (string * nat) :=
  match s with
  | EmptyString => None
  | String c t =>
      if Ascii.eqb c dquote then Some (EmptyString, 1)
      else if Ascii.eqb c newline then None
      else match lazy_group t with
           | Some (g, n) => Some (String c g, S n)
           | None => None
           end
  end.

(** A match of the whole expression at the start of [s]: the group
    and the length of the match. *)
Definition url_match (s : string) : option (string * nat) :=
  match strip_prefix url_open s with
  | Some r =>
      match lazy_group r with
      | Some (g, n) => Some (g, String.length url_open + n)
      | None => None
      end
  | None => None
  end.

(** [re.findall]: the groups of all matches, left to right, without
    overlap; after a match the scan resumes behind it. *)
Fixpoint findall_from (skip : nat) (s : string) : list string :=
  match s with
  | EmptyString => []
  | String c t =>
      match skip with
      | S k => findall_from k t
      | O =>
          match url_match s with
          | Some (g, n) => g :: findall_from (n - 1) t
          | None => findall_from 0 t
          end
      end
  end.

Definition findall_url (s : string) : list string := findall_from 0 s.

(** A [dict] with string keys, in insertion order. *)
Definition dict (V : Type) : Type := list (string * V).

(** [d[k] = v]: a known key keeps its place and takes the new value, a
    new key goes last. *)
Fixpoint setitem {V} (d : dict V) (k : string) (v : V) : dict V :=
  match d with
  | [] => [(k, v)]
  | (k', v') :: d' =>
      if String.eqb k' k then (k', v) :: d'
      else (k', v') :: setitem d' k v
  end.

(** [d[k]]; [None] stands for [KeyError]. *)
Fixpoint getitem {V} (d : dict V) (k : string) : option V :=
  match d with
  | [] => None
  | (k', v') :: d' => if String.eqb k' k then Some v' else getitem d' k
  end.

Definition keys {V} (d : dict V) : list string := map fst d.
Definition values {V} (d : dict V) : list V := map snd d.

(** [sorted(l, key=f, reverse=True)]: descending and stable, elements
    with equal keys keep their order. *)
Fixpoint insert_desc {A} (f : A → Z) (x : A) (l : list A) : list A :=
  match l with
  | [] => [x]
  | y :: l' =>
      if (f x <? f y)%Z then y :: insert_desc f x l' else x :: l
  end.

Definition sorted_reverse {A} (f : A → Z) (l : list A) : list A :=
  foldr (insert_desc f) [] l.

(** ['%d' % n] for a natural number. *)
Definition decimal (n : N) : string :=
  DecimalString.NilZero.string_of_uint (N.to_uint n).

End Py.

(** ** Records of the script *)

(** One element of the [Contents] of a [list_objects_v2] response.
    [LastModified] is the integer that [get_last_modified] reads off the
    time stamp: seconds since the epoch. *)
Module S3Object.
Record t := make { Key : string; ETag : string; Size : Z; LastModified : Z }.
End S3Object.

(** One value of the dict that [getS3Files] builds. *)
Module FileInfo.
Record t := make { key : string; etag : string; size : Z; modified : Z }.
End FileInfo.

(** The parsed command line, [oCmdOptions]; [iVersions] is [None]
    without [--maintain-versions]. *)
Record options := {
  sProduct : string;
  sDeployment : string;
  sBuildDir : string;
  bDryRun : bool;
  bForceTransfer : bool;
  bInvalidCFOnly : bool;
  iVersions : option Z
}.

(** ** Effects: the log of calls and the exceptions *)

Inductive exn :=
| ClientError (message : string)
| IOError (path : string)
| KeyError (k : string).

(** The calls on the two boto3 clients, with their keyword arguments,
    and the lines printed. *)
Inductive event :=
| list_objects_v2 (Bucket Prefix : string)
| get_object (Bucket Key : string)
| put_object (Body Bucket CacheControl : string) (ContentType : option string)
    (Key : string)
| delete_object (Bucket Key : string)
| create_invalidation (DistributionId : string) (Items : list string)
| print (line : string).

(** A computation yields the events it caused, in order, and a value or
    the exception that stopped it. *)
Definition M (A : Type) : Type := list event * (exn + A).

#[global] Instance M_ret : MRet M := λ A a, ([], inr a).

#[global] Instance M_bind : MBind M := λ A B f m,
  match m with
  | (log, inl e) => (log, inl e)
  | (log, inr a) => let '(log', r) := f a in (log ++ log', r)
  end.

Definition raise {A} (e : exn) : M A := ([], inl e).
Definition emit (ev : event) : M () := ([ev], inr ()).

(** [for x in l: acc = body(acc, x)]. *)
Fixpoint for_fold {A B} (body : B → A → M B) (l : list A) (acc : B) : M B :=
  match l with
  | [] => mret acc
  | x :: l' => acc' ← body acc x; for_fold body l' acc'
  end.

(** [for x in l: body(x)]. *)
Fixpoint for_each {A} (body : A → M ()) (l : list A) : M () :=
  match l with
  | [] => mret ()
  | x :: l' => body x;; for_each body l'
  end.

(** ** The world around the script *)

(** What the S3 client answers: a call raises or returns.  A listing
    returns its [Contents], [None] when the response has no such key;
    [get_object] returns the text that [str(oResponse['Body'].read())]
    evaluates to. *)
Record s3_client := {
  list_objects_v2_answer : string → string → exn + option (list S3Object.t);
  get_object_answer : string → string → exn + string;
  put_object_answer : string → string → option exn;
  delete_object_answer : string → string → option exn
}.

Record cloudfront_client := {
  create_invalidation_answer : string → option exn
}.

(** The machine the script runs on: the build directory as [os.walk]
    lists it, the content of its files ([None]: the file cannot be
    opened), the MD5 digest, [mimetypes.guess_type] after line 237, and
    the order in which a set is listed. *)
Class Host := {
  walk : list (string * list string * list string);
  open_rb : string → option string;
  md5_hexdigest : string → string;
  guess_type : string → option string;
  py_list : gset string → list string;
  py_list_perm : ∀ X, py_list X ≡ₚ elements X
}.

(** The instance of the class [Deploy] once [getCmdOptions] and
    [validateTarget] have run. *)
Record Deploy := {
  oCmdOptions : options;
  S3_BUCKET : string;
  CF_DIST_ID : string;
  oBoto : s3_client;
  oBotoCF : cloudfront_client
}.

(** ** Module-level constants and functions *)

Definition CACHE_SECONDS : N := 90 * 24 * 60 * 60.
Definition NO_CACHE_FILES : list string := ["index.html"; "asset-manifest.json"].

Definition searchList (sNeedle : string) (aHaystack : list string) : Py.value :=
  match Py.index sNeedle aHaystack with
  | Some i => Py.Int i
  | None => Py.Bool false
  end.

Definition statusMsg (sMsg : string) (bNewLine : bool) : M () :=
  (if bNewLine then emit (print "") else mret ());;
  emit (print (" *** " +:+ sMsg +:+ " ***")).

Section Script.
Context {host : Host}.

Definition md5Checksum (filePath : string) : M string :=
  match open_rb filePath with
  | None => raise (IOError filePath)
  | Some data => mret (md5_hexdigest data)
  end.

Definition getCwdFiles : list string :=
  flat_map (λ '(sRoot, _, aFiles),
              map (λ sFile, Py.strip_dot_slash (sRoot +:+ "/" +:+ sFile)) aFiles)
           walk.

(** *** Calls on the clients *)

Definition call_list_objects_v2 (c : s3_client) (Bucket Prefix : string)
  : M (option (list S3Object.t)) :=
  emit (list_objects_v2 Bucket Prefix);;
  match list_objects_v2_answer c Bucket Prefix with
  | inl e => raise e
  | inr r => mret r
  end.

Definition call_get_object (c : s3_client) (Bucket Key : string) : M string :=
  emit (get_object Bucket Key);;
  match get_object_answer c Bucket Key with
  | inl e => raise e
  | inr body => mret body
  end.

Definition call_put_object (c : s3_client) (Body Bucket CacheControl : string)
    (ContentType : option string) (Key : string) : M () :=
  emit (put_object Body Bucket CacheControl ContentType Key);;
  match put_object_answer c Bucket Key with
  | Some e => raise e
  | None => mret ()
  end.

Definition call_delete_object (c : s3_client) (Bucket Key : string) : M () :=
  emit (delete_object Bucket Key);;
  match delete_object_answer c Bucket Key with
  | Some e => raise e
  | None => mret ()
  end.

Definition call_create_invalidation (c : cloudfront_client)
    (DistributionId : string) (Items : list string) : M () :=
  emit (create_invalidation DistributionId Items);;
  match create_invalidation_answer c DistributionId with
  | Some e => raise e
  | None => mret ()
  end.

(** *** Methods of [Deploy] *)

Definition get_last_modified (obj : S3Object.t) : Z := S3Object.LastModified obj.

Definition getS3Files (self : Deploy) (sBucket sPrefix : string)
  : M (Py.dict FileInfo.t) :=
  oResponse ← call_list_objects_v2 (oBoto self) sBucket sPrefix;
  match oResponse with
  | None => mret []
  | Some aContents =>
      let aContents := Py.sorted_reverse get_last_modified aContents in
      mret (foldl (λ aFiles oContent,
                     let sKey := Py.replace (sPrefix +:+ "/") "" (S3Object.Key oContent) in
                     Py.setitem aFiles sKey
                       (FileInfo.make sKey
                          (Py.unquote (S3Object.ETag oContent))
                          (S3Object.Size oContent)
                          (S3Object.LastModified oContent)))
                  [] aContents)
  end.

(** The body of the loop of [compareFiles] over the common files. *)
Definition compareFiles_step (self : Deploy) (aS3FileInfo : Py.dict FileInfo.t)
    (aNewFiles : list string) (sFile : string) : M (list string) :=
  if bForceTransfer (oCmdOptions self) then mret (aNewFiles ++ [sFile])
  else
    match Py.getitem aS3FileInfo sFile with
    | None => raise (KeyError sFile)
    | Some oInfo =>
        sSum ← md5Checksum sFile;
        if negb (String.eqb (FileInfo.etag oInfo) sSum)
        then mret (aNewFiles ++ [sFile])
        else if Py.re_match "precache-manifest" sFile
             then mret (aNewFiles ++ [sFile])
             else mret aNewFiles
    end.

Definition compareFiles (self : Deploy) (aBuildFiles : list string)
    (aS3FileInfo : Py.dict FileInfo.t) : M (list string * list string) :=
  let aS3Files := Py.keys aS3FileInfo in
  let setBuild : gset string := list_to_set aBuildFiles in
  let setS3 : gset string := list_to_set aS3Files in
  let aNewFiles := py_list (setBuild ∖ setS3) in
  let aOldS3Files := py_list (setS3 ∖ setBuild) in
  let aCommonFiles := py_list (setBuild ∩ setS3) in
  aNewFiles ← for_fold (compareFiles_step self aS3FileInfo) aCommonFiles aNewFiles;
  mret (aNewFiles, aOldS3Files).

Definition removeS3Files_step (self : Deploy) (sBucket sPrefix sFile : string) : M () :=
  let sKey := sPrefix +:+ "/" +:+ sFile in
  emit (print (" - removing s3://" +:+ sBucket +:+ "/" +:+ sKey));;
  if negb (bDryRun (oCmdOptions self))
  then call_delete_object (oBoto self) sBucket sKey
  else mret ().

Definition removeS3Files (self : Deploy) (sBucket sPrefix : string)
    (aFiles : list string) : M () :=
  for_each (removeS3Files_step self sBucket sPrefix) aFiles.

Definition sCacheAlways : string := "max-age=" +:+ Py.decimal CACHE_SECONDS +:+ ", public".
Definition sCacheNever : string :=
  "max-age=0, no-cache, must-revalidate, proxy-revalidate, no-store".

Definition transferFiles_step (self : Deploy) (sBucket sPrefix sFile : string) : M () :=
  let sKey := sPrefix +:+ "/" +:+ sFile in
  let sMime := guess_type sFile in
  emit (print (" - transfering to s3://" +:+ sBucket +:+ "/" +:+ sKey));;
  if negb (bDryRun (oCmdOptions self)) then
    match open_rb sFile with
    | None => raise (IOError sFile)
    | Some data =>
        if Py.is_False (searchList sFile NO_CACHE_FILES)
        then call_put_object (oBoto self) data sBucket sCacheAlways sMime sKey
        else call_put_object (oBoto self) data sBucket sCacheNever sMime sKey
    end
  else mret ().

Definition transferFiles (self : Deploy) (sBucket sPrefix : string)
    (aFiles : list string) : M () :=
  for_each (transferFiles_step self sBucket sPrefix) aFiles.

(** The first loop of [maintainVersions]: the items of the dict in
    order, left at the [break]. *)
Fixpoint collect_manifests (aOldS3Files : list string) (iVersions : Z)
    (items : list (string * FileInfo.t)) (aManifests : list FileInfo.t)
  : list FileInfo.t :=
  match items with
  | [] => aManifests
  | (sKey, oFile) :: rest =>
      if (iVersions <=? Z.of_nat (length aManifests))%Z then aManifests
      else if Py.re_match "precache-manifest" sKey
              && negb (Py.is_False (searchList sKey aOldS3Files))
           then collect_manifests aOldS3Files iVersions rest (aManifests ++ [oFile])
           else collect_manifests aOldS3Files iVersions rest aManifests
  end.

(** The body of its second loop. *)
Definition maintainVersions_step (self : Deploy) (sBucket sPrefix : string)
    (aExclude : list string) (oFile : FileInfo.t) : M (list string) :=
  let aExclude := aExclude ++ [FileInfo.key oFile] in
  let sKey := sPrefix +:+ "/" +:+ FileInfo.key oFile in
  sBody ← call_get_object (oBoto self) sBucket sKey;
  mret (aExclude ++ Py.findall_url sBody).

Definition maintainVersions (self : Deploy) (aS3FileInfo : Py.dict FileInfo.t)
    (aOldS3Files : list string) (iVersions : Z) (sBucket sPrefix : string)
  : M (list string) :=
  let aManifests := collect_manifests aOldS3Files iVersions aS3FileInfo [] in
  aExclude ← for_fold (maintainVersions_step self sBucket sPrefix) aManifests [];
  mret (py_list (list_to_set aOldS3Files ∖ list_to_set aExclude)).

(** [syncToS3] returns nothing; here it yields the two lists it holds
    when it ends, [aNewBuildFiles] and [aOldS3Files], or [None] after
    the early [return].  The test of line 298 is the truth value of
    [iVersions] (neither [None] nor [0]) and then [iVersions > 0]. *)
Definition syncToS3 (self : Deploy) : M (option (list string * list string)) :=
  if bInvalidCFOnly (oCmdOptions self) then mret None
  else
    let aBuildFiles := getCwdFiles in
    let sPrefix := "deployments/" +:+ sProduct (oCmdOptions self) +:+ "/"
                     +:+ sDeployment (oCmdOptions self) in
    aS3FileInfo ← getS3Files self (S3_BUCKET self) sPrefix;
    '(aNewBuildFiles, aOldS3Files) ← compareFiles self aBuildFiles aS3FileInfo;
    aOldS3Files ←
      match iVersions (oCmdOptions self) with
      | Some n =>
          if negb (n =? 0)%Z && (0 <? n)%Z
          then maintainVersions self aS3FileInfo aOldS3Files n (S3_BUCKET self) sPrefix
          else mret aOldS3Files
      | None => mret aOldS3Files
      end;
    transferFiles self (S3_BUCKET self) sPrefix aNewBuildFiles;;
    removeS3Files self (S3_BUCKET self) sPrefix aOldS3Files;;
    mret (Some (aNewBuildFiles, aOldS3Files)).

(** The [CallerReference], which holds the time of the call, is left
    out of the event. *)
Definition clearCloudFront (self : Deploy) : M () :=
  if bDryRun (oCmdOptions self) then mret ()
  else
    statusMsg ("Clearing CloudFront distribution: " +:+ CF_DIST_ID self) true;;
    call_create_invalidation (oBotoCF self) (CF_DIST_ID self) ["/*"].

(** The last two steps of [main]; the steps before them read the
    command line and the configuration and fill [self]. *)
Definition main (self : Deploy) : M (option (list string * list string)) :=
  r ← syncToS3 self;
  clearCloudFront self;;
  mret r.

End Script.

(** ** Notions used in the statements *)

(** The file name of a key: what follows its last slash. *)
Fixpoint has_slash (s : string) : bool :=
  match s with
  | EmptyString => false
  | String c t => Ascii.eqb c "/" || has_slash t
  end.

Fixpoint filename (s : string) : string :=
  match s with
  | EmptyString => EmptyString
  | String c t => if has_slash s then filename t else s
  end.

(** The calls that change the bucket or the distribution. *)
Definition is_write (ev : event) : bool :=
  match ev with
  | put_object _ _ _ _ _ | delete_object _ _ | create_invalidation _ _ => true
  | _ => false
  end.

Definition is_get_object (ev : event) : bool :=
  match ev with
  | get_object _ _ => true
  | _ => false
  end.

(** Every event of a computation satisfies [P]. *)
Definition log_all {A} (P : event → Prop) (m : M A) : Prop :=
  ∀ ev, ev ∈ m.1 → P ev.

(** The same deployment with [--dry-run] set or not. *)
Definition with_dry_run (b : bool) (self : Deploy) : Deploy := {|
  oCmdOptions := {|
    sProduct := sProduct (oCmdOptions self);
    sDeployment := sDeployment (oCmdOptions self);
    sBuildDir := sBuildDir (oCmdOptions self);
    bDryRun := b;
    bForceTransfer := bForceTransfer (oCmdOptions self);
    bInvalidCFOnly := bInvalidCFOnly (oCmdOptions self);
    iVersions := iVersions (oCmdOptions self)
  |};
  S3_BUCKET := S3_BUCKET self;
  CF_DIST_ID := CF_DIST_ID self;
  oBoto := oBoto self;
  oBotoCF := oBotoCF self
|}.

(** The prefix under which [syncToS3] works. *)
Definition deployment_prefix (self : Deploy) : string :=
  "deployments/" +:+ sProduct (oCmdOptions self) +:+ "/"
    +:+ sDeployment (oCmdOptions self).

(** An item of the inventory that is a manifest and a candidate for
    removal. *)
Definition superseded_manifest (aOldS3Files : list string)
    (item : string * FileInfo.t) : bool :=
  Py.re_match "precache-manifest" (fst item) && bool_decide (fst item ∈ aOldS3Files).

(** The [n] first of them, in the order of the inventory. *)
Definition retained (aS3FileInfo : Py.dict FileInfo.t) (aOldS3Files : list string)
    (n : Z) : list (string * FileInfo.t) :=
  take (Z.to_nat n) (List.filter (superseded_manifest aOldS3Files) aS3FileInfo).

(** An inventory whose items come newest first. *)
Definition newest_first (aS3FileInfo : Py.dict FileInfo.t) : Prop :=
  StronglySorted (λ a b, (FileInfo.modified (snd b) ≤ FileInfo.modified (snd a))%Z)
    aS3FileInfo.

Section Notions.
Context {host : Host}.

(** Whether [compareFiles] transfers a file found on both sides. *)
Definition transferred_again (self : Deploy) (aS3FileInfo : Py.dict FileInfo.t)
    (sFile : string) : bool :=
  bForceTransfer (oCmdOptions self)
  || match Py.getitem aS3FileInfo sFile, open_rb sFile with
     | Some oInfo, Some data =>
         negb (String.eqb (FileInfo.etag oInfo) (md5_hexdigest data))
         || Py.re_match "precache-manifest" sFile
     | _, _ => false
     end.

(** What a retained manifest keeps from removal: its own key and the
    paths found in its body. *)
Definition kept_by (self : Deploy) (sBucket sPrefix : string)
    (oFile : FileInfo.t) : list string :=
  FileInfo.key oFile
    :: match get_object_answer (oBoto self) sBucket
               (sPrefix +:+ "/" +:+ FileInfo.key oFile) with
       | inr sBody => Py.findall_url sBody
       | inl _ => []
       end.

End Notions.

(** ** A concrete deployment

    A build of version 3 of product [app], and a bucket that holds
    versions 1 and 2 under [deployments/app/prod]. *)

Module Sample.

Definition content (sFile : string) : string := "content of " +:+ sFile.
Definition digest (data : string) : string := "md5 of " +:+ data.
Definition quoted (s : string) : string := Py.DQ +:+ s +:+ Py.DQ.

#[local] Instance host : Host := {|
  walk := [ (".", ["static"],
             ["index.html"; "asset-manifest.json"; "precache-manifest.v3.js";
              "service-worker.js"]);
            ("./static", [], ["main.v3.js"; "precache-manifest.x.js"]) ];
  open_rb sFile := Some (content sFile);
  md5_hexdigest := digest;
  guess_type sFile := None;
  py_list := elements;
  py_list_perm X := reflexivity (elements X)
|}.

Definition prefix : string := "deployments/app/prod".

Definition stored (sFile : string) (sTag : string) (iTime : Z) : S3Object.t :=
  S3Object.make (prefix +:+ "/" +:+ sFile) (quoted sTag) 10 iTime.

Definition same (sFile : string) : string := digest (content sFile).

Definition listing : list S3Object.t :=
  [ stored "asset-manifest.json" "stale" 200;
    stored "index.html" (same "index.html") 200;
    stored "precache-manifest.v1.js" "m1" 100;
    stored "precache-manifest.v2.js" "m2" 200;
    stored "service-worker.js" (same "service-worker.js") 200;
    stored "static/main.v1.js" "a1" 100;
    stored "static/main.v2.js" "a2" 200;
    stored "static/precache-manifest.x.js" (same "static/precache-manifest.x.js") 200 ].

Definition entry (sUrl : string) : string :=
  "{" +:+ quoted "revision" +:+ ": " +:+ quoted "r" +:+ ", "
      +:+ quoted "url" +:+ ": " +:+ quoted ("/" +:+ sUrl) +:+ "}".

Definition manifest (sKey : string) : string :=
  if String.eqb sKey (prefix +:+ "/precache-manifest.v2.js")
  then "[" +:+ entry "static/main.v2.js" +:+ ", " +:+ entry "index.html" +:+ "]"
  else if String.eqb sKey (prefix +:+ "/precache-manifest.v1.js")
  then "[" +:+ entry "static/main.v1.js" +:+ ", " +:+ entry "index.html" +:+ "]"
  else "".

Definition s3 : s3_client := {|
  list_objects_v2_answer sBucket sPrefix :=
    inr (if String.eqb sPrefix prefix then Some listing else None);
  get_object_answer sBucket sKey := inr (manifest sKey);
  put_object_answer sBucket sKey := None;
  delete_object_answer sBucket sKey := None
|}.

Definition cloudfront : cloudfront_client := {|
  create_invalidation_answer sId := None
|}.

Definition cmdline (dry force : bool) (versions : option Z) : options := {|
  sProduct := "app";
  sDeployment := "prod";
  sBuildDir := "build";
  bDryRun := dry;
  bForceTransfer := force;
  bInvalidCFOnly := false;
  iVersions := versions
|}.

Definition deploy (dry force : bool) (versions : option Z) : Deploy := {|
  oCmdOptions := cmdline dry force versions;
  S3_BUCKET := "bucket";
  CF_DIST_ID := "E1";
  oBoto := s3;
  oBotoCF := cloudfront
|}.

(** The inventory that [getS3Files] builds from [listing]. *)
Definition inventory : Py.dict FileInfo.t :=
  match getS3Files (deploy false false None) "bucket" prefix with
  | (_, inr d) => d
  | _ => []
  end.

End Sample.

(** ** Further notions *)

(** Objects and records can be compared. *)
#[global] Instance S3Object_eq_dec : EqDecision S3Object.t.
Proof. solve_decision. Defined.

#[global] Instance FileInfo_eq_dec : EqDecision FileInfo.t.
Proof. solve_decision. Defined.

#[global] Instance exn_eq_dec : EqDecision exn.
Proof. solve_decision. Defined.

#[global] Instance event_eq_dec : EqDecision event.
Proof. solve_decision. Defined.

(** [old] occurs somewhere in [s]. *)
Fixpoint occurs (old s : string) : bool :=
  String.prefix old s
  || match s with
     | EmptyString => false
     | String _ t => occurs old t
     end.

(** The key and the record under which [getS3Files] stores an object of
    the listing. *)
Definition inventory_key (sPrefix : string) (o : S3Object.t) : string :=
  Py.replace (sPrefix +:+ "/") "" (S3Object.Key o).

Definition inventory_record (sPrefix : string) (o : S3Object.t) : FileInfo.t :=
  FileInfo.make (inventory_key sPrefix o) (Py.unquote (S3Object.ETag o))
    (S3Object.Size o) (S3Object.LastModified o).

(** What one round of [removeS3Files] logs. *)
Definition removal_events (self : Deploy) (sBucket sPrefix sFile : string) : list event :=
  print (" - removing s3://" +:+ sBucket +:+ "/" +:+ sPrefix +:+ "/" +:+ sFile)
    :: if bDryRun (oCmdOptions self) then []
       else [delete_object sBucket (sPrefix +:+ "/" +:+ sFile)].

Definition is_put_object (ev : event) : bool :=
  match ev with
  | put_object _ _ _ _ _ => true
  | _ => false
  end.

Definition is_delete_object (ev : event) : bool :=
  match ev with
  | delete_object _ _ => true
  | _ => false
  end.

Section FurtherNotions.
Context {host : Host}.

(** What one round of [transferFiles] logs for a file it can open. *)
Definition transfer_events (self : Deploy) (sBucket sPrefix sFile : string) : list event :=
  print (" - transfering to s3://" +:+ sBucket +:+ "/" +:+ sPrefix +:+ "/" +:+ sFile)
    :: if bDryRun (oCmdOptions self) then []
       else match open_rb sFile with
            | Some data =>
                [put_object data sBucket
                   (if bool_decide (sFile ∈ NO_CACHE_FILES) then sCacheNever else sCacheAlways)
                   (guess_type sFile) (sPrefix +:+ "/" +:+ sFile)]
            | None => []
            end.

End FurtherNotions.

(** ** A bucket with two objects under one key

    The second object lies under the prefix twice, so that [replace]
    strips it down to the key of the first. *)

Module Collision.

Definition listing : list S3Object.t :=
  [ S3Object.make "deployments/app/prod/deployments/app/prod/main.js"
      (Sample.quoted "old") 7 100;
    S3Object.make "deployments/app/prod/index.html" (Sample.quoted "i") 5 200;
    S3Object.make "deployments/app/prod/main.js" (Sample.quoted "new") 9 300 ].

Definition s3 : s3_client := {|
  list_objects_v2_answer sBucket sPrefix := inr (Some listing);
  get_object_answer sBucket sKey := inl (ClientError "NoSuchKey");
  put_object_answer sBucket sKey := None;
  delete_object_answer sBucket sKey :=
    if String.eqb sKey "deployments/app/prod/b.js" then Some (ClientError "AccessDenied")
    else None
|}.

Definition deploy (dry : bool) : Deploy := {|
  oCmdOptions := Sample.cmdline dry false None;
  S3_BUCKET := "bucket";
  CF_DIST_ID := "E1";
  oBoto := s3;
  oBotoCF := Sample.cloudfront
|}.

End Collision.

(** ** A build with a file that cannot be opened *)

Module Broken.

#[local] Instance host : Host := {|
  walk := [ (".", [], ["index.html"; "asset-manifest.json"; "service-worker.js"]) ];
  open_rb sFile :=
    if String.eqb sFile "service-worker.js" then None else Some (Sample.content sFile);
  md5_hexdigest := Sample.digest;
  guess_type sFile := None;
  py_list := elements;
  py_list_perm X := reflexivity (elements X)
|}.

End Broken.

(** ** The text of a manifest

    [get_object] hands the body of an object over as [bytes], and
    [maintainVersions] searches [str] of it: the text Python writes for
    a bytes literal. *)

Module PyBytes.

Definition backslash : ascii := "092"%char.
Definition squote : ascii := "039"%char.

Fixpoint has_byte (c : ascii) (s : string) : bool :=
  match s with
  | EmptyString => false
  | String a t => Ascii.eqb a c || has_byte c t
  end.

Definition hexdigit (n : nat) : ascii :=
  match String.get n "0123456789abcdef" with
  | Some c => c
  | None => "0"%char
  end.

(** One byte inside the literal: the quote in use and the backslash
    get a backslash, tab, line feed and carriage return their letter,
    every other byte outside the printable ASCII range two hexadecimal
    digits. *)
Definition escape (quote c : ascii) : string :=
  if Ascii.eqb c quote || Ascii.eqb c backslash
  then String backslash (String c EmptyString)
  else if Ascii.eqb c "009"%char then String backslash "t"
  else if Ascii.eqb c Py.newline then String backslash "n"
  else if Ascii.eqb c "013"%char then String backslash "r"
  else
    let n := nat_of_ascii c in
    if ((n <? 32) || (127 <=? n))%nat
    then String backslash
           (String "x" (String (hexdigit (n / 16)) (String (hexdigit (n mod 16)) EmptyString)))
    else String c EmptyString.

Fixpoint escaped (quote : ascii) (s : string) : string :=
  match s with
  | EmptyString => EmptyString
  | String c t => escape quote c +:+ escaped quote t
  end.

(** [str(b)] for bytes [b]: the letter b and the escaped bytes between
    single quotes, or between double quotes when the bytes hold a single
    quote and no double quote. *)
Definition str (b : string) : string :=
  let quote := if has_byte squote b && negb (has_byte Py.dquote b)
               then Py.dquote else squote in
  String "b" (String quote (escaped quote b +:+ String quote EmptyString)).

End PyBytes.

(** ** A manifest that names a file with an apostrophe

    The bucket holds the manifest of an earlier version and the one
    file it names; the build is the one of [Sample], which has
    neither. *)

Module Apostrophe.

Definition content : string :=
  "self.__precacheManifest = [" +:+ Sample.entry "static/it's.js" +:+ "];".

Definition listing : list S3Object.t :=
  [ Sample.stored "precache-manifest.v1.js" "m1" 100;
    Sample.stored "static/it's.js" "a1" 100 ].

Definition s3 : s3_client := {|
  list_objects_v2_answer sBucket sPrefix :=
    inr (if String.eqb sPrefix Sample.prefix then Some listing else None);
  get_object_answer sBucket sKey :=
    if String.eqb sKey (Sample.prefix +:+ "/precache-manifest.v1.js")
    then inr (PyBytes.str content) else inl (ClientError "NoSuchKey");
  put_object_answer sBucket sKey := None;
  delete_object_answer sBucket sKey := None
|}.

Definition deploy : Deploy := {|
  oCmdOptions := Sample.cmdline false false (Some 1%Z);
  S3_BUCKET := "bucket";
  CF_DIST_ID := "E1";
  oBoto := s3;
  oBotoCF := Sample.cloudfront
|}.

Definition inventory : Py.dict FileInfo.t :=
  match getS3Files deploy "bucket" Sample.prefix with
  | (_, inr d) => d
  | _ => []
  end.

End Apostrophe.

(** ** Two objects with one name

    [str.replace] removes the prefix wherever it occurs, so the first
    and the last object of this listing both become
    [precache-manifest.a.js]. *)

Module Nested.

Definition listing : list S3Object.t :=
  [ S3Object.make "deployments/app/prod/precache-manifest.a.js" (Sample.quoted "a1") 10 100;
    S3Object.make "deployments/app/prod/precache-manifest.b.js" (Sample.quoted "b") 10 200;
    S3Object.make "deployments/app/prod/deployments/app/prod/precache-manifest.a.js"
      (Sample.quoted "a3") 10 300 ].

Definition s3 : s3_client := {|
  list_objects_v2_answer sBucket sPrefix := inr (Some listing);
  get_object_answer sBucket sKey := inr (PyBytes.str "[]");
  put_object_answer sBucket sKey := None;
  delete_object_answer sBucket sKey := None
|}.

Definition deploy : Deploy := {|
  oCmdOptions := Sample.cmdline false false (Some 1%Z);
  S3_BUCKET := "bucket";
  CF_DIST_ID := "E1";
  oBoto := s3;
  oBotoCF := Sample.cloudfront
|}.

End Nested.

(** ** Validation, then the sync

    The steps of [main] before [syncToS3] print to the standard error
    and leave through [sys.exit]; they read the configuration, the
    environment and the build directory.  Their effects are [step]s:
    the events of the methods above, the lines written to the standard
    error, the listing with [MaxKeys] that checks the credentials, and
    the change of directory. *)

Inductive step :=
| call (ev : event)
| stderr_write (sOutput : string)
| list_objects_v2_max_keys (Bucket : string) (MaxKeys : Z)
| chdir (path : string).

(** How a run stops early: [sys.exit], an exception nothing catches, or
    an operation on [None]. *)
Inductive stop :=
| SystemExit (code : Z)
| Uncaught (e : exn)
| NoneError.

#[global] Instance stop_eq_dec : EqDecision stop.
Proof. solve_decision. Defined.

#[global] Instance step_eq_dec : EqDecision step.
Proof. solve_decision. Defined.

Definition Prog (A : Type) : Type := list step * (stop + A).

#[global] Instance Prog_ret : MRet Prog := λ A a, ([], inr a).

#[global] Instance Prog_bind : MBind Prog := λ A B f m,
  match m with
  | (steps, inl e) => (steps, inl e)
  | (steps, inr a) => let '(steps', r) := f a in (steps ++ steps', r)
  end.

(** A method of the sync, run inside the program. *)
Definition lift {A} (m : M A) : Prog A :=
  (call <$> m.1, match m.2 with
                 | inl e => inl (Uncaught e)
                 | inr a => inr a
                 end).

Definition sys_exit {A} (code : Z) : Prog A := ([], inl (SystemExit code)).

(** [for x in l: body(x)]. *)
Fixpoint for_all {A} (body : A → Prog ()) (l : list A) : Prog () :=
  match l with
  | [] => mret ()
  | x :: l' => body x;; for_all body l'
  end.

Module PyStr.

(** White space as [str.split] sees it, for characters below 256. *)
Definition is_space (c : ascii) : bool :=
  let n := nat_of_ascii c in
  (((9 <=? n) && (n <=? 13)) || ((28 <=? n) && (n <=? 32)) || (n =? 133) || (n =? 160))%nat.

(** [s.split()]: the words between runs of white space, none empty.
    [cur] is the word being read. *)
Fixpoint split_from (cur s : string) : list string :=
  match s with
  | EmptyString => if String.eqb cur "" then [] else [cur]
  | String c t =>
      if is_space c then
        if String.eqb cur "" then split_from "" t else cur :: split_from "" t
      else split_from (cur +:+ String c EmptyString) t
  end.

Definition split (s : string) : list string := split_from "" s.

(** [sep.join(l)]. *)
Fixpoint join (sep : string) (l : list string) : string :=
  match l with
  | [] => ""
  | [x] => x
  | x :: l' => x +:+ sep +:+ join sep l'
  end.

(** [a or b] for a first operand that is [None] or a string: the
    string when it is not empty, else the second operand, which is only
    then evaluated. *)
Definition or_else (a : option string) (b : Prog (option string)) : Prog (option string) :=
  match a with
  | Some s => if String.eqb s "" then b else mret (Some s)
  | None => b
  end.

(** A value the code goes on to use as a string: an operation on
    [None] fails.  The values it is applied to come from
    [getConfigValue] with [bRequired] set, which exits rather than
    return [None]. *)
Definition required (o : option string) : Prog string :=
  match o with
  | Some s => mret s
  | None => ([], inl NoneError)
  end.

End PyStr.

(** The configuration as [getConfig] has read it. *)
Record ConfigParser := {
  has_section : string → bool;
  has_option : string → string → bool;
  option_value : string → string → string
}.

(** [os.environ.get], [os.path.isdir], and [os.path.isfile] once the
    build directory is the current one. *)
Record Machine := {
  environ_get : string → option string;
  isdir : string → bool;
  isfile : string → bool
}.

(** [boto3.client] for the two services, by the credentials it is
    given, and what the listing with [MaxKeys] answers. *)
Record Boto3 := {
  client_s3 : option string → option string → s3_client;
  client_cloudfront : option string → option string → cloudfront_client;
  max_keys_answer : option string → option string → string → option exn
}.

Definition printStdError (sOutput : string) : Prog () :=
  ([stderr_write (sOutput +:+ String Py.newline EmptyString)], inr ()).

Definition errorMsg (sMsg : string) (bExit : bool) : Prog () :=
  printStdError ("Error: " +:+ sMsg);;
  if bExit then sys_exit (-1) else mret ().

(** [awsError(e)] for a [ClientError] with this message. *)
Definition awsError (message : string) : Prog () :=
  errorMsg ("AWS - " +:+ message +:+ ".") true.

Definition getConfigValue (oConfig : ConfigParser) (sSection sKey : string)
    (bRequired : bool) : Prog (option string) :=
  if has_section oConfig sSection then
    if has_option oConfig sSection sKey
    then mret (Some (option_value oConfig sSection sKey))
    else if bRequired
         then errorMsg ("Missing configuration option: " +:+ sSection +:+ ":" +:+ sKey) true;;
              mret None
         else mret None
  else if bRequired
       then errorMsg ("Missing configuration section: " +:+ sSection) true;;
            mret None
       else mret None.

(** [validateTarget] fills the fields of [self]; here it returns the
    instance. *)
Definition validateTarget (oCmdOptions : options) (oConfig : ConfigParser)
    (os : Machine) (boto3 : Boto3) : Prog Deploy :=
  sProducts ← getConfigValue oConfig "general" "products" true ≫= PyStr.required;
  let PRODUCTS := PyStr.split sProducts in
  sDeployments ← getConfigValue oConfig "general" "deployments" true ≫= PyStr.required;
  let DEPLOYMENTS := PyStr.split sDeployments in
  S3_BUCKET ← getConfigValue oConfig "general" "s3_bucket" true ≫= PyStr.required;
  (if Py.is_False (searchList (sProduct oCmdOptions) PRODUCTS)
   then errorMsg ("invalid product: " +:+ sProduct oCmdOptions
                    +:+ ", valid products are: " +:+ PyStr.join ", " PRODUCTS) true
   else mret ());;
  (if Py.is_False (searchList (sDeployment oCmdOptions) DEPLOYMENTS)
   then errorMsg ("invalid deployment: " +:+ sDeployment oCmdOptions
                    +:+ ", valid deployments are: " +:+ PyStr.join ", " DEPLOYMENTS) true
   else mret ());;
  CF_DIST_ID ← getConfigValue oConfig ("cloudfront-" +:+ sProduct oCmdOptions)
                  (sDeployment oCmdOptions +:+ "-dist-id") true ≫= PyStr.required;
  sId ← PyStr.or_else (environ_get os "AWS_S3_DEPLOY_ACCESS_ID")
          (getConfigValue oConfig "aws-credentials" "access_id" true);
  sKey ← PyStr.or_else (environ_get os "AWS_S3_DEPLOY_SECRET_KEY")
           (getConfigValue oConfig "aws-credentials" "secret_key" true);
  let oBoto := client_s3 boto3 sId sKey in
  lift (statusMsg "Validating AWS credentials" false);;
  (([list_objects_v2_max_keys S3_BUCKET 1], inr ()) : Prog ());;
  match max_keys_answer boto3 sId sKey S3_BUCKET with
  | None => mret ()
  | Some (ClientError message) => awsError message
  | Some e => ([], inl (Uncaught e))
  end;;
  let oBotoCF := client_cloudfront boto3 sId sKey in
  mret {| oCmdOptions := oCmdOptions; S3_BUCKET := S3_BUCKET; CF_DIST_ID := CF_DIST_ID;
          oBoto := oBoto; oBotoCF := oBotoCF |}.

Definition goToBuildDir (oCmdOptions : options) (os : Machine) : Prog () :=
  (if negb (isdir os (sBuildDir oCmdOptions))
   then errorMsg ("Build directory does not exist: " +:+ sBuildDir oCmdOptions) true
   else mret ());;
  (([chdir (sBuildDir oCmdOptions)], inr ()) : Prog ());;
  for_all (λ sFile,
      if negb (isfile os sFile)
      then errorMsg ("Build directory is missing files: " +:+ sBuildDir oCmdOptions) true
      else mret ()) NO_CACHE_FILES.

(** The four steps of [Deploy.main] that follow [getCmdOptions] and
    [getConfig], for the command line and the configuration that these
    two have read; [main] above is the last two of them.  The files
    that [host] shows are those of the build directory. *)
Definition Deploy_main {host : Host} (oCmdOptions : options) (oConfig : ConfigParser)
    (os : Machine) (boto3 : Boto3) : Prog (option (list string * list string)) :=
  self ← validateTarget oCmdOptions oConfig os boto3;
  goToBuildDir oCmdOptions os;;
  lift (main self).

(** ** A configured machine *)

Module Setup.

Definition config : ConfigParser := {|
  has_section sSection :=
    bool_decide (sSection ∈ ["general"; "cloudfront-app"; "aws-credentials"]);
  has_option sSection sKey :=
    bool_decide ((sSection, sKey)
                 ∈ [("general", "products"); ("general", "deployments");
                    ("general", "s3_bucket"); ("cloudfront-app", "prod-dist-id");
                    ("aws-credentials", "access_id"); ("aws-credentials", "secret_key")]);
  option_value sSection sKey :=
    if String.eqb sKey "products" then "app  site"
    else if String.eqb sKey "deployments" then "test prod"
    else if String.eqb sKey "s3_bucket" then "bucket"
    else if String.eqb sKey "prod-dist-id" then "E1"
    else if String.eqb sKey "access_id" then "id-of-config"
    else "key-of-config"
|}.

Definition os : Machine := {|
  environ_get sName :=
    if String.eqb sName "AWS_S3_DEPLOY_ACCESS_ID" then Some "id-of-environment"
    else if String.eqb sName "AWS_S3_DEPLOY_SECRET_KEY" then Some ""
    else None;
  isdir sPath := String.eqb sPath "build";
  isfile sFile := bool_decide (sFile ∈ NO_CACHE_FILES)
|}.

Definition boto3 : Boto3 := {|
  client_s3 sId sKey := Sample.s3;
  client_cloudfront sId sKey := Sample.cloudfront;
  max_keys_answer sId sKey sBucket :=
    if bool_decide (sId = Some "id-of-environment") then None
    else Some (ClientError "Access Denied")
|}.

(** The same configuration without its credentials, and a machine
    that has both in its environment. *)
Definition bare : ConfigParser := {|
  has_section sSection :=
    if String.eqb sSection "aws-credentials" then false else has_section config sSection;
  has_option sSection sKey :=
    if String.eqb sSection "aws-credentials" then false
    else has_option config sSection sKey;
  option_value := option_value config
|}.


Definition ci : Machine := {|
  environ_get sName :=
    if String.eqb sName "AWS_S3_DEPLOY_ACCESS_ID" then Some "id-of-environment"
    else if String.eqb sName "AWS_S3_DEPLOY_SECRET_KEY" then Some "key-of-environment"
    else None;
  isdir := isdir os;
  isfile := isfile os
|}.

End Setup.

(** ** Notions for the run from the validation on *)

(** The line that [errorMsg] writes to the standard error. *)
Definition error_line (sMsg : string) : string :=
  ("Error: " +:+ sMsg) +:+ String Py.newline EmptyString.

(** A step that changes the bucket or the distribution. *)
Definition writes (st : step) : bool :=
  match st with
  | call ev => is_write ev
  | _ => false
  end.

(** A computation that changes nothing, and that leaves through
    [sys.exit] only with status -1, an error line being the last thing
    it wrote. *)
Definition quiet {A} (m : Prog A) : Prop :=
  (∀ st, st ∈ m.1 → writes st = false)
  ∧ ∀ code, m.2 = inl (SystemExit code) →
      code = (-1)%Z ∧ ∃ pre sMsg, m.1 = pre ++ [stderr_write (error_line sMsg)].

(** The prefix of the keys of a product's deployment. *)
Definition target_prefix (oCmdOptions : options) : string :=
  "deployments/" +:+ sProduct oCmdOptions +:+ "/" +:+ sDeployment oCmdOptions.

(** A write that stays within the target: an object of the configured
    bucket under the prefix of the deployment, or the invalidation of
    every path of the distribution configured for it. *)
Definition target_write (oCmdOptions : options) (oConfig : ConfigParser)
    (ev : event) : Prop :=
  match ev with
  | put_object _ Bucket _ _ Key | delete_object Bucket Key =>
      Bucket = option_value oConfig "general" "s3_bucket"
      ∧ ∃ sFile, Key = target_prefix oCmdOptions +:+ "/" +:+ sFile
  | create_invalidation DistributionId Items =>
      DistributionId = option_value oConfig ("cloudfront-" +:+ sProduct oCmdOptions)
                         (sDeployment oCmdOptions +:+ "-dist-id")
      ∧ Items = ["/*"]
  | _ => False
  end.

(** * Properties *)

(** ** The monad *)

Lemma bind_inv {A B} (m : M A) (f : A → M B) log r :
  m ≫= f = (log, r) →
  (∃ e, m = (log, inl e) ∧ r = inl e)
  ∨ (∃ l1 a l2, m = (l1, inr a) ∧ f a = (l2, r) ∧ log = l1 ++ l2).
Proof.
  unfold mbind, M_bind. destruct m as [l1 [e|a]].
  - intros [= <- <-]. left. eauto.
  - destruct (f a) as [l2 r'] eqn:Hf. intros [= <- <-]. right. eauto 6.
Qed.

Lemma bind_inr_inv {A B} (m : M A) (f : A → M B) log b :
  m ≫= f = (log, inr b) →
  ∃ l1 a l2, m = (l1, inr a) ∧ f a = (l2, inr b) ∧ log = l1 ++ l2.
Proof.
  intros [(e & _ & [=])|Hm]%bind_inv. exact Hm.
Qed.

Lemma bind_inr {A B} (m : M A) (f : A → M B) l1 a :
  m = (l1, inr a) → m ≫= f = (l1 ++ (f a).1, (f a).2).
Proof.
  intros ->. unfold mbind, M_bind. by destruct (f a).
Qed.

Lemma for_each_cons {A} (body : A → M ()) x l :
  for_each body (x :: l) = body x ≫= λ _, for_each body l.
Proof. reflexivity. Qed.

Lemma for_fold_cons {A B} (body : B → A → M B) x l acc :
  for_fold body (x :: l) acc = body acc x ≫= for_fold body l.
Proof. reflexivity. Qed.


(** ** Sets listed by [py_list] *)

Section Facts.
Context {host : Host}.

Lemma elem_of_py_list (X : gset string) x : x ∈ py_list X ↔ x ∈ X.
Proof. by rewrite (py_list_perm X), elem_of_elements. Qed.

Lemma NoDup_py_list (X : gset string) : NoDup (py_list X).
Proof. rewrite (py_list_perm X). apply NoDup_elements. Qed.

(** ** [searchList] *)

Lemma index_None sNeedle aHaystack :
  Py.index sNeedle aHaystack = None ↔ sNeedle ∉ aHaystack.
Proof.
  induction aHaystack as [|s l IH]; simpl.
  - split; [intros _; apply not_elem_of_nil|done].
  - destruct (String.eqb_spec s sNeedle) as [->|Hne].
    + split; [done|]. intros Hn. destruct Hn. left.
    + destruct (Py.index sNeedle l) eqn:Hi.
      * split; [done|]. intros Hn. apply not_elem_of_cons in Hn as [_ Hn].
        by apply IH in Hn.
      * split; [|done]. intros _. apply not_elem_of_cons. split; [done|].
        by apply IH.
Qed.

(** [searchList(x, l) is False] exactly when [x] is not in [l]; the
    index [0] of a first element is not [False]. *)
Lemma searchList_is_False sNeedle aHaystack :
  Py.is_False (searchList sNeedle aHaystack) = true ↔ sNeedle ∉ aHaystack.
Proof.
  unfold searchList. rewrite <-index_None.
  destruct (Py.index sNeedle aHaystack); simpl; split; done.
Qed.

Lemma searchList_not_False sNeedle aHaystack :
  negb (Py.is_False (searchList sNeedle aHaystack)) = bool_decide (sNeedle ∈ aHaystack).
Proof.
  destruct (Py.is_False (searchList sNeedle aHaystack)) eqn:Hs; simpl; symmetry.
  - apply bool_decide_eq_false. by apply searchList_is_False.
  - apply bool_decide_eq_true. destruct (decide (sNeedle ∈ aHaystack)); [done|].
    apply searchList_is_False in n. congruence.
Qed.

End Facts.

(** ** [getS3Files] *)

Section Inventory.
Context {host : Host}.

(** C9.  When the listing under the prefix is missing (the response
    has no [Contents]) or empty, [getS3Files] returns the empty
    inventory and raises nothing. *)
Theorem getS3Files_empty self sBucket sPrefix :
  list_objects_v2_answer (oBoto self) sBucket sPrefix = inr None
  ∨ list_objects_v2_answer (oBoto self) sBucket sPrefix = inr (Some []) →
  getS3Files self sBucket sPrefix = ([list_objects_v2 sBucket sPrefix], inr []).
Proof.
  unfold getS3Files, call_list_objects_v2. by intros [-> | ->].
Qed.

End Inventory.

Lemma getS3Files_empty_witness :
  getS3Files (Sample.deploy false false None) "bucket" "deployments/app/test"
  = ([list_objects_v2 "bucket" "deployments/app/test"], inr []).
Proof.
  apply getS3Files_empty. left. reflexivity.
Defined.

(** ** [compareFiles] *)

Section Compare.
Context {host : Host}.

(** The loop over the common files appends those transferred again,
    prints nothing and calls nothing; without [--force-transfer] it
    ends only if every file is in the inventory and can be read. *)
Lemma compareFiles_loop self inv l acc log r :
  for_fold (compareFiles_step self inv) l acc = (log, inr r) →
  log = []
  ∧ r = acc ++ filter (λ f, transferred_again self inv f) l
  ∧ (bForceTransfer (oCmdOptions self) = false →
     ∀ f, f ∈ l → is_Some (Py.getitem inv f) ∧ is_Some (open_rb f)).
Proof.
  revert acc log. induction l as [|x l IH]; intros acc log.
  - intros [= <- <-]. rewrite app_nil_r. split_and!; [done..|].
    intros _ f Hf. by apply elem_of_nil in Hf.
  - rewrite for_fold_cons.
    intros (l1 & acc' & l2 & Hx & Hl & ->)%bind_inr_inv.
    apply IH in Hl as (-> & -> & Hall).
    assert (l1 = []
            ∧ acc' = (if transferred_again self inv x then acc ++ [x] else acc)
            ∧ (bForceTransfer (oCmdOptions self) = false →
               is_Some (Py.getitem inv x) ∧ is_Some (open_rb x))) as (-> & -> & Hone).
    { revert Hx. unfold compareFiles_step, transferred_again, md5Checksum.
      destruct (bForceTransfer (oCmdOptions self)); simpl.
      { by intros [= <- <-]. }
      destruct (Py.getitem inv x) as [oInfo|]; [|done].
      destruct (open_rb x) as [data|]; [|done]. simpl.
      destruct (negb (FileInfo.etag oInfo =? md5_hexdigest data)%string); simpl.
      { intros [= <- <-]. eauto. }
      destruct (Py.re_match "precache-manifest" x); simpl; intros [= <- <-]; eauto. }
    split_and!; [done| |].
    + rewrite (filter_cons _ x l).
      destruct (transferred_again self inv x).
      * rewrite decide_True by done. by rewrite <-(assoc_L (++)).
      * rewrite decide_False by (by intros []). done.
    + intros Hf f [->|Hin]%elem_of_cons; [by apply Hone|by apply Hall].
Qed.

(** What [compareFiles] returns when it returns. *)
Lemma compareFiles_inr self aBuildFiles inv log up del :
  compareFiles self aBuildFiles inv = (log, inr (up, del)) →
  let setBuild : gset string := list_to_set aBuildFiles in
  let setS3 : gset string := list_to_set (Py.keys inv) in
  log = []
  ∧ up = py_list (setBuild ∖ setS3)
           ++ filter (λ f, transferred_again self inv f) (py_list (setBuild ∩ setS3))
  ∧ del = py_list (setS3 ∖ setBuild).
Proof.
  unfold compareFiles.
  intros (l1 & acc & l2 & Hloop & [= <- <- <-] & ->)%bind_inr_inv.
  apply compareFiles_loop in Hloop as (-> & -> & _). done.
Qed.

Lemma getitem_keys {V} (d : Py.dict V) k :
  is_Some (Py.getitem d k) ↔ k ∈ Py.keys d.
Proof.
  unfold Py.keys. induction d as [|[k' v] d IH]; simpl.
  - split; [by intros [? [=]]|]. intros Hn. by apply elem_of_nil in Hn.
  - destruct (String.eqb_spec k' k) as [->|Hne].
    + split; [left|eauto].
    + rewrite IH. split; [by right|].
      by intros [?|?]%elem_of_cons.
Qed.

(** [compareFiles] returns as soon as the files found on both sides can
    be read. *)
Lemma compareFiles_total self aBuildFiles inv :
  (∀ f, f ∈ aBuildFiles → f ∈ Py.keys inv → is_Some (open_rb f)) →
  ∃ up del, compareFiles self aBuildFiles inv = ([], inr (up, del)).
Proof.
  intros Hread. unfold compareFiles.
  set (common := py_list (list_to_set aBuildFiles ∩ list_to_set (Py.keys inv))).
  assert (∀ f, f ∈ common → is_Some (Py.getitem inv f) ∧ is_Some (open_rb f)) as Hall.
  { intros f [Hb Hk]%elem_of_py_list%elem_of_intersection.
    apply elem_of_list_to_set in Hb, Hk. split; [by apply getitem_keys|by apply Hread]. }
  assert (∀ acc, ∃ r, for_fold (compareFiles_step self inv) common acc = ([], inr r))
    as Hloop.
  { clearbody common. induction common as [|x l IH]; intros acc; [by eexists|].
    destruct (Hall x) as [[oInfo Hget] [data Hopen]]; [left|].
    assert (∃ acc', compareFiles_step self inv acc x = ([], inr acc')) as [acc' Hstep].
    { unfold compareFiles_step, md5Checksum. rewrite Hget, Hopen.
      destruct (bForceTransfer _); [by eexists|]. simpl.
      destruct (negb _); [by eexists|].
      destruct (Py.re_match _ _); by eexists. }
    destruct (IH (λ f Hf, Hall f (list_elem_of_further _ _ _ Hf)) acc') as [r Hr].
    exists r. by rewrite for_fold_cons, (bind_inr _ _ _ _ Hstep), Hr. }
  destruct (Hloop (py_list (list_to_set aBuildFiles ∖ list_to_set (Py.keys inv))))
    as [r Hr].
  eexists _, _. by rewrite (bind_inr _ _ _ _ Hr).
Qed.

Lemma elem_of_upload self aBuildFiles inv log up del f :
  compareFiles self aBuildFiles inv = (log, inr (up, del)) →
  f ∈ up ↔
  f ∈ aBuildFiles ∧ (f ∉ Py.keys inv ∨ transferred_again self inv f = true).
Proof.
  intros (_ & -> & _)%compareFiles_inr.
  rewrite elem_of_app, list_elem_of_filter, !elem_of_py_list.
  rewrite elem_of_difference, elem_of_intersection, !elem_of_list_to_set.
  rewrite Is_true_true.
  destruct (decide (f ∈ Py.keys inv)); tauto.
Qed.

Lemma elem_of_delete self aBuildFiles inv log up del f :
  compareFiles self aBuildFiles inv = (log, inr (up, del)) →
  f ∈ del ↔ f ∈ Py.keys inv ∧ f ∉ aBuildFiles.
Proof.
  intros (_ & _ & ->)%compareFiles_inr.
  by rewrite elem_of_py_list, elem_of_difference, !elem_of_list_to_set.
Qed.

(** C2.  Whenever [compareFiles] returns, no file is both transferred
    and removed, every file to transfer is a build file, and every file
    to remove is a key of the inventory. *)
Theorem compareFiles_disjoint self aBuildFiles aS3FileInfo log aNewFiles aOldS3Files :
  compareFiles self aBuildFiles aS3FileInfo = (log, inr (aNewFiles, aOldS3Files)) →
  (∀ f, f ∈ aNewFiles → f ∉ aOldS3Files)
  ∧ (∀ f, f ∈ aNewFiles → f ∈ aBuildFiles)
  ∧ (∀ f, f ∈ aOldS3Files → f ∈ Py.keys aS3FileInfo).
Proof.
  intros Hc. split_and!; intros f.
  - rewrite (elem_of_upload _ _ _ _ _ _ _ Hc), (elem_of_delete _ _ _ _ _ _ _ Hc).
    tauto.
  - rewrite (elem_of_upload _ _ _ _ _ _ _ Hc). tauto.
  - rewrite (elem_of_delete _ _ _ _ _ _ _ Hc). tauto.
Qed.

(** C3.  Without [--force-transfer], a file found on both sides whose
    MD5 checksum is the etag of the inventory and whose key does not
    start with [precache-manifest] is neither transferred nor
    removed. *)
Theorem compareFiles_unchanged self aBuildFiles aS3FileInfo log aNewFiles aOldS3Files
    sFile oInfo :
  compareFiles self aBuildFiles aS3FileInfo = (log, inr (aNewFiles, aOldS3Files)) →
  bForceTransfer (oCmdOptions self) = false →
  sFile ∈ aBuildFiles →
  Py.getitem aS3FileInfo sFile = Some oInfo →
  md5Checksum sFile = ([], inr (FileInfo.etag oInfo)) →
  Py.re_match "precache-manifest" sFile = false →
  (sFile ∉ aNewFiles) ∧ (sFile ∉ aOldS3Files).
Proof.
  intros Hc Hforce Hbuild Hget Hsum Hpat.
  rewrite (elem_of_upload _ _ _ _ _ _ _ Hc), (elem_of_delete _ _ _ _ _ _ _ Hc).
  assert (sFile ∈ Py.keys aS3FileInfo) as Hkey by (apply getitem_keys; eauto).
  assert (transferred_again self aS3FileInfo sFile = false) as Hno.
  { unfold transferred_again. rewrite Hforce, Hget, Hpat. simpl.
    revert Hsum. unfold md5Checksum. destruct (open_rb sFile); [|done].
    intros [= <-]. by rewrite String.eqb_refl. }
  rewrite Hno. split; [intros [_ [?|?]]; done|tauto].
Qed.

(** C4, amended.  A file found on both sides whose key starts with
    [precache-manifest] is transferred whenever [compareFiles] returns,
    also without [--force-transfer] and with equal checksums. *)
Theorem compareFiles_manifest self aBuildFiles aS3FileInfo log aNewFiles aOldS3Files
    sFile :
  compareFiles self aBuildFiles aS3FileInfo = (log, inr (aNewFiles, aOldS3Files)) →
  sFile ∈ aBuildFiles →
  sFile ∈ Py.keys aS3FileInfo →
  Py.re_match "precache-manifest" sFile = true →
  sFile ∈ aNewFiles.
Proof.
  intros Hc Hbuild Hkey Hpat.
  rewrite (elem_of_upload _ _ _ _ _ _ _ Hc). split; [done|right].
  unfold transferred_again. destruct (bForceTransfer (oCmdOptions self)) eqn:Hforce; [done|].
  unfold compareFiles in Hc.
  apply bind_inr_inv in Hc as (l1 & acc & l2 & Hloop & _ & _).
  apply compareFiles_loop in Hloop as (_ & _ & Hall).
  destruct (Hall Hforce sFile) as [[oInfo ->] [data ->]].
  { apply elem_of_py_list, elem_of_intersection. by rewrite !elem_of_list_to_set. }
  rewrite Hpat. simpl. by rewrite orb_true_r.
Qed.

(** C5.  With [--force-transfer], [compareFiles] returns, and every
    file found on both sides is transferred, whatever the checksums. *)
Theorem compareFiles_force self aBuildFiles aS3FileInfo :
  bForceTransfer (oCmdOptions self) = true →
  ∃ aNewFiles aOldS3Files,
    compareFiles self aBuildFiles aS3FileInfo = ([], inr (aNewFiles, aOldS3Files))
    ∧ ∀ sFile, sFile ∈ aBuildFiles → sFile ∈ Py.keys aS3FileInfo → sFile ∈ aNewFiles.
Proof.
  intros Hforce.
  assert (∀ l acc, for_fold (compareFiles_step self aS3FileInfo) l acc
                   = ([], inr (acc ++ l))) as Hloop.
  { induction l as [|x l IH]; intros acc.
    - simpl. by rewrite app_nil_r.
    - rewrite for_fold_cons.
      rewrite (bind_inr _ _ [] (acc ++ [x])), IH.
      + simpl. by rewrite <-(assoc_L (++)).
      + unfold compareFiles_step. by rewrite Hforce. }
  eexists _, _. split.
  - unfold compareFiles. rewrite Hloop. reflexivity.
  - intros f Hb Hk. apply elem_of_app. right.
    apply elem_of_py_list, elem_of_intersection. by rewrite !elem_of_list_to_set.
Qed.

End Compare.

(** The sample build against the sample inventory: three files to
    transfer, four to remove. *)
Lemma sample_compareFiles :
  compareFiles (host := Sample.host) (Sample.deploy false false None)
    (getCwdFiles (host := Sample.host)) Sample.inventory
  = ([], inr (["static/main.v3.js"; "precache-manifest.v3.js"; "asset-manifest.json"],
              ["static/main.v1.js"; "static/main.v2.js";
               "precache-manifest.v1.js"; "precache-manifest.v2.js"])).
Proof. vm_compute. reflexivity. Qed.

Lemma compareFiles_disjoint_witness :
  let aNewFiles := ["static/main.v3.js"; "precache-manifest.v3.js"; "asset-manifest.json"] in
  let aOldS3Files := ["static/main.v1.js"; "static/main.v2.js";
                      "precache-manifest.v1.js"; "precache-manifest.v2.js"] in
  (∀ f, f ∈ aNewFiles → f ∉ aOldS3Files)
  ∧ (∀ f, f ∈ aNewFiles → f ∈ getCwdFiles (host := Sample.host))
  ∧ (∀ f, f ∈ aOldS3Files → f ∈ Py.keys Sample.inventory).
Proof.
  apply (compareFiles_disjoint (host := Sample.host) (Sample.deploy false false None)
           (getCwdFiles (host := Sample.host)) Sample.inventory []).
  vm_compute. reflexivity.
Defined.

Lemma compareFiles_unchanged_witness :
  ("service-worker.js" ∉ ["static/main.v3.js"; "precache-manifest.v3.js"; "asset-manifest.json"])
  ∧ ("service-worker.js" ∉ ["static/main.v1.js"; "static/main.v2.js";
                             "precache-manifest.v1.js"; "precache-manifest.v2.js"]).
Proof.
  apply (compareFiles_unchanged (host := Sample.host) (Sample.deploy false false None)
           (getCwdFiles (host := Sample.host)) Sample.inventory [] _ _
           "service-worker.js"
           (FileInfo.make "service-worker.js" (Sample.same "service-worker.js") 10 200)).
  - vm_compute. reflexivity.
  - reflexivity.
  - compute_done.
  - vm_compute. reflexivity.
  - vm_compute. reflexivity.
  - vm_compute. reflexivity.
Defined.

(** C4, as stated, fails: [static/precache-manifest.x.js] is found on
    both sides with equal checksums, its file name starts with
    [precache-manifest], and without [--force-transfer] it is not
    transferred, because the pattern is matched at the start of the
    key. *)
Lemma compareFiles_manifest_in_subdirectory :
  ¬ (∀ (host : Host) self aBuildFiles aS3FileInfo log aNewFiles aOldS3Files sFile oInfo,
       compareFiles self aBuildFiles aS3FileInfo = (log, inr (aNewFiles, aOldS3Files)) →
       bForceTransfer (oCmdOptions self) = false →
       sFile ∈ aBuildFiles →
       Py.getitem aS3FileInfo sFile = Some oInfo →
       md5Checksum sFile = ([], inr (FileInfo.etag oInfo)) →
       Py.re_match "precache-manifest" (filename sFile) = true →
       sFile ∈ aNewFiles).
Proof.
  intros Hclaim.
  specialize (Hclaim Sample.host (Sample.deploy false false None)
                (getCwdFiles (host := Sample.host)) Sample.inventory [] _ _
                "static/precache-manifest.x.js"
                (FileInfo.make "static/precache-manifest.x.js"
                   (Sample.same "static/precache-manifest.x.js") 10 200)
                sample_compareFiles).
  assert ("static/precache-manifest.x.js"
          ∉ ["static/main.v3.js"; "precache-manifest.v3.js"; "asset-manifest.json"]) as Hnot.
  { compute_done. }
  apply Hnot, Hclaim.
  - reflexivity.
  - compute_done.
  - vm_compute. reflexivity.
  - vm_compute. reflexivity.
  - vm_compute. reflexivity.
Qed.

Lemma compareFiles_manifest_witness :
  "precache-manifest.v3.js"
  ∈ ["static/main.v3.js"; "asset-manifest.json"; "precache-manifest.v3.js"].
Proof.
  apply (compareFiles_manifest (host := Sample.host) (Sample.deploy false false None)
           ("precache-manifest.v3.js" :: getCwdFiles (host := Sample.host))
           (("precache-manifest.v3.js",
             FileInfo.make "precache-manifest.v3.js" (Sample.same "precache-manifest.v3.js") 10 300)
              :: Sample.inventory) []
           _ ["static/main.v1.js"; "static/main.v2.js";
              "precache-manifest.v1.js"; "precache-manifest.v2.js"]).
  - vm_compute. reflexivity.
  - compute_done.
  - compute_done.
  - vm_compute. reflexivity.
Defined.

Lemma compareFiles_force_witness :
  ∃ aNewFiles aOldS3Files,
    compareFiles (host := Sample.host) (Sample.deploy false true None)
      (getCwdFiles (host := Sample.host)) Sample.inventory
    = ([], inr (aNewFiles, aOldS3Files))
    ∧ ∀ sFile, sFile ∈ getCwdFiles (host := Sample.host) →
               sFile ∈ Py.keys Sample.inventory → sFile ∈ aNewFiles.
Proof.
  apply (compareFiles_force (host := Sample.host)). reflexivity.
Defined.

(** ** Logs of loops *)

Lemma bind_ext {A B} (m : M A) (f g : A → M B) :
  (∀ a, f a = g a) → m ≫= f = m ≫= g.
Proof.
  intros Hfg. unfold mbind, M_bind. destruct m as [l1 [e|a]]; [done|].
  by rewrite Hfg.
Qed.

Lemma bind_log {A B} (m : M A) (f : A → M B) ev :
  ev ∈ (m ≫= f).1 → ev ∈ m.1 ∨ ∃ a, m.2 = inr a ∧ ev ∈ (f a).1.
Proof.
  unfold mbind, M_bind. destruct m as [l1 [e|a]]; simpl; [by left|].
  destruct (f a) as [l2 r] eqn:Hf. simpl.
  intros [?|?]%elem_of_app; [by left|]. right. exists a. by rewrite Hf.
Qed.


(** Rounds that all end make a loop that ends. *)
Lemma for_each_total {A} (body : A → M ()) l :
  (∀ x, x ∈ l → (body x).2 = inr ()) → (for_each body l).2 = inr ().
Proof.
  induction l as [|y l IH]; intros Hall; [done|].
  rewrite for_each_cons.
  destruct (body y) as [l1 r1] eqn:Hy.
  assert (r1 = inr ()) as ->.
  { specialize (Hall y). rewrite Hy in Hall. apply Hall. left. }
  rewrite (bind_inr _ _ l1 ()) by done. simpl.
  apply IH. intros x Hx. apply Hall. by right.
Qed.

(** ** [transferFiles] *)

Section Transfer.
Context {host : Host}.


(** The events of one round of [transferFiles]. *)
Lemma transferFiles_step_log self sBucket sPrefix sFile ev :
  ev ∈ (transferFiles_step self sBucket sPrefix sFile).1 →
  ev = print (" - transfering to s3://" +:+ sBucket +:+ "/" +:+ sPrefix +:+ "/" +:+ sFile)
  ∨ bDryRun (oCmdOptions self) = false
    ∧ ∃ data, open_rb sFile = Some data
      ∧ ev = put_object data sBucket
               (if Py.is_False (searchList sFile NO_CACHE_FILES)
                then sCacheAlways else sCacheNever)
               (guess_type sFile) (sPrefix +:+ "/" +:+ sFile).
Proof.
  unfold transferFiles_step, call_put_object.
  destruct (bDryRun (oCmdOptions self)); simpl.
  { intros ->%list_elem_of_singleton. by left. }
  destruct (open_rb sFile) as [data|]; simpl.
  2:{ intros ->%list_elem_of_singleton. by left. }
  destruct (Py.is_False (searchList sFile NO_CACHE_FILES)); simpl;
    destruct (put_object_answer _ _ _); simpl;
    (intros [-> | ->%list_elem_of_singleton]%elem_of_cons; [by left|right; eauto]).
Qed.



End Transfer.


(** ** What each method can log *)

Lemma log_all_ret {A} P (a : A) : log_all P (mret a).
Proof. intros ev Hev. by apply elem_of_nil in Hev. Qed.

Lemma log_all_raise {A} P e : log_all P (raise (A := A) e).
Proof. intros ev Hev. by apply elem_of_nil in Hev. Qed.

Lemma log_all_emit (P : event → Prop) ev : P ev → log_all P (emit ev).
Proof. by intros HP ev' ->%list_elem_of_singleton. Qed.

Lemma log_all_bind {A B} P (m : M A) (f : A → M B) :
  log_all P m → (∀ a, m.2 = inr a → log_all P (f a)) → log_all P (m ≫= f).
Proof.
  intros Hm Hf ev [Hev|(a & Ha & Hev)]%bind_log; [by apply Hm|by apply (Hf a)].
Qed.

Lemma log_all_for_each {A} P (body : A → M ()) l :
  (∀ x, x ∈ l → log_all P (body x)) → log_all P (for_each body l).
Proof.
  induction l as [|x l IH]; intros Hall; [apply log_all_ret|].
  rewrite for_each_cons. apply log_all_bind; [apply Hall; left|].
  intros _ _. apply IH. intros y Hy. apply Hall. by right.
Qed.

Lemma log_all_for_fold {A B} P (body : B → A → M B) l acc :
  (∀ acc' x, log_all P (body acc' x)) → log_all P (for_fold body l acc).
Proof.
  intros Hall. revert acc. induction l as [|x l IH]; intros acc; [apply log_all_ret|].
  rewrite for_fold_cons. apply log_all_bind; [apply Hall|]. intros acc' _. apply IH.
Qed.

Lemma surjective_run {A} (m : M A) r : m.2 = r → m = (m.1, r).
Proof. intros <-. by destruct m. Qed.

Create HintDb log.
#[local] Hint Resolve log_all_ret log_all_raise log_all_emit : log.

Section Logs.
Context {host : Host}.
Variable P : event → Prop.

Lemma getS3Files_log self sBucket sPrefix :
  P (list_objects_v2 sBucket sPrefix) → log_all P (getS3Files self sBucket sPrefix).
Proof.
  intros HP. unfold getS3Files, call_list_objects_v2.
  apply log_all_bind.
  - apply log_all_bind; [auto with log|]. intros _ _.
    destruct (list_objects_v2_answer _ _ _); auto with log.
  - intros [aContents|] _; auto with log.
Qed.

Lemma compareFiles_log self aBuildFiles aS3FileInfo :
  log_all P (compareFiles self aBuildFiles aS3FileInfo).
Proof.
  unfold compareFiles. apply log_all_bind; [|auto with log].
  apply log_all_for_fold. intros acc x. unfold compareFiles_step, md5Checksum.
  destruct (bForceTransfer _); [auto with log|].
  destruct (Py.getitem _ _); [|auto with log].
  apply log_all_bind; [destruct (open_rb x); auto with log|].
  intros sSum _. destruct (negb _); [auto with log|].
  destruct (Py.re_match _ _); auto with log.
Qed.

Lemma maintainVersions_log self aS3FileInfo aOldS3Files n sBucket sPrefix :
  (∀ sKey, P (get_object sBucket sKey)) →
  log_all P (maintainVersions self aS3FileInfo aOldS3Files n sBucket sPrefix).
Proof.
  intros HP. unfold maintainVersions. apply log_all_bind; [|auto with log].
  apply log_all_for_fold. intros acc oFile.
  unfold maintainVersions_step, call_get_object.
  apply log_all_bind; [|auto with log].
  apply log_all_bind; [auto with log|]. intros _ _.
  destruct (get_object_answer _ _ _); auto with log.
Qed.

Lemma transferFiles_log self sBucket sPrefix aFiles :
  (∀ line, P (print line)) →
  (bDryRun (oCmdOptions self) = false →
   ∀ data sCache sMime sKey, P (put_object data sBucket sCache sMime sKey)) →
  log_all P (transferFiles self sBucket sPrefix aFiles).
Proof.
  intros Hprint Hput. apply log_all_for_each. intros sFile _ ev Hev.
  apply transferFiles_step_log in Hev as [->|(Hwet & data & _ & ->)]; auto.
Qed.

Lemma removeS3Files_log self sBucket sPrefix aFiles :
  (∀ line, P (print line)) →
  (bDryRun (oCmdOptions self) = false →
   ∀ sFile, sFile ∈ aFiles → P (delete_object sBucket (sPrefix +:+ "/" +:+ sFile))) →
  log_all P (removeS3Files self sBucket sPrefix aFiles).
Proof.
  intros Hprint Hdel. apply log_all_for_each. intros sFile Hfile.
  unfold removeS3Files_step, call_delete_object.
  apply log_all_bind; [auto with log|]. intros _ _.
  destruct (bDryRun (oCmdOptions self)); cbn [negb]; [auto with log|].
  apply log_all_bind; [auto with log|]. intros _ _.
  destruct (delete_object_answer _ _ _); auto with log.
Qed.

Lemma clearCloudFront_log self :
  (∀ line, P (print line)) →
  (bDryRun (oCmdOptions self) = false →
   P (create_invalidation (CF_DIST_ID self) ["/*"])) →
  log_all P (clearCloudFront self).
Proof.
  intros Hprint Hinv. unfold clearCloudFront, statusMsg, call_create_invalidation.
  destruct (bDryRun (oCmdOptions self)); [auto with log|].
  apply log_all_bind.
  { apply log_all_bind; auto with log. }
  intros _ _. apply log_all_bind; [auto with log|]. intros _ _.
  destruct (create_invalidation_answer _ _); auto with log.
Qed.

End Logs.

(** ** [maintainVersions] *)

Section Versions.
Context {host : Host}.

(** The first loop keeps the [iVersions] first superseded manifests of
    the inventory, none when [iVersions] is not positive. *)
Lemma collect_manifests_take aOldS3Files n items acc :
  collect_manifests aOldS3Files n items acc =
  if (n <=? Z.of_nat (length acc))%Z then acc
  else acc ++ (take (Z.to_nat n - length acc)
                 (List.filter (superseded_manifest aOldS3Files) items)).*2.
Proof.
  revert acc. induction items as [|[sKey oFile] rest IH]; intros acc; simpl.
  - destruct (n <=? _)%Z; [done|]. by rewrite take_nil, app_nil_r.
  - destruct (Z.leb_spec n (Z.of_nat (length acc))) as [Hle|Hgt]; [done|].
    unfold superseded_manifest at 1. simpl. rewrite searchList_not_False.
    destruct (Py.re_match _ sKey && bool_decide _) eqn:Hq; rewrite IH.
    + rewrite length_app. simpl.
      destruct (Z.leb_spec n (Z.of_nat (length acc + 1))) as [Hle|Hgt'].
      * by replace (Z.to_nat n - length acc) with 1 by lia.
      * replace (Z.to_nat n - length acc) with (S (Z.to_nat n - (length acc + 1))) by lia.
        simpl. by rewrite <-(assoc_L (++)).
    + destruct (Z.leb_spec n (Z.of_nat (length acc))); [lia|done].
Qed.

Lemma collect_manifests_retained aS3FileInfo aOldS3Files n :
  collect_manifests aOldS3Files n aS3FileInfo [] = (retained aS3FileInfo aOldS3Files n).*2.
Proof.
  rewrite collect_manifests_take. unfold retained. simpl.
  destruct (Z.leb_spec n (Z.of_nat 0)) as [Hle|Hgt].
  - by replace (Z.to_nat n) with 0 by lia.
  - by rewrite Nat.sub_0_r.
Qed.

(** The second loop ends only if every manifest could be fetched, and
    then excludes what each of them keeps. *)
Lemma maintainVersions_loop self sBucket sPrefix aManifests acc log r :
  for_fold (maintainVersions_step self sBucket sPrefix) aManifests acc = (log, inr r) →
  r = acc ++ (aManifests ≫= kept_by self sBucket sPrefix)
  ∧ ∀ oFile, oFile ∈ aManifests →
      ∃ sBody, get_object_answer (oBoto self) sBucket
                 (sPrefix +:+ "/" +:+ FileInfo.key oFile) = inr sBody.
Proof.
  revert acc log. induction aManifests as [|oFile rest IH]; intros acc log.
  - intros [= <- <-]. rewrite app_nil_r. split; [done|].
    intros oFile Hin. by apply elem_of_nil in Hin.
  - rewrite for_fold_cons.
    intros (l1 & acc' & l2 & Hstep & Hrest & ->)%bind_inr_inv.
    apply IH in Hrest as [-> Hall].
    revert Hstep. unfold maintainVersions_step, call_get_object.
    destruct (get_object_answer (oBoto self) sBucket
                (sPrefix +:+ "/" +:+ FileInfo.key oFile)) as [e|sBody] eqn:Hget;
      [done|].
    intros [= <- <-]. split.
    + rewrite bind_cons. unfold kept_by at 2. rewrite Hget.
      by rewrite <-!(assoc_L (++)).
    + intros oFile' [->|Hin]%elem_of_cons; [eauto|by apply Hall].
Qed.

Lemma maintainVersions_loop_total self sBucket sPrefix aManifests acc :
  (∀ oFile, oFile ∈ aManifests →
     ∃ sBody, get_object_answer (oBoto self) sBucket
                (sPrefix +:+ "/" +:+ FileInfo.key oFile) = inr sBody) →
  ∃ log r, for_fold (maintainVersions_step self sBucket sPrefix) aManifests acc
           = (log, inr r).
Proof.
  revert acc. induction aManifests as [|oFile rest IH]; intros acc Hall.
  - by eexists _, _.
  - destruct (Hall oFile) as [sBody Hget]; [left|].
    destruct (IH ((acc ++ [FileInfo.key oFile]) ++ Py.findall_url sBody)) as (l2 & r & Hrest).
    { intros oFile' Hin. apply Hall. by right. }
    rewrite for_fold_cons. erewrite bind_inr.
    2:{ unfold maintainVersions_step, call_get_object. rewrite Hget. reflexivity. }
    rewrite Hrest. by eexists _, _.
Qed.

(** What [maintainVersions] returns when it returns. *)
Lemma maintainVersions_inr self aS3FileInfo aOldS3Files n sBucket sPrefix log r f :
  maintainVersions self aS3FileInfo aOldS3Files n sBucket sPrefix = (log, inr r) →
  f ∈ r ↔
  f ∈ aOldS3Files
  ∧ ∀ item, item ∈ retained aS3FileInfo aOldS3Files n →
            f ∉ kept_by self sBucket sPrefix item.2.
Proof.
  unfold maintainVersions. rewrite collect_manifests_retained.
  intros (l1 & aExclude & l2 & Hloop & [= <- <-] & ->)%bind_inr_inv.
  apply maintainVersions_loop in Hloop as [-> _]. simpl.
  rewrite elem_of_py_list, elem_of_difference, !elem_of_list_to_set.
  rewrite list_elem_of_bind. split; intros [Hold Hno]; (split; [done|]).
  - intros item Hitem Hkept. apply Hno. exists item.2. split; [done|].
    apply list_elem_of_fmap. eauto.
  - intros (oFile & Hkept & (item & -> & Hitem)%list_elem_of_fmap).
    by apply (Hno item).
Qed.

(** It returns as soon as the retained manifests can be fetched. *)
Lemma maintainVersions_total self aS3FileInfo aOldS3Files n sBucket sPrefix :
  (∀ item, item ∈ retained aS3FileInfo aOldS3Files n →
     ∃ sBody, get_object_answer (oBoto self) sBucket
                (sPrefix +:+ "/" +:+ FileInfo.key item.2) = inr sBody) →
  ∃ log r, maintainVersions self aS3FileInfo aOldS3Files n sBucket sPrefix = (log, inr r).
Proof.
  intros Hall. unfold maintainVersions. rewrite collect_manifests_retained.
  destruct (maintainVersions_loop_total self sBucket sPrefix
              (retained aS3FileInfo aOldS3Files n).*2 []) as (log & r & Hloop).
  { intros oFile (item & -> & Hitem)%list_elem_of_fmap. by apply Hall. }
  erewrite bind_inr by exact Hloop. by eexists _, _.
Qed.

Lemma StronglySorted_filter {A} (R : relation A) (p : A → bool) l :
  StronglySorted R l → StronglySorted R (List.filter p l).
Proof.
  induction 1 as [|x l Hl IH Hx]; simpl; [constructor|].
  destruct (p x); [|done]. constructor; [done|].
  rewrite Forall_forall in Hx |- *. intros y Hy.
  apply Hx. apply list_elem_of_In in Hy. apply filter_In in Hy as [Hy _].
  by apply list_elem_of_In.
Qed.

(** In an inventory that lists the newest first, the retained
    manifests are the newest of the superseded ones. *)
Lemma retained_newest aS3FileInfo aOldS3Files n item other :
  newest_first aS3FileInfo →
  item ∈ retained aS3FileInfo aOldS3Files n →
  other ∈ aS3FileInfo →
  superseded_manifest aOldS3Files other = true →
  other ∉ retained aS3FileInfo aOldS3Files n →
  (FileInfo.modified other.2 ≤ FileInfo.modified item.2)%Z.
Proof.
  unfold newest_first, retained. intros Hsorted Hitem Hother Hq Hnot.
  apply (StronglySorted_filter _ (superseded_manifest aOldS3Files)) in Hsorted.
  rewrite <-(take_drop (Z.to_nat n) (List.filter _ aS3FileInfo)) in Hsorted.
  apply (StronglySorted_app_1_elem_of _ _ _ item other) in Hsorted; [done..|].
  assert (other ∈ List.filter (superseded_manifest aOldS3Files) aS3FileInfo) as Hin.
  { apply list_elem_of_In, filter_In. by rewrite <-list_elem_of_In. }
  rewrite <-(take_drop (Z.to_nat n) (List.filter _ aS3FileInfo)) in Hin.
  by apply elem_of_app in Hin as [Hin|Hin].
Qed.

(** What [maintainVersions] does keep.  When it returns, every retained
    manifest (one of the [iVersions] first items of the inventory that
    are manifests and candidates for removal) was fetched, and its own
    key and every path that the scan finds in the text of its body are
    absent from the returned list; the returned list holds exactly the
    candidates that no retained manifest keeps in this way; and in an
    inventory that lists the newest first, the retained manifests are
    the newest ones.  The text is [str] of the bytes, which is not the
    bytes themselves, and the inventory need not list the newest first:
    the runs on [Apostrophe] and on [Nested] below show both. *)
Theorem maintainVersions_protects self aS3FileInfo aOldS3Files n sBucket sPrefix log r :
  (0 < n)%Z →
  maintainVersions self aS3FileInfo aOldS3Files n sBucket sPrefix = (log, inr r) →
  (∀ item, item ∈ retained aS3FileInfo aOldS3Files n →
     ∃ sBody,
       get_object_answer (oBoto self) sBucket
         (sPrefix +:+ "/" +:+ FileInfo.key item.2) = inr sBody
       ∧ (FileInfo.key item.2 ∉ r)
       ∧ ∀ sUrl, sUrl ∈ Py.findall_url sBody → sUrl ∉ r)
  ∧ (∀ f, f ∈ r ↔
          f ∈ aOldS3Files
          ∧ ∀ item, item ∈ retained aS3FileInfo aOldS3Files n →
                    f ∉ kept_by self sBucket sPrefix item.2)
  ∧ (newest_first aS3FileInfo →
     ∀ item other,
       item ∈ retained aS3FileInfo aOldS3Files n →
       other ∈ aS3FileInfo →
       superseded_manifest aOldS3Files other = true →
       other ∉ retained aS3FileInfo aOldS3Files n →
       (FileInfo.modified other.2 ≤ FileInfo.modified item.2)%Z).
Proof.
  intros _ Hrun. split_and!.
  - intros item Hitem.
    pose proof Hrun as Hloop. unfold maintainVersions in Hloop.
    rewrite collect_manifests_retained in Hloop.
    apply bind_inr_inv in Hloop as (l1 & aExclude & l2 & Hloop & _ & _).
    apply maintainVersions_loop in Hloop as [_ Hall].
    destruct (Hall item.2) as [sBody Hget]; [apply list_elem_of_fmap; eauto|].
    exists sBody. split_and!; [done| |].
    + rewrite (maintainVersions_inr _ _ _ _ _ _ _ _ _ Hrun). intros [_ Hno].
      apply (Hno item Hitem). left.
    + intros sUrl Hurl.
      rewrite (maintainVersions_inr _ _ _ _ _ _ _ _ _ Hrun). intros [_ Hno].
      apply (Hno item Hitem). unfold kept_by. rewrite Hget. by right.
  - intros f. by apply (maintainVersions_inr _ _ _ _ _ _ log).
  - intros Hsorted item other. by apply retained_newest.
Qed.

(** Whatever the count, [maintainVersions] returns only candidates for
    removal. *)
Lemma maintainVersions_subset self aS3FileInfo aOldS3Files n sBucket sPrefix log r :
  maintainVersions self aS3FileInfo aOldS3Files n sBucket sPrefix = (log, inr r) →
  ∀ f, f ∈ r → f ∈ aOldS3Files.
Proof.
  intros Hrun f. rewrite (maintainVersions_inr _ _ _ _ _ _ _ _ _ Hrun). tauto.
Qed.

End Versions.

(** ** The order of the inventory *)

Section Order.
Context {A : Type} (f : A → Z).

Lemma insert_desc_perm x l : Py.insert_desc f x l ≡ₚ x :: l.
Proof.
  induction l as [|y l IH]; simpl; [done|].
  destruct (f x <? f y)%Z; [|done].
  rewrite IH. apply Permutation_swap.
Qed.

Lemma sorted_reverse_perm l : Py.sorted_reverse f l ≡ₚ l.
Proof.
  unfold Py.sorted_reverse. induction l as [|x l IH]; simpl; [done|].
  by rewrite insert_desc_perm, IH.
Qed.

Lemma insert_desc_sorted x l :
  StronglySorted (λ a b, (f b ≤ f a)%Z) l →
  StronglySorted (λ a b, (f b ≤ f a)%Z) (Py.insert_desc f x l).
Proof.
  induction 1 as [|y l Hl IH Hy]; simpl; [repeat constructor|].
  destruct (Z.ltb_spec (f x) (f y)) as [Hlt|Hge].
  - constructor; [done|].
    rewrite insert_desc_perm. constructor; [lia|done].
  - constructor; [by constructor|].
    constructor; [done|].
    eapply Forall_impl; [exact Hy|]. simpl. intros z Hz. lia.
Qed.

(** [sorted(..., reverse=True)] lists the greatest keys first. *)
Lemma sorted_reverse_sorted l :
  StronglySorted (λ a b, (f b ≤ f a)%Z) (Py.sorted_reverse f l).
Proof.
  unfold Py.sorted_reverse. induction l as [|x l IH]; simpl; [constructor|].
  by apply insert_desc_sorted.
Qed.

End Order.

Section Dict.
Context {A V : Type} (k : A → string) (v : A → V).

Lemma setitem_new (d : Py.dict V) sKey x :
  sKey ∉ d.*1 → Py.setitem d sKey x = d ++ [(sKey, x)].
Proof.
  induction d as [|[k' v'] d IH]; simpl; [done|].
  intros [Hne Hnot]%not_elem_of_cons.
  destruct (String.eqb_spec k' sKey) as [->|_]; [done|]. by rewrite IH.
Qed.

(** Filling a dict with distinct keys lists them in the order of the
    assignments. *)
Lemma foldl_setitem_distinct (l : list A) (d : Py.dict V) :
  NoDup (d.*1 ++ (k <$> l)) →
  foldl (λ d x, Py.setitem d (k x) (v x)) d l = d ++ ((λ x, (k x, v x)) <$> l).
Proof.
  revert d. induction l as [|x l IH]; intros d Hnd; simpl.
  - by rewrite app_nil_r.
  - rewrite setitem_new.
    2:{ apply NoDup_app in Hnd as (_ & Hnd & _). intros Hin.
        apply (Hnd _ Hin). left. }
    rewrite IH, <-(assoc_L (++)); [done|].
    rewrite fmap_app. simpl. by rewrite <-(assoc_L (++)).
Qed.

Lemma setitem_Forall (Q : string * V → Prop) (d : Py.dict V) sKey x :
  Forall Q d → Q (sKey, x) → Forall Q (Py.setitem d sKey x).
Proof.
  intros Hd Hq. induction Hd as [|[k' v'] d Hx Hd IH]; simpl.
  - by constructor.
  - destruct (String.eqb_spec k' sKey) as [->|_]; by constructor.
Qed.

End Dict.

Section InventoryOrder.

(** Every record of the inventory carries the key it is stored
    under. *)
Lemma getS3Files_keys self sBucket sPrefix log aS3FileInfo :
  getS3Files self sBucket sPrefix = (log, inr aS3FileInfo) →
  ∀ item, item ∈ aS3FileInfo → FileInfo.key item.2 = item.1.
Proof.
  unfold getS3Files.
  intros (l1 & oResponse & l2 & _ & Hret & _)%bind_inr_inv.
  destruct oResponse as [aContents|].
  2:{ injection Hret as <- <-. intros item Hin. by apply elem_of_nil in Hin. }
  injection Hret as <- <-. intros item Hin.
  eapply (proj1 (Forall_forall (λ item : string * FileInfo.t,
                                  FileInfo.key item.2 = item.1) _)); [|exact Hin].
  clear. generalize (Py.sorted_reverse get_last_modified aContents). intros l.
  assert (Forall (λ item : string * FileInfo.t, FileInfo.key item.2 = item.1) [])
    as Hnil by constructor.
  revert Hnil. generalize (@nil (string * FileInfo.t)).
  induction l as [|x l IH]; intros d Hd; simpl; [done|].
  apply IH. by apply setitem_Forall.
Qed.

(** When no two objects of the listing end up under the same key, the
    inventory lists the newest first. *)
Lemma getS3Files_newest_first self sBucket sPrefix log aS3FileInfo aContents :
  list_objects_v2_answer (oBoto self) sBucket sPrefix = inr (Some aContents) →
  NoDup ((λ o, Py.replace (sPrefix +:+ "/") "" (S3Object.Key o)) <$> aContents) →
  getS3Files self sBucket sPrefix = (log, inr aS3FileInfo) →
  newest_first aS3FileInfo.
Proof.
  intros Hanswer Hnd. unfold getS3Files, call_list_objects_v2. rewrite Hanswer.
  intros [= <- <-].
  rewrite (foldl_setitem_distinct
             (λ o, Py.replace (sPrefix +:+ "/") "" (S3Object.Key o))
             (λ o, FileInfo.make (Py.replace (sPrefix +:+ "/") "" (S3Object.Key o))
                     (Py.unquote (S3Object.ETag o)) (S3Object.Size o)
                     (S3Object.LastModified o))).
  2:{ simpl. by rewrite sorted_reverse_perm. }
  simpl. unfold newest_first.
  eapply StronglySorted_fmap; [|apply (sorted_reverse_sorted get_last_modified)].
  intros x y Hxy. exact Hxy.
Qed.

End InventoryOrder.

(** ** [syncToS3] and [main] *)

Section Sync.
Context {host : Host}.

(** The step of [syncToS3] that keeps older versions, lines 298-300. *)
#[local, warnings="-inconsistent-scopes"]
Abbreviation keep_versions self aS3FileInfo aOldS3Files :=
  (match iVersions (oCmdOptions self) with
   | Some n =>
       if negb (n =? 0)%Z && (0 <? n)%Z
       then maintainVersions self aS3FileInfo aOldS3Files n (S3_BUCKET self)
              (deployment_prefix self)
       else mret aOldS3Files
   | None => mret aOldS3Files
   end).

Lemma syncToS3_unfold self :
  syncToS3 self =
  if bInvalidCFOnly (oCmdOptions self) then mret None
  else
    aS3FileInfo ← getS3Files self (S3_BUCKET self) (deployment_prefix self);
    sets ← compareFiles self getCwdFiles aS3FileInfo;
    aOldS3Files ← keep_versions self aS3FileInfo sets.2;
    transferFiles self (S3_BUCKET self) (deployment_prefix self) sets.1;;
    removeS3Files self (S3_BUCKET self) (deployment_prefix self) aOldS3Files;;
    mret (Some (sets.1, aOldS3Files)).
Proof.
  unfold syncToS3, deployment_prefix.
  destruct (bInvalidCFOnly (oCmdOptions self)); [done|].
  apply bind_ext. intros aS3FileInfo. apply bind_ext. by intros [up del].
Qed.

(** The step returns candidates only, and all of them when no version
    is to be kept. *)
Lemma keep_versions_inr self aS3FileInfo aOldS3Files log r :
  keep_versions self aS3FileInfo aOldS3Files = (log, inr r) →
  (∀ f, f ∈ r → f ∈ aOldS3Files)
  ∧ (match iVersions (oCmdOptions self) with
     | Some n => (n ≤ 0)%Z
     | None => True
     end → log = [] ∧ r = aOldS3Files).
Proof.
  destruct (iVersions (oCmdOptions self)) as [n|].
  2:{ by intros [= <- <-]. }
  destruct (Z.eqb_spec n 0) as [->|Hne]; simpl.
  { by intros [= <- <-]. }
  destruct (Z.ltb_spec 0 n) as [Hpos|Hneg].
  - intros Hrun. split; [by eapply maintainVersions_subset|lia].
  - by intros [= <- <-].
Qed.

Lemma keep_versions_log P self aS3FileInfo aOldS3Files :
  (∀ sKey, P (get_object (S3_BUCKET self) sKey)) →
  log_all P (keep_versions self aS3FileInfo aOldS3Files).
Proof.
  intros HP. destruct (iVersions (oCmdOptions self)) as [n|]; [|apply log_all_ret].
  destruct (negb _ && _); [by apply maintainVersions_log|apply log_all_ret].
Qed.

(** The stages of a run of [syncToS3] that ends. *)
Lemma syncToS3_inr self log up del :
  syncToS3 self = (log, inr (Some (up, del))) ↔
  bInvalidCFOnly (oCmdOptions self) = false
  ∧ ∃ l0 inv del0 l2 l3 l4,
      getS3Files self (S3_BUCKET self) (deployment_prefix self) = (l0, inr inv)
      ∧ compareFiles self getCwdFiles inv = ([], inr (up, del0))
      ∧ keep_versions self inv del0 = (l2, inr del)
      ∧ transferFiles self (S3_BUCKET self) (deployment_prefix self) up = (l3, inr ())
      ∧ removeS3Files self (S3_BUCKET self) (deployment_prefix self) del = (l4, inr ())
      ∧ log = l0 ++ l2 ++ l3 ++ l4.
Proof.
  rewrite syncToS3_unfold. split.
  - destruct (bInvalidCFOnly (oCmdOptions self)); [done|].
    intros (l0 & inv & la & Hinv & Hrest & ->)%bind_inr_inv.
    apply bind_inr_inv in Hrest as (l1 & [up' del0] & lb & Hcmp & Hrest & ->).
    apply bind_inr_inv in Hrest as (l2 & del' & lc & Hkeep & Hrest & ->).
    apply bind_inr_inv in Hrest as (l3 & [] & ld & Htr & Hrest & ->).
    apply bind_inr_inv in Hrest as (l4 & [] & le & Hrm & [= <- <- <-] & ->).
    simpl in *. pose proof Hcmp as (-> & _)%compareFiles_inr.
    split; [done|]. exists l0, inv, del0, l2, l3, l4.
    by rewrite app_nil_r.
  - intros (-> & l0 & inv & del0 & l2 & l3 & l4 & Hinv & Hcmp & Hkeep & Htr & Hrm & ->).
    rewrite (bind_inr _ _ _ _ Hinv), (bind_inr _ _ _ _ Hcmp). simpl.
    rewrite (bind_inr _ _ _ _ Hkeep), (bind_inr _ _ _ _ Htr). simpl.
    rewrite (bind_inr _ _ _ _ Hrm). simpl. by rewrite app_nil_r.
Qed.

(** C6.  When [--maintain-versions] is absent, zero or negative,
    [syncToS3] never calls [get_object]; and when it ends, it has
    listed the bucket, compared, transferred, and removed exactly the
    candidates that [compareFiles] returned, with nothing in
    between. *)
Theorem syncToS3_without_versions self log r :
  match iVersions (oCmdOptions self) with
  | Some n => (n ≤ 0)%Z
  | None => True
  end →
  syncToS3 self = (log, r) →
  (∀ ev, ev ∈ log → is_get_object ev = false)
  ∧ ∀ up del, r = inr (Some (up, del)) →
      ∃ l0 inv l3 l4,
        getS3Files self (S3_BUCKET self) (deployment_prefix self) = (l0, inr inv)
        ∧ compareFiles self getCwdFiles inv = ([], inr (up, del))
        ∧ transferFiles self (S3_BUCKET self) (deployment_prefix self) up = (l3, inr ())
        ∧ removeS3Files self (S3_BUCKET self) (deployment_prefix self) del = (l4, inr ())
        ∧ log = l0 ++ l3 ++ l4.
Proof.
  intros Hoff Hrun. split.
  - assert (log_all (λ ev, is_get_object ev = false) (syncToS3 self)) as Hall.
    { rewrite syncToS3_unfold. destruct (bInvalidCFOnly _); [apply log_all_ret|].
      apply log_all_bind; [by apply getS3Files_log|]. intros inv _.
      apply log_all_bind; [by apply compareFiles_log|]. intros sets _.
      apply log_all_bind.
      { destruct (iVersions (oCmdOptions self)) as [n|]; [|apply log_all_ret].
        destruct (Z.eqb_spec n 0); simpl; [apply log_all_ret|].
        destruct (Z.ltb_spec 0 n); [lia|apply log_all_ret]. }
      intros del _.
      apply log_all_bind; [by apply transferFiles_log|]. intros _ _.
      apply log_all_bind; [by apply removeS3Files_log|]. intros _ _.
      apply log_all_ret. }
    intros ev Hev. apply Hall. by rewrite Hrun.
  - intros up del ->.
    apply syncToS3_inr in Hrun
      as (_ & l0 & inv & del0 & l2 & l3 & l4 & Hinv & Hcmp & Hkeep & Htr & Hrm & ->).
    apply keep_versions_inr in Hkeep as [_ Hsame].
    destruct (Hsame Hoff) as [-> ->]. by exists l0, inv, l3, l4.
Qed.

(** C10.  Whatever the count of versions, [maintainVersions] returns
    only candidates for removal; every [delete_object] of a run of
    [syncToS3] removes a candidate that [compareFiles] returned; and
    the list [syncToS3] ends with holds such candidates only. *)
Theorem syncToS3_removes_candidates self log r :
  syncToS3 self = (log, r) →
  (∀ aS3FileInfo aOldS3Files n sBucket sPrefix log' r',
     maintainVersions self aS3FileInfo aOldS3Files n sBucket sPrefix = (log', inr r') →
     ∀ f, f ∈ r' → f ∈ aOldS3Files)
  ∧ (∀ sBucket sKey, delete_object sBucket sKey ∈ log →
     ∃ l0 inv up del0 sFile,
       getS3Files self (S3_BUCKET self) (deployment_prefix self) = (l0, inr inv)
       ∧ compareFiles self getCwdFiles inv = ([], inr (up, del0))
       ∧ sFile ∈ del0
       ∧ sBucket = S3_BUCKET self
       ∧ sKey = deployment_prefix self +:+ "/" +:+ sFile)
  ∧ (∀ up del, r = inr (Some (up, del)) →
     ∃ l0 inv del0,
       getS3Files self (S3_BUCKET self) (deployment_prefix self) = (l0, inr inv)
       ∧ compareFiles self getCwdFiles inv = ([], inr (up, del0))
       ∧ ∀ f, f ∈ del → f ∈ del0).
Proof.
  intros Hrun. split_and!.
  - intros ???????. by apply maintainVersions_subset.
  - intros sBucket sKey Hin.
    set (Q := ∃ l0 inv up del0 sFile,
       getS3Files self (S3_BUCKET self) (deployment_prefix self) = (l0, inr inv)
       ∧ compareFiles self getCwdFiles inv = ([], inr (up, del0))
       ∧ sFile ∈ del0
       ∧ sBucket = S3_BUCKET self
       ∧ sKey = deployment_prefix self +:+ "/" +:+ sFile).
    assert (log_all (λ ev, ev = delete_object sBucket sKey → Q) (syncToS3 self)) as Hall.
    { rewrite syncToS3_unfold. destruct (bInvalidCFOnly _); [apply log_all_ret|].
      apply log_all_bind; [by apply getS3Files_log|]. intros inv Hinv%surjective_run.
      apply log_all_bind; [by apply compareFiles_log|].
      intros [up del0] Hcmp%surjective_run.
      assert ((compareFiles self getCwdFiles inv).1 = []) as Hnil.
      { by apply compareFiles_inr in Hcmp as (? & _). }
      rewrite Hnil in Hcmp.
      apply log_all_bind; [by apply keep_versions_log|].
      intros del Hkeep%surjective_run.
      apply keep_versions_inr in Hkeep as [Hsub _].
      apply log_all_bind; [by apply transferFiles_log|]. intros _ _.
      apply log_all_bind; [|intros; apply log_all_ret].
      apply removeS3Files_log; [done|].
      intros _ sFile Hfile [= Hb Hk]. unfold Q.
      do 5 eexists. split_and!; [exact Hinv|exact Hcmp|exact (Hsub _ Hfile)|done..]. }
    apply (Hall (delete_object sBucket sKey)); [by rewrite Hrun|done].
  - intros up del ->.
    apply syncToS3_inr in Hrun
      as (_ & l0 & inv & del0 & l2 & l3 & l4 & Hinv & Hcmp & Hkeep & _).
    apply keep_versions_inr in Hkeep as [Hsub _]. eauto 10.
Qed.

End Sync.

(** ** Dry runs *)

Section DryRun.
Context {host : Host}.

Lemma transferFiles_dry self sBucket sPrefix aFiles :
  bDryRun (oCmdOptions self) = true →
  (transferFiles self sBucket sPrefix aFiles).2 = inr ().
Proof.
  intros Hdry. apply for_each_total. intros sFile _.
  unfold transferFiles_step. by rewrite Hdry.
Qed.

Lemma removeS3Files_dry self sBucket sPrefix aFiles :
  bDryRun (oCmdOptions self) = true →
  (removeS3Files self sBucket sPrefix aFiles).2 = inr ().
Proof.
  intros Hdry. apply for_each_total. intros sFile _.
  unfold removeS3Files_step. by rewrite Hdry.
Qed.

(** With [--dry-run], [main] writes nothing. *)
Lemma main_dry_log self :
  bDryRun (oCmdOptions self) = true →
  log_all (λ ev, is_write ev = false) (main self).
Proof.
  intros Hdry. unfold main. apply log_all_bind.
  - rewrite syncToS3_unfold. destruct (bInvalidCFOnly _); [apply log_all_ret|].
    apply log_all_bind; [by apply getS3Files_log|]. intros inv _.
    apply log_all_bind; [by apply compareFiles_log|]. intros sets _.
    apply log_all_bind.
    { destruct (iVersions (oCmdOptions self)) as [n|]; [|apply log_all_ret].
      destruct (negb _ && _); [by apply maintainVersions_log|apply log_all_ret]. }
    intros del _.
    apply log_all_bind; [apply transferFiles_log; [done|by rewrite Hdry]|].
    intros _ _.
    apply log_all_bind; [apply removeS3Files_log; [done|by rewrite Hdry]|].
    intros _ _. apply log_all_ret.
  - intros r _. apply log_all_bind; [|intros; apply log_all_ret].
    apply clearCloudFront_log; [done|by rewrite Hdry].
Qed.

(** A run that ends without [--dry-run] ends with it too, with the
    same two lists. *)
Lemma syncToS3_dry self log sets :
  syncToS3 (with_dry_run false self) = (log, inr sets) →
  ∃ log', syncToS3 (with_dry_run true self) = (log', inr sets).
Proof.
  destruct sets as [[up del]|].
  - intros (Hcf & l0 & inv & del0 & l2 & l3 & l4 & Hinv & Hcmp & Hkeep & _)%syncToS3_inr.
    eexists. apply syncToS3_inr. split; [exact Hcf|].
    exists l0, inv, del0, l2. eexists _, _. split_and!.
    + exact Hinv.
    + exact Hcmp.
    + exact Hkeep.
    + by apply surjective_run, transferFiles_dry.
    + by apply surjective_run, removeS3Files_dry.
    + reflexivity.
  - rewrite !syncToS3_unfold. simpl.
    destruct (bInvalidCFOnly (oCmdOptions self)); [by eexists|].
    intros (l0 & inv & la & _ & Hrest & _)%bind_inr_inv.
    apply bind_inr_inv in Hrest as (l1 & sets & lb & _ & Hrest & _).
    apply bind_inr_inv in Hrest as (l2 & del & lc & _ & Hrest & _).
    apply bind_inr_inv in Hrest as (l3 & [] & ld & _ & Hrest & _).
    by apply bind_inr_inv in Hrest as (l4 & [] & le & _ & [=] & _).
Qed.

(** C7.  With [--dry-run], [main] logs no [put_object], no
    [delete_object] and no [create_invalidation]; whenever the run
    without [--dry-run] ends, the run with it ends with the same lists
    of files to transfer and to remove; and two runs that end, one
    with and one without [--dry-run], end with the same lists. *)
Theorem main_dry_run self :
  (∀ log r, main (with_dry_run true self) = (log, r) →
     ∀ ev, ev ∈ log → is_write ev = false)
  ∧ (∀ log sets, main (with_dry_run false self) = (log, inr sets) →
     ∃ log', main (with_dry_run true self) = (log', inr sets))
  ∧ (∀ log log' sets sets',
       main (with_dry_run true self) = (log, inr sets) →
       main (with_dry_run false self) = (log', inr sets') →
       sets = sets').
Proof.
  assert (∀ log sets, main (with_dry_run false self) = (log, inr sets) →
            ∃ log', main (with_dry_run true self) = (log', inr sets)) as Hsame.
  { intros log sets. unfold main.
    intros (l1 & sets' & l2 & Hsync & Hrest & _)%bind_inr_inv.
    apply bind_inr_inv in Hrest as (l3 & [] & l4 & _ & [= <- <-] & _).
    destruct (syncToS3_dry _ _ _ Hsync) as [log' Hdry].
    eexists. rewrite (bind_inr _ _ _ _ Hdry). reflexivity. }
  split_and!.
  - intros log r Hrun ev Hev.
    apply (main_dry_log (with_dry_run true self)); [done|]. by rewrite Hrun.
  - exact Hsame.
  - intros log log' sets sets' Hdry Hwet.
    destruct (Hsame _ _ Hwet) as [log'' Hdry']. congruence.
Qed.

End DryRun.

(** ** The sample deployment, run *)

Lemma maintainVersions_protects_witness :
  let aOldS3Files := ["static/main.v1.js"; "static/main.v2.js";
                      "precache-manifest.v1.js"; "precache-manifest.v2.js"] in
  (0 < 1)%Z
  ∧ ∀ f, f ∈ ["static/main.v1.js"; "precache-manifest.v1.js"] ↔
         f ∈ aOldS3Files
         ∧ ∀ item, item ∈ retained Sample.inventory aOldS3Files 1 →
                   f ∉ kept_by (Sample.deploy false false (Some 1%Z)) "bucket"
                         Sample.prefix item.2.
Proof.
  split; [lia|].
  refine (proj1 (proj2 (maintainVersions_protects (host := Sample.host)
                  (Sample.deploy false false (Some 1%Z)) Sample.inventory _ 1
                  "bucket" Sample.prefix
                  [get_object "bucket" "deployments/app/prod/precache-manifest.v2.js"]
                  _ _ _))).
  - lia.
  - vm_compute. reflexivity.
Defined.

(** C1.  A path that a retained manifest references is not kept when
    it holds an apostrophe.  The bucket holds the manifest
    [precache-manifest.v1.js] of an earlier version, whose bytes name
    [static/it's.js], and that file; the build has neither, so both are
    candidates for removal, and one version is to be kept.  The
    manifest is the one retained, and it is fetched; but the scan runs
    on [str] of its bytes, where a backslash stands before the
    apostrophe, so the path it finds is another one.
    [maintainVersions] returns [static/it's.js] for removal, and
    [syncToS3] deletes it. *)
Theorem maintainVersions_removes_referenced :
  let self := Apostrophe.deploy in
  let aOldS3Files := ["static/it's.js"; "precache-manifest.v1.js"] in
  Py.findall_url Apostrophe.content = ["static/it's.js"]
  ∧ (∃ aNewFiles,
       compareFiles (host := Sample.host) self (getCwdFiles (host := Sample.host))
         Apostrophe.inventory = ([], inr (aNewFiles, aOldS3Files)))
  ∧ (retained Apostrophe.inventory aOldS3Files 1).*1 = ["precache-manifest.v1.js"]
  ∧ get_object_answer (oBoto self) "bucket"
      "deployments/app/prod/precache-manifest.v1.js"
    = inr (PyBytes.str Apostrophe.content)
  ∧ Py.findall_url (PyBytes.str Apostrophe.content) = ["static/it\'s.js"]
  ∧ maintainVersions (host := Sample.host) self Apostrophe.inventory aOldS3Files 1
      "bucket" "deployments/app/prod"
    = ([get_object "bucket" "deployments/app/prod/precache-manifest.v1.js"],
       inr ["static/it's.js"])
  ∧ delete_object "bucket" "deployments/app/prod/static/it's.js"
    ∈ (syncToS3 (host := Sample.host) self).1.
Proof.
  split_and!; [reflexivity|by eexists|reflexivity..|compute_done].
Qed.

(** The inventory need not list the newest first.  Of the three
    objects of [Nested.listing] the first and the last get the same key;
    the dict keeps the place of the newest of them and the record of the
    oldest.  With one version to keep, the manifest retained is the one
    of time 100, and the one of time 200 is removed. *)
Example maintainVersions_retains_older :
  let self := Nested.deploy in
  let aOldS3Files := ["precache-manifest.b.js"; "precache-manifest.a.js"] in
  (∃ log inv,
     getS3Files self "bucket" "deployments/app/prod" = (log, inr inv)
     ∧ (λ item, (item.1, FileInfo.modified item.2)) <$> inv
       = [("precache-manifest.a.js", 100%Z); ("precache-manifest.b.js", 200%Z)]
     ∧ ¬ newest_first inv
     ∧ (retained inv aOldS3Files 1).*1 = ["precache-manifest.a.js"]
     ∧ (maintainVersions (host := Sample.host) self inv aOldS3Files 1
          "bucket" "deployments/app/prod").2
       = inr ["precache-manifest.b.js"])
  ∧ delete_object "bucket" "deployments/app/prod/precache-manifest.b.js"
    ∈ (syncToS3 (host := Sample.host) self).1.
Proof.
  split; [|compute_done].
  eexists _, _. split_and!; [reflexivity|reflexivity| |reflexivity|reflexivity].
  intros Hsorted. apply StronglySorted_inv in Hsorted as [_ Hall].
  apply Forall_cons in Hall as [Hle _]. simpl in Hle. lia.
Qed.

Lemma syncToS3_without_versions_witness :
  (0 ≤ 0)%Z
  ∧ ∀ ev, ev ∈ (syncToS3 (host := Sample.host) (Sample.deploy false false (Some 0%Z))).1 →
          is_get_object ev = false.
Proof.
  split; [lia|].
  refine (proj1 (syncToS3_without_versions (host := Sample.host)
                   (Sample.deploy false false (Some 0%Z)) _
                   (syncToS3 (host := Sample.host) (Sample.deploy false false (Some 0%Z))).2
                   _ _)).
  - simpl. lia.
  - vm_compute. reflexivity.
Defined.

Lemma syncToS3_removes_candidates_witness :
  (syncToS3 (host := Sample.host) (Sample.deploy false false (Some 1%Z))).2
  = inr (Some (["static/main.v3.js"; "precache-manifest.v3.js"; "asset-manifest.json"],
               ["static/main.v1.js"; "precache-manifest.v1.js"]))
  ∧ ∀ sBucket sKey,
      delete_object sBucket sKey
      ∈ (syncToS3 (host := Sample.host) (Sample.deploy false false (Some 1%Z))).1 →
      ∃ l0 inv up del0 sFile,
        getS3Files (Sample.deploy false false (Some 1%Z)) "bucket" Sample.prefix = (l0, inr inv)
        ∧ compareFiles (host := Sample.host) (Sample.deploy false false (Some 1%Z))
            (getCwdFiles (host := Sample.host)) inv = ([], inr (up, del0))
        ∧ sFile ∈ del0
        ∧ sBucket = "bucket"
        ∧ sKey = Sample.prefix +:+ "/" +:+ sFile.
Proof.
  split; [vm_compute; reflexivity|].
  refine (proj1 (proj2 (syncToS3_removes_candidates (host := Sample.host)
                   (Sample.deploy false false (Some 1%Z)) _
                   (syncToS3 (host := Sample.host) (Sample.deploy false false (Some 1%Z))).2
                   _))).
  vm_compute. reflexivity.
Defined.

(** Two superseded manifests, one version to keep: the newer manifest
    and the file it names stay, the older manifest and its file go. *)
Example sample_maintainVersions :
  maintainVersions (host := Sample.host) (Sample.deploy false false (Some 1%Z))
    Sample.inventory
    ["static/main.v1.js"; "static/main.v2.js";
     "precache-manifest.v1.js"; "precache-manifest.v2.js"] 1 "bucket" Sample.prefix
  = ([get_object "bucket" "deployments/app/prod/precache-manifest.v2.js"],
     inr ["static/main.v1.js"; "precache-manifest.v1.js"]).
Proof. vm_compute. reflexivity. Qed.

(** A count beyond the number of manifests keeps them all; a negative
    count keeps none and fetches nothing. *)
Example sample_maintainVersions_many :
  maintainVersions (host := Sample.host) (Sample.deploy false false (Some 5%Z))
    Sample.inventory
    ["static/main.v1.js"; "static/main.v2.js";
     "precache-manifest.v1.js"; "precache-manifest.v2.js"] 5 "bucket" Sample.prefix
  = ([get_object "bucket" "deployments/app/prod/precache-manifest.v2.js";
      get_object "bucket" "deployments/app/prod/precache-manifest.v1.js"],
     inr []).
Proof. vm_compute. reflexivity. Qed.

Example sample_maintainVersions_negative :
  maintainVersions (host := Sample.host) (Sample.deploy false false (Some (-2)%Z))
    Sample.inventory
    ["static/main.v1.js"; "static/main.v2.js";
     "precache-manifest.v1.js"; "precache-manifest.v2.js"] (-2) "bucket" Sample.prefix
  = ([], inr ["static/main.v1.js"; "static/main.v2.js";
              "precache-manifest.v1.js"; "precache-manifest.v2.js"]).
Proof. vm_compute. reflexivity. Qed.

(** The sample inventory lists the newest objects first. *)
Example sample_inventory_newest_first : newest_first Sample.inventory.
Proof.
  apply (getS3Files_newest_first (Sample.deploy false false None) "bucket" Sample.prefix
           [list_objects_v2 "bucket" Sample.prefix] _ Sample.listing).
  - reflexivity.
  - compute_done.
  - vm_compute. reflexivity.
Qed.

(** A dry run and a real run of the sample. *)
Example sample_main_dry :
  main (host := Sample.host) (Sample.deploy true false (Some 1%Z))
  = ([ list_objects_v2 "bucket" "deployments/app/prod";
       get_object "bucket" "deployments/app/prod/precache-manifest.v2.js";
       print " - transfering to s3://bucket/deployments/app/prod/static/main.v3.js";
       print " - transfering to s3://bucket/deployments/app/prod/precache-manifest.v3.js";
       print " - transfering to s3://bucket/deployments/app/prod/asset-manifest.json";
       print " - removing s3://bucket/deployments/app/prod/static/main.v1.js";
       print " - removing s3://bucket/deployments/app/prod/precache-manifest.v1.js" ],
     inr (Some (["static/main.v3.js"; "precache-manifest.v3.js"; "asset-manifest.json"],
                ["static/main.v1.js"; "precache-manifest.v1.js"]))).
Proof. vm_compute. reflexivity. Qed.

Example sample_main :
  main (host := Sample.host) (Sample.deploy false false (Some 1%Z))
  = ([ list_objects_v2 "bucket" "deployments/app/prod";
       get_object "bucket" "deployments/app/prod/precache-manifest.v2.js";
       print " - transfering to s3://bucket/deployments/app/prod/static/main.v3.js";
       put_object "content of static/main.v3.js" "bucket" "max-age=7776000, public" None
         "deployments/app/prod/static/main.v3.js";
       print " - transfering to s3://bucket/deployments/app/prod/precache-manifest.v3.js";
       put_object "content of precache-manifest.v3.js" "bucket" "max-age=7776000, public"
         None "deployments/app/prod/precache-manifest.v3.js";
       print " - transfering to s3://bucket/deployments/app/prod/asset-manifest.json";
       put_object "content of asset-manifest.json" "bucket"
         "max-age=0, no-cache, must-revalidate, proxy-revalidate, no-store" None
         "deployments/app/prod/asset-manifest.json";
       print " - removing s3://bucket/deployments/app/prod/static/main.v1.js";
       delete_object "bucket" "deployments/app/prod/static/main.v1.js";
       print " - removing s3://bucket/deployments/app/prod/precache-manifest.v1.js";
       delete_object "bucket" "deployments/app/prod/precache-manifest.v1.js";
       print "";
       print " *** Clearing CloudFront distribution: E1 ***";
       create_invalidation "E1" ["/*"] ],
     inr (Some (["static/main.v3.js"; "precache-manifest.v3.js"; "asset-manifest.json"],
                ["static/main.v1.js"; "precache-manifest.v1.js"]))).
Proof. vm_compute. reflexivity. Qed.

(** ** The primitives on examples *)

Example searchList_first : searchList "index.html" NO_CACHE_FILES = Py.Int 0.
Proof. reflexivity. Qed.

Example searchList_first_is_not_False :
  Py.is_False (searchList "index.html" NO_CACHE_FILES) = false.
Proof. reflexivity. Qed.

Example searchList_absent : searchList "static/index.html" NO_CACHE_FILES = Py.Bool false.
Proof. reflexivity. Qed.

Example replace_prefix :
  Py.replace "deployments/app/prod/" "" "deployments/app/prod/static/js/main.js"
  = "static/js/main.js".
Proof. reflexivity. Qed.

Example replace_every_occurrence : Py.replace "ab" "" "abxababy" = "xy".
Proof. reflexivity. Qed.

Example replace_no_overlap : Py.replace "aa" "b" "aaa" = "ba".
Proof. reflexivity. Qed.

Example unquote_etag :
  Py.unquote (Py.DQ +:+ "9a0364b9e99bb480dd25e1f0284c8555" +:+ Py.DQ)
  = "9a0364b9e99bb480dd25e1f0284c8555".
Proof. reflexivity. Qed.

Example unquote_bare : Py.unquote "9a03-2" = "9a03-2".
Proof. reflexivity. Qed.

Example findall_two :
  Py.findall_url
    ("[{" +:+ Py.DQ +:+ "revision" +:+ Py.DQ +:+ ": " +:+ Py.DQ +:+ "1" +:+ Py.DQ +:+ ", "
       +:+ Py.url_open +:+ "static/js/a.js" +:+ Py.DQ +:+ "}, {"
       +:+ Py.url_open +:+ "index.html" +:+ Py.DQ +:+ "}]")
  = ["static/js/a.js"; "index.html"].
Proof. reflexivity. Qed.

Example sorted_reverse_stable :
  Py.sorted_reverse snd [("a", 1%Z); ("b", 3%Z); ("c", 1%Z); ("d", 3%Z)]
  = [("b", 3%Z); ("d", 3%Z); ("a", 1%Z); ("c", 1%Z)].
Proof. reflexivity. Qed.

Example setitem_keeps_place :
  Py.setitem (Py.setitem (Py.setitem [] "x" 1) "y" 2) "x" 3 = [("x", 3); ("y", 2)].
Proof. reflexivity. Qed.


Example replace_not_repeated : Py.replace "p/" "" "pp//x" = "p/x".
Proof. reflexivity. Qed.

Example unquote_before_final_newline :
  Py.unquote (Py.DQ +:+ "abc" +:+ Py.DQ +:+ String Py.newline EmptyString)
  = "abc" +:+ String Py.newline EmptyString.
Proof. reflexivity. Qed.

Example unquote_inner_newline :
  Py.unquote (Py.DQ +:+ "a" +:+ String Py.newline "c" +:+ Py.DQ)
  = Py.DQ +:+ "a" +:+ String Py.newline "c" +:+ Py.DQ.
Proof. reflexivity. Qed.

Example findall_unclosed : Py.findall_url (Py.url_open +:+ "a.js") = [].
Proof. reflexivity. Qed.

Example findall_stops_at_newline :
  Py.findall_url
    (Py.url_open +:+ "a" +:+ String Py.newline "b.js" +:+ Py.DQ
       +:+ Py.url_open +:+ "c.js" +:+ Py.DQ)
  = ["c.js"].
Proof. reflexivity. Qed.

Example filename_of_key : filename "static/precache-manifest.x.js" = "precache-manifest.x.js".
Proof. reflexivity. Qed.

(** * Further properties *)

(** ** [searchList] and the string primitives *)

Lemma index_Some sNeedle aHaystack i :
  Py.index sNeedle aHaystack = Some i →
  aHaystack !! i = Some sNeedle ∧ ∀ j, j < i → aHaystack !! j ≠ Some sNeedle.
Proof.
  revert i. induction aHaystack as [|s l IH]; intros i; simpl; [done|].
  destruct (String.eqb_spec s sNeedle) as [->|Hne].
  - intros [= <-]. split; [done|]. intros j Hj. lia.
  - destruct (Py.index sNeedle l) as [i'|]; [|done]. intros [= <-].
    destruct (IH i' eq_refl) as [Hi Hbefore]. split; [done|].
    intros [|j] Hj; simpl; [congruence|]. apply Hbefore. lia.
Qed.

(** X1.  [searchList] returns the index of the first occurrence of the
    needle, an integer, and the boolean [False] exactly when the needle
    is absent; the test [is False] holds exactly then, also when the
    index is [0]. *)
Theorem searchList_index sNeedle aHaystack :
  match searchList sNeedle aHaystack with
  | Py.Int i =>
      aHaystack !! i = Some sNeedle ∧ ∀ j, j < i → aHaystack !! j ≠ Some sNeedle
  | Py.Bool b => b = false ∧ sNeedle ∉ aHaystack
  end
  ∧ (Py.is_False (searchList sNeedle aHaystack) = true ↔ sNeedle ∉ aHaystack).
Proof.
  split; [|apply searchList_is_False].
  unfold searchList. destruct (Py.index sNeedle aHaystack) as [i|] eqn:Hi.
  - by apply index_Some.
  - split; [done|]. by apply index_None.
Qed.

Lemma prefix_app p s : String.prefix p (p +:+ s) = true.
Proof.
  induction p as [|a p IH]; simpl; [by destruct s|].
  destruct (ascii_dec a a); [done|congruence].
Qed.

Lemma replace_from_skip old new p s :
  Py.replace_from old new (String.length p) (p +:+ s) = Py.replace_from old new 0 s.
Proof. induction p as [|a p IH]; simpl; [done|exact IH]. Qed.

Lemma replace_occurrence old new s :
  old ≠ "" → Py.replace old new (old +:+ s) = new +:+ Py.replace old new s.
Proof.
  unfold Py.replace. destruct old as [|a old]; [done|]. intros _.
  change (String a old +:+ s) with (String a (old +:+ s)).
  cbn [Py.replace_from].
  change (String a (old +:+ s)) with (String a old +:+ s).
  rewrite prefix_app. f_equal.
  change (String.length (String a old) - 1) with (String.length old - 0).
  rewrite Nat.sub_0_r. apply replace_from_skip.
Qed.

Lemma replace_absent old new s :
  occurs old s = false → Py.replace old new s = s.
Proof.
  unfold Py.replace. induction s as [|c s IH]; [done|].
  cbn [occurs Py.replace_from]. intros [Hhere Hlater]%orb_false_elim.
  rewrite Hhere. f_equal. by apply IH.
Qed.

Lemma append_assoc (a b c : string) : (a +:+ b) +:+ c = a +:+ (b +:+ c).
Proof.
  induction a as [|x a IH]; [done|].
  change (String x ((a +:+ b) +:+ c) = String x (a +:+ b +:+ c)). by f_equal.
Qed.

(** X2.  The key under which [transferFiles] and [removeS3Files] address
    a file, prefix, slash, file, is turned back into the file by the
    [replace] of [getS3Files], provided prefix and slash do not occur in
    the file itself. *)
Theorem key_round_trip sPrefix sFile :
  occurs (sPrefix +:+ "/") sFile = false →
  Py.replace (sPrefix +:+ "/") "" (sPrefix +:+ "/" +:+ sFile) = sFile.
Proof.
  intros Habsent. rewrite <-append_assoc, replace_occurrence.
  - by apply replace_absent.
  - by destruct sPrefix.
Qed.

Lemma key_round_trip_witness :
  Py.replace ("deployments/app/prod" +:+ "/") ""
    ("deployments/app/prod" +:+ "/" +:+ "static/js/main.js")
  = "static/js/main.js".
Proof. apply key_round_trip. vm_compute. reflexivity. Defined.

Lemma unsnoc_snoc s c :
  Py.unsnoc (s +:+ String c EmptyString) = Some (s, c).
Proof.
  induction s as [|a s IH]; [done|].
  change (Py.unsnoc (String a s +:+ String c ""))
    with (match Py.unsnoc (s +:+ String c "") with
          | None => Some ("", a)
          | Some (init, last) => Some (String a init, last)
          end).
  by rewrite IH.
Qed.

(** X3.  An ETag enclosed in double quotes, without a line feed between
    them, is stored without the quotes. *)
Theorem unquote_quoted s :
  Py.dot_star s = true →
  Py.unquote (Py.DQ +:+ s +:+ Py.DQ) = s.
Proof.
  intros Hs.
  change (Py.DQ +:+ s +:+ Py.DQ) with (String Py.dquote (s +:+ String Py.dquote "")).
  unfold Py.unquote. cbv beta iota.
  by rewrite unsnoc_snoc, Ascii.eqb_refl, Hs.
Qed.

Lemma unquote_quoted_witness :
  Py.unquote (Py.DQ +:+ "9a0364b9e99bb480dd25e1f0284c8555-2" +:+ Py.DQ)
  = "9a0364b9e99bb480dd25e1f0284c8555-2".
Proof. apply unquote_quoted. reflexivity. Defined.

(** ** The dict that [getS3Files] fills *)

Section Fill.
Context {A V : Type} (k : A → string) (v : A → V).

Lemma getitem_setitem (d : Py.dict V) sKey x sKey' :
  Py.getitem (Py.setitem d sKey x) sKey'
  = if String.eqb sKey sKey' then Some x else Py.getitem d sKey'.
Proof.
  induction d as [|[k1 v1] d IH]; simpl; [done|].
  destruct (String.eqb_spec k1 sKey) as [->|Hne]; simpl.
  - by destruct (String.eqb sKey sKey').
  - rewrite IH. destruct (String.eqb_spec k1 sKey') as [->|_]; [|done].
    by destruct (String.eqb_spec sKey sKey').
Qed.

Lemma keys_setitem (d : Py.dict V) sKey x :
  Py.keys (Py.setitem d sKey x)
  = if bool_decide (sKey ∈ Py.keys d) then Py.keys d else Py.keys d ++ [sKey].
Proof.
  unfold Py.keys. induction d as [|[k1 v1] d IH]; simpl; [done|].
  destruct (String.eqb_spec k1 sKey) as [->|Hne]; simpl.
  - rewrite bool_decide_eq_true_2; [done|left].
  - rewrite IH. case_bool_decide as Hin.
    + rewrite bool_decide_eq_true_2; [done|by right].
    + rewrite bool_decide_eq_false_2; [done|].
      by intros [?|?]%elem_of_cons.
Qed.

Lemma getitem_fill_absent (l : list A) (d : Py.dict V) sKey :
  (∀ y, y ∈ l → k y ≠ sKey) →
  Py.getitem (foldl (λ d x, Py.setitem d (k x) (v x)) d l) sKey = Py.getitem d sKey.
Proof.
  revert d. induction l as [|x l IH]; intros d Hall; simpl; [done|].
  rewrite IH by (intros y Hy; apply Hall; by right).
  rewrite getitem_setitem.
  destruct (String.eqb_spec (k x) sKey) as [Heq|_]; [|done].
  destruct (Hall x); [left|done].
Qed.

(** The last assignment to a key is the one that counts. *)
Lemma getitem_fill_last (l1 l2 : list A) (d : Py.dict V) x :
  (∀ y, y ∈ l2 → k y ≠ k x) →
  Py.getitem (foldl (λ d x, Py.setitem d (k x) (v x)) d (l1 ++ x :: l2)) (k x)
  = Some (v x).
Proof.
  intros Hall. rewrite foldl_app. simpl.
  rewrite getitem_fill_absent by done.
  by rewrite getitem_setitem, String.eqb_refl.
Qed.

Lemma keys_fill (l : list A) (d : Py.dict V) sKey :
  sKey ∈ Py.keys (foldl (λ d x, Py.setitem d (k x) (v x)) d l)
  ↔ sKey ∈ Py.keys d ∨ ∃ y, y ∈ l ∧ k y = sKey.
Proof.
  revert d. induction l as [|x l IH]; intros d; simpl.
  - split; [by left|]. intros [?|(y & Hy & _)]; [done|by apply elem_of_nil in Hy].
  - rewrite IH, keys_setitem. split.
    + intros [Hin|(y & Hy & Hk)].
      * case_bool_decide; [by left|].
        apply elem_of_app in Hin as [?| ->%list_elem_of_singleton]; [by left|].
        right. exists x. split; [left|done].
      * right. exists y. split; [by right|done].
    + intros [Hin|(y & [-> |Hy]%elem_of_cons & Hk)].
      * left. case_bool_decide; [done|]. apply elem_of_app. by left.
      * left. case_bool_decide as Hd; [by rewrite <-Hk|].
        apply elem_of_app. right. rewrite Hk. left.
      * right. eauto.
Qed.

Lemma NoDup_keys_fill (l : list A) (d : Py.dict V) :
  NoDup (Py.keys d) → NoDup (Py.keys (foldl (λ d x, Py.setitem d (k x) (v x)) d l)).
Proof.
  revert d. induction l as [|x l IH]; intros d Hd; simpl; [done|].
  apply IH. rewrite keys_setitem. case_bool_decide as Hin; [done|].
  apply NoDup_app. split_and!; [done| |apply NoDup_singleton].
  by intros y Hy ->%list_elem_of_singleton.
Qed.

Lemma getitem_elem_of (d : Py.dict V) sKey x :
  NoDup (Py.keys d) → (sKey, x) ∈ d → Py.getitem d sKey = Some x.
Proof.
  unfold Py.keys. induction d as [|[k1 v1] d IH]; simpl.
  - intros _ Hin. by apply elem_of_nil in Hin.
  - intros [Hk1 Hd]%NoDup_cons [[= -> ->] |Hin]%elem_of_cons.
    + by rewrite String.eqb_refl.
    + destruct (String.eqb_spec k1 sKey) as [->|_]; [|by apply IH].
      destruct Hk1. apply list_elem_of_fmap. by exists (sKey, x).
Qed.

(** Among elements with a property, one comes last. *)
Lemma last_occurrence (P : A → Prop) `{∀ y, Decision (P y)} (l : list A) :
  (∃ y, y ∈ l ∧ P y) →
  ∃ l1 x l2, l = l1 ++ x :: l2 ∧ P x ∧ ∀ y, y ∈ l2 → ¬ P y.
Proof.
  induction l as [|x l IH]; intros (y & Hy & HP).
  - by apply elem_of_nil in Hy.
  - destruct (decide (Exists P l)) as [Hlater|Hnone]; rewrite Exists_exists in *.
    + destruct (IH Hlater) as (l1 & z & l2 & -> & Hz & Hafter).
      by exists (x :: l1), z, l2.
    + exists [], x, l. split_and!; [done| |].
      * apply elem_of_cons in Hy as [-> |Hy]; [done|]. destruct Hnone. eauto.
      * intros z Hz HPz. apply Hnone. eauto.
Qed.

End Fill.

(** ** The inventory of [getS3Files] *)

Lemma getS3Files_fill self sBucket sPrefix log aS3FileInfo aContents :
  list_objects_v2_answer (oBoto self) sBucket sPrefix = inr (Some aContents) →
  getS3Files self sBucket sPrefix = (log, inr aS3FileInfo) →
  aS3FileInfo
  = foldl (λ d o, Py.setitem d (inventory_key sPrefix o) (inventory_record sPrefix o))
      [] (Py.sorted_reverse get_last_modified aContents).
Proof.
  intros Hanswer. unfold getS3Files, call_list_objects_v2. rewrite Hanswer.
  by intros [= <- <-].
Qed.

Lemma getS3Files_answer self sBucket sPrefix log aS3FileInfo :
  getS3Files self sBucket sPrefix = (log, inr aS3FileInfo) →
  (list_objects_v2_answer (oBoto self) sBucket sPrefix = inr None ∧ aS3FileInfo = [])
  ∨ ∃ aContents,
      list_objects_v2_answer (oBoto self) sBucket sPrefix = inr (Some aContents).
Proof.
  unfold getS3Files, call_list_objects_v2.
  destruct (list_objects_v2_answer _ _ _) as [e|[aContents|]]; [done| |].
  - intros _. right. eauto.
  - intros [= <- <-]. by left.
Qed.

(** X4.  In the inventory that [getS3Files] returns no key comes twice,
    every record carries the key it is stored under, and looking a key
    up yields the record listed with it. *)
Theorem getS3Files_well_formed self sBucket sPrefix log aS3FileInfo :
  getS3Files self sBucket sPrefix = (log, inr aS3FileInfo) →
  NoDup (Py.keys aS3FileInfo)
  ∧ ∀ sKey oInfo, (sKey, oInfo) ∈ aS3FileInfo →
      FileInfo.key oInfo = sKey ∧ Py.getitem aS3FileInfo sKey = Some oInfo.
Proof.
  intros Hrun.
  assert (NoDup (Py.keys aS3FileInfo)) as Hnd.
  { destruct (getS3Files_answer _ _ _ _ _ Hrun) as [[_ ->]|[aContents Hanswer]].
    - constructor.
    - rewrite (getS3Files_fill _ _ _ _ _ _ Hanswer Hrun).
      apply NoDup_keys_fill. constructor. }
  split; [done|]. intros sKey oInfo Hin. split.
  - apply (getS3Files_keys _ _ _ _ _ Hrun (sKey, oInfo) Hin).
  - by apply getitem_elem_of.
Qed.

Lemma getS3Files_well_formed_witness :
  NoDup (Py.keys Sample.inventory)
  ∧ ∀ sKey oInfo, (sKey, oInfo) ∈ Sample.inventory →
      FileInfo.key oInfo = sKey ∧ Py.getitem Sample.inventory sKey = Some oInfo.
Proof.
  apply (getS3Files_well_formed (Sample.deploy false false None) "bucket" Sample.prefix
           [list_objects_v2 "bucket" Sample.prefix]).
  vm_compute. reflexivity.
Defined.

(** X5.  The keys of the inventory are exactly the keys of the listed
    objects with every occurrence of prefix and slash taken out: no
    object of the listing is left out of the comparison. *)
Theorem getS3Files_keys_complete self sBucket sPrefix log aS3FileInfo aContents :
  list_objects_v2_answer (oBoto self) sBucket sPrefix = inr (Some aContents) →
  getS3Files self sBucket sPrefix = (log, inr aS3FileInfo) →
  ∀ sKey, sKey ∈ Py.keys aS3FileInfo ↔
          ∃ o, o ∈ aContents ∧ Py.replace (sPrefix +:+ "/") "" (S3Object.Key o) = sKey.
Proof.
  intros Hanswer Hrun sKey. rewrite (getS3Files_fill _ _ _ _ _ _ Hanswer Hrun).
  rewrite keys_fill. split.
  - intros [Hnil|(o & Ho & Hk)]; [by apply elem_of_nil in Hnil|].
    exists o. split; [by rewrite <-(sorted_reverse_perm get_last_modified)|done].
  - intros (o & Ho & Hk). right. exists o.
    split; [by rewrite (sorted_reverse_perm get_last_modified)|done].
Qed.

Lemma getS3Files_keys_complete_witness :
  ∃ o, o ∈ Collision.listing
       ∧ Py.replace ("deployments/app/prod" +:+ "/") "" (S3Object.Key o) = "main.js".
Proof.
  apply (getS3Files_keys_complete (Collision.deploy false) "bucket" "deployments/app/prod"
           [list_objects_v2 "bucket" "deployments/app/prod"]
           [("main.js", FileInfo.make "main.js" "old" 7 100);
            ("index.html", FileInfo.make "index.html" "i" 5 200)]
           Collision.listing).
  - reflexivity.
  - vm_compute. reflexivity.
  - compute_done.
Defined.

(** X6.  When several listed objects end up under one key, the record
    kept for the key is that of an oldest one of them: the dict is
    filled newest first, and a later assignment replaces the value. *)
Theorem getS3Files_same_key self sBucket sPrefix log aS3FileInfo aContents sKey oInfo :
  list_objects_v2_answer (oBoto self) sBucket sPrefix = inr (Some aContents) →
  getS3Files self sBucket sPrefix = (log, inr aS3FileInfo) →
  Py.getitem aS3FileInfo sKey = Some oInfo →
  ∃ o, o ∈ aContents
       ∧ inventory_key sPrefix o = sKey
       ∧ oInfo = inventory_record sPrefix o
       ∧ ∀ o', o' ∈ aContents → inventory_key sPrefix o' = sKey →
               (S3Object.LastModified o ≤ S3Object.LastModified o')%Z.
Proof.
  intros Hanswer Hrun Hget.
  pose proof (getS3Files_fill _ _ _ _ _ _ Hanswer Hrun) as Hfill.
  assert (sKey ∈ Py.keys aS3FileInfo) as Hkey by (apply getitem_keys; eauto).
  rewrite Hfill, keys_fill in Hkey.
  destruct Hkey as [Hnil|Hsome]; [by apply elem_of_nil in Hnil|].
  destruct (last_occurrence (λ o, inventory_key sPrefix o = sKey) _ Hsome)
    as (l1 & o & l2 & Hsplit & Hk & Hafter).
  assert (Py.getitem aS3FileInfo sKey = Some (inventory_record sPrefix o)) as Hlast.
  { rewrite Hfill, Hsplit, <-Hk. apply getitem_fill_last.
    intros y Hy. rewrite Hk. by apply Hafter. }
  assert (∀ o', o' ∈ aContents ↔ o' ∈ l1 ++ o :: l2) as Hmem.
  { intros o'. by rewrite <-Hsplit, (sorted_reverse_perm get_last_modified). }
  exists o. split_and!; [apply Hmem, elem_of_app; right; left|done|congruence|].
  intros o' Ho' Hk'.
  apply Hmem, elem_of_app in Ho' as [Hbefore|[-> |Hl2]%elem_of_cons]; [|lia|].
  - pose proof (sorted_reverse_sorted get_last_modified aContents) as Hsorted.
    rewrite Hsplit in Hsorted.
    apply (StronglySorted_app_1_elem_of _ _ _ o' o) in Hsorted; [done..|left].
  - by destruct (Hafter o' Hl2).
Qed.

Lemma getS3Files_same_key_witness :
  ∃ o, o ∈ Collision.listing
       ∧ inventory_key "deployments/app/prod" o = "main.js"
       ∧ FileInfo.make "main.js" "old" 7 100 = inventory_record "deployments/app/prod" o
       ∧ ∀ o', o' ∈ Collision.listing →
               inventory_key "deployments/app/prod" o' = "main.js" →
               (S3Object.LastModified o ≤ S3Object.LastModified o')%Z.
Proof.
  apply (getS3Files_same_key (Collision.deploy false) "bucket" "deployments/app/prod"
           [list_objects_v2 "bucket" "deployments/app/prod"]
           [("main.js", FileInfo.make "main.js" "old" 7 100);
            ("index.html", FileInfo.make "index.html" "i" 5 200)]).
  - reflexivity.
  - vm_compute. reflexivity.
  - vm_compute. reflexivity.
Defined.

(** X7.  When no two listed objects end up under one key, the inventory
    holds one item per object, in the order of [sorted]: newest first. *)
Theorem getS3Files_distinct self sBucket sPrefix log aS3FileInfo aContents :
  list_objects_v2_answer (oBoto self) sBucket sPrefix = inr (Some aContents) →
  NoDup (inventory_key sPrefix <$> aContents) →
  getS3Files self sBucket sPrefix = (log, inr aS3FileInfo) →
  aS3FileInfo
  = (λ o, (inventory_key sPrefix o, inventory_record sPrefix o))
      <$> Py.sorted_reverse get_last_modified aContents
  ∧ length aS3FileInfo = length aContents
  ∧ newest_first aS3FileInfo.
Proof.
  intros Hanswer Hnd Hrun.
  assert (aS3FileInfo
          = (λ o, (inventory_key sPrefix o, inventory_record sPrefix o))
              <$> Py.sorted_reverse get_last_modified aContents) as ->.
  { rewrite (getS3Files_fill _ _ _ _ _ _ Hanswer Hrun).
    rewrite foldl_setitem_distinct; [done|].
    simpl. by rewrite (sorted_reverse_perm get_last_modified). }
  split_and!; [done| |].
  - by rewrite length_fmap, (sorted_reverse_perm get_last_modified).
  - unfold newest_first.
    eapply StronglySorted_fmap; [|apply (sorted_reverse_sorted get_last_modified)].
    intros x y Hxy. exact Hxy.
Qed.

Lemma getS3Files_distinct_witness :
  Sample.inventory
  = (λ o, (inventory_key Sample.prefix o, inventory_record Sample.prefix o))
      <$> Py.sorted_reverse get_last_modified Sample.listing
  ∧ length Sample.inventory = length Sample.listing
  ∧ newest_first Sample.inventory.
Proof.
  apply (getS3Files_distinct (Sample.deploy false false None) "bucket" Sample.prefix
           [list_objects_v2 "bucket" Sample.prefix]).
  - reflexivity.
  - compute_done.
  - vm_compute. reflexivity.
Defined.

(** ** More on [compareFiles] *)

Section CompareMore.
Context {host : Host}.

(** X8.  Whenever [compareFiles] returns, every build file that the
    inventory lacks is to be transferred, every key of the inventory
    that the build lacks is to be removed, and neither list names a file
    twice. *)
Theorem compareFiles_complete self aBuildFiles aS3FileInfo log aNewFiles aOldS3Files :
  compareFiles self aBuildFiles aS3FileInfo = (log, inr (aNewFiles, aOldS3Files)) →
  (∀ f, f ∈ aBuildFiles → f ∉ Py.keys aS3FileInfo → f ∈ aNewFiles)
  ∧ (∀ f, f ∈ Py.keys aS3FileInfo → f ∉ aBuildFiles → f ∈ aOldS3Files)
  ∧ NoDup aNewFiles
  ∧ NoDup aOldS3Files.
Proof.
  intros Hrun. split_and!.
  - intros f Hb Hk. rewrite (elem_of_upload _ _ _ _ _ _ _ Hrun). tauto.
  - intros f Hk Hb. rewrite (elem_of_delete _ _ _ _ _ _ _ Hrun). tauto.
  - apply compareFiles_inr in Hrun as (_ & -> & _).
    apply NoDup_app. split_and!.
    + apply NoDup_py_list.
    + intros f Hnew [_ Hcommon]%list_elem_of_filter.
      apply elem_of_py_list, elem_of_difference in Hnew as [_ Hnot].
      by apply elem_of_py_list, elem_of_intersection in Hcommon as [_ Hin].
    + apply NoDup_filter, NoDup_py_list.
  - apply compareFiles_inr in Hrun as (_ & _ & ->). apply NoDup_py_list.
Qed.

(** X9.  Without [--force-transfer], a file found on both sides whose
    MD5 checksum differs from the etag of the inventory is
    transferred. *)
Theorem compareFiles_changed self aBuildFiles aS3FileInfo log aNewFiles aOldS3Files
    sFile oInfo sSum :
  compareFiles self aBuildFiles aS3FileInfo = (log, inr (aNewFiles, aOldS3Files)) →
  sFile ∈ aBuildFiles →
  Py.getitem aS3FileInfo sFile = Some oInfo →
  md5Checksum sFile = ([], inr sSum) →
  sSum ≠ FileInfo.etag oInfo →
  sFile ∈ aNewFiles.
Proof.
  intros Hrun Hbuild Hget Hsum Hne.
  rewrite (elem_of_upload _ _ _ _ _ _ _ Hrun). split; [done|right].
  unfold transferred_again. rewrite Hget.
  revert Hsum. unfold md5Checksum. destruct (open_rb sFile) as [data|]; [|done].
  intros [= <-].
  destruct (String.eqb_spec (FileInfo.etag oInfo) (md5_hexdigest data)) as [Heq|_];
    [congruence|].
  simpl. apply orb_true_r.
Qed.

(** The loop of [compareFiles] stops at the first file it cannot
    read. *)
Lemma compareFiles_loop_unreadable self inv l acc :
  bForceTransfer (oCmdOptions self) = false →
  (∀ f, f ∈ l → is_Some (Py.getitem inv f)) →
  (∃ f, f ∈ l ∧ open_rb f = None) →
  ∃ f, for_fold (compareFiles_step self inv) l acc = ([], inl (IOError f))
       ∧ f ∈ l ∧ open_rb f = None.
Proof.
  intros Hforce. revert acc.
  induction l as [|x l IH]; intros acc Hkeys (f & Hf & Hnone).
  { by apply elem_of_nil in Hf. }
  destruct (Hkeys x) as [oInfo Hget]; [left|].
  rewrite for_fold_cons.
  destruct (open_rb x) as [data|] eqn:Hopen.
  - assert (∃ acc', compareFiles_step self inv acc x = ([], inr acc')) as [acc' Hstep].
    { unfold compareFiles_step, md5Checksum. rewrite Hforce, Hget, Hopen. simpl.
      destruct (negb _); [by eexists|]. destruct (Py.re_match _ _); by eexists. }
    destruct (IH acc') as (f' & Hrun & Hf' & Hnone').
    { intros y Hy. apply Hkeys. by right. }
    { apply elem_of_cons in Hf as [-> |Hf]; [congruence|eauto]. }
    exists f'. rewrite (bind_inr _ _ _ _ Hstep), Hrun. split_and!; [done|by right|done].
  - exists x. split_and!; [|left|done].
    unfold compareFiles_step, md5Checksum. by rewrite Hforce, Hget, Hopen.
Qed.

(** X10.  Without [--force-transfer], when a file found on both sides
    cannot be opened, [compareFiles] raises [IOError] for such a file
    and returns no lists. *)
Theorem compareFiles_unreadable self aBuildFiles aS3FileInfo sFile :
  bForceTransfer (oCmdOptions self) = false →
  sFile ∈ aBuildFiles →
  sFile ∈ Py.keys aS3FileInfo →
  open_rb sFile = None →
  ∃ f, compareFiles self aBuildFiles aS3FileInfo = ([], inl (IOError f))
       ∧ f ∈ aBuildFiles ∧ f ∈ Py.keys aS3FileInfo ∧ open_rb f = None.
Proof.
  intros Hforce Hbuild Hkey Hnone. unfold compareFiles.
  set (common := py_list (list_to_set aBuildFiles ∩ list_to_set (Py.keys aS3FileInfo))).
  assert (∀ f, f ∈ common ↔ f ∈ aBuildFiles ∧ f ∈ Py.keys aS3FileInfo) as Hcommon.
  { intros f. unfold common.
    by rewrite elem_of_py_list, elem_of_intersection, !elem_of_list_to_set. }
  destruct (compareFiles_loop_unreadable self aS3FileInfo common
              (py_list (list_to_set aBuildFiles ∖ list_to_set (Py.keys aS3FileInfo))))
    as (f & Hrun & Hf & Hopen).
  - done.
  - intros f Hf. apply getitem_keys. by apply Hcommon.
  - exists sFile. split; [by apply Hcommon|done].
  - exists f. rewrite Hrun. apply Hcommon in Hf as [??]. by split_and!.
Qed.

End CompareMore.

Lemma compareFiles_complete_witness :
  let aNewFiles := ["static/main.v3.js"; "precache-manifest.v3.js"; "asset-manifest.json"] in
  let aOldS3Files := ["static/main.v1.js"; "static/main.v2.js";
                      "precache-manifest.v1.js"; "precache-manifest.v2.js"] in
  (∀ f, f ∈ getCwdFiles (host := Sample.host) → f ∉ Py.keys Sample.inventory →
        f ∈ aNewFiles)
  ∧ (∀ f, f ∈ Py.keys Sample.inventory → f ∉ getCwdFiles (host := Sample.host) →
          f ∈ aOldS3Files)
  ∧ NoDup aNewFiles
  ∧ NoDup aOldS3Files.
Proof.
  apply (compareFiles_complete (host := Sample.host) (Sample.deploy false false None)
           (getCwdFiles (host := Sample.host)) Sample.inventory []).
  vm_compute. reflexivity.
Defined.

Lemma compareFiles_changed_witness :
  "asset-manifest.json"
  ∈ ["static/main.v3.js"; "precache-manifest.v3.js"; "asset-manifest.json"].
Proof.
  apply (compareFiles_changed (host := Sample.host) (Sample.deploy false false None)
           (getCwdFiles (host := Sample.host)) Sample.inventory [] _
           ["static/main.v1.js"; "static/main.v2.js";
            "precache-manifest.v1.js"; "precache-manifest.v2.js"]
           "asset-manifest.json"
           (FileInfo.make "asset-manifest.json" "stale" 10 200)
           (Sample.same "asset-manifest.json")).
  - vm_compute. reflexivity.
  - compute_done.
  - vm_compute. reflexivity.
  - vm_compute. reflexivity.
  - compute_done.
Defined.

Lemma compareFiles_unreadable_witness :
  ∃ f, compareFiles (host := Broken.host) (Sample.deploy false false None)
         (getCwdFiles (host := Broken.host)) Sample.inventory
       = ([], inl (IOError f))
       ∧ f ∈ getCwdFiles (host := Broken.host)
       ∧ f ∈ Py.keys Sample.inventory
       ∧ open_rb (Host := Broken.host) f = None.
Proof.
  apply (compareFiles_unreadable (host := Broken.host) (Sample.deploy false false None)
           _ _ "service-worker.js").
  - reflexivity.
  - compute_done.
  - compute_done.
  - reflexivity.
Defined.

(** ** A file that is already stored *)

Section Stored.
Context {host : Host}.

(** X11.  Listing and comparison together: a build file stored under
    prefix, slash and its name, with its MD5 digest in double quotes as
    ETag, is neither transferred nor removed, when the stripped keys of
    the listing are distinct, the name is no manifest's and does not
    hold the prefix, and [--force-transfer] is not given. *)
Theorem stored_file_left_alone self sBucket sPrefix aContents aBuildFiles
    log0 aS3FileInfo log aNewFiles aOldS3Files sFile data o :
  list_objects_v2_answer (oBoto self) sBucket sPrefix = inr (Some aContents) →
  NoDup (inventory_key sPrefix <$> aContents) →
  getS3Files self sBucket sPrefix = (log0, inr aS3FileInfo) →
  compareFiles self aBuildFiles aS3FileInfo = (log, inr (aNewFiles, aOldS3Files)) →
  bForceTransfer (oCmdOptions self) = false →
  sFile ∈ aBuildFiles →
  occurs (sPrefix +:+ "/") sFile = false →
  Py.re_match "precache-manifest" sFile = false →
  open_rb sFile = Some data →
  Py.dot_star (md5_hexdigest data) = true →
  o ∈ aContents →
  S3Object.Key o = sPrefix +:+ "/" +:+ sFile →
  S3Object.ETag o = Py.DQ +:+ md5_hexdigest data +:+ Py.DQ →
  (sFile ∉ aNewFiles) ∧ (sFile ∉ aOldS3Files).
Proof.
  intros Hanswer Hnd Hinv Hcmp Hforce Hbuild Hfree Hpat Hopen Hhex Ho Hkey Htag.
  assert (inventory_key sPrefix o = sFile) as Hstrip.
  { unfold inventory_key. rewrite Hkey, <-append_assoc, replace_occurrence.
    - by apply replace_absent.
    - by destruct sPrefix. }
  assert (FileInfo.etag (inventory_record sPrefix o) = md5_hexdigest data) as Hetag.
  { simpl. rewrite Htag.
    change (Py.DQ +:+ md5_hexdigest data +:+ Py.DQ)
      with (String Py.dquote (md5_hexdigest data +:+ String Py.dquote "")).
    unfold Py.unquote. cbv beta iota.
    by rewrite unsnoc_snoc, Ascii.eqb_refl, Hhex. }
  assert (Py.getitem aS3FileInfo sFile = Some (inventory_record sPrefix o)) as Hget.
  { apply getitem_elem_of.
    - rewrite (getS3Files_fill _ _ _ _ _ _ Hanswer Hinv).
      apply NoDup_keys_fill. constructor.
    - rewrite (getS3Files_fill _ _ _ _ _ _ Hanswer Hinv).
      rewrite foldl_setitem_distinct.
      2:{ simpl. by rewrite (sorted_reverse_perm get_last_modified). }
      simpl. apply list_elem_of_fmap. exists o.
      split; [by rewrite Hstrip|by rewrite (sorted_reverse_perm get_last_modified)]. }
  assert (sFile ∈ Py.keys aS3FileInfo) as Hin by (apply getitem_keys; eauto).
  assert (transferred_again self aS3FileInfo sFile = false) as Hno.
  { unfold transferred_again.
    by rewrite Hforce, Hget, Hopen, Hetag, String.eqb_refl, Hpat. }
  rewrite (elem_of_upload _ _ _ _ _ _ _ Hcmp), (elem_of_delete _ _ _ _ _ _ _ Hcmp).
  rewrite Hno. split; [intros [_ [?|?]]; done|tauto].
Qed.

End Stored.

Lemma stored_file_left_alone_witness :
  ("service-worker.js"
   ∉ ["static/main.v3.js"; "precache-manifest.v3.js"; "asset-manifest.json"])
  ∧ ("service-worker.js"
     ∉ ["static/main.v1.js"; "static/main.v2.js";
        "precache-manifest.v1.js"; "precache-manifest.v2.js"]).
Proof.
  apply (stored_file_left_alone (host := Sample.host) (Sample.deploy false false None)
           "bucket" Sample.prefix Sample.listing (getCwdFiles (host := Sample.host))
           [list_objects_v2 "bucket" Sample.prefix] Sample.inventory [] _ _
           "service-worker.js" (Sample.content "service-worker.js")
           (Sample.stored "service-worker.js" (Sample.same "service-worker.js") 200)).
  - reflexivity.
  - compute_done.
  - vm_compute. reflexivity.
  - vm_compute. reflexivity.
  - reflexivity.
  - compute_done.
  - vm_compute. reflexivity.
  - vm_compute. reflexivity.
  - reflexivity.
  - vm_compute. reflexivity.
  - compute_done.
  - reflexivity.
  - reflexivity.
Defined.

(** ** More on [maintainVersions] *)

Section VersionsMore.
Context {host : Host}.

(** The second loop logs one [get_object] per manifest, up to the first
    that fails. *)
Lemma maintainVersions_loop_log self sBucket sPrefix aManifests acc :
  let fetch oFile := get_object sBucket (sPrefix +:+ "/" +:+ FileInfo.key oFile) in
  (for_fold (maintainVersions_step self sBucket sPrefix) aManifests acc).1
    `prefix_of` (fetch <$> aManifests)
  ∧ (∀ r, (for_fold (maintainVersions_step self sBucket sPrefix) aManifests acc).2 = inr r →
     (for_fold (maintainVersions_step self sBucket sPrefix) aManifests acc).1
     = fetch <$> aManifests).
Proof.
  intros fetch. revert acc. induction aManifests as [|oFile rest IH]; intros acc.
  { split; [apply prefix_nil|done]. }
  rewrite for_fold_cons.
  destruct (get_object_answer (oBoto self) sBucket
              (sPrefix +:+ "/" +:+ FileInfo.key oFile)) as [e|sBody] eqn:Hget.
  - assert (maintainVersions_step self sBucket sPrefix acc oFile
            = ([fetch oFile], inl e)) as ->.
    { unfold maintainVersions_step, call_get_object. by rewrite Hget. }
    split; [|done]. simpl. apply prefix_cons, prefix_nil.
  - assert (maintainVersions_step self sBucket sPrefix acc oFile
            = ([fetch oFile],
               inr ((acc ++ [FileInfo.key oFile]) ++ Py.findall_url sBody))) as Hstep.
    { unfold maintainVersions_step, call_get_object. by rewrite Hget. }
    rewrite (bind_inr _ _ _ _ Hstep).
    destruct (IH ((acc ++ [FileInfo.key oFile]) ++ Py.findall_url sBody)) as [Hpre Hall].
    simpl. split.
    + by apply prefix_cons.
    + intros r Hr. by rewrite (Hall r).
Qed.

(** X12.  [maintainVersions] fetches the retained manifests in the order
    of the inventory, each under the prefix, and nothing else: its log is
    a prefix of these calls, the whole of them when it returns, and so
    never longer than the count of versions. *)
Theorem maintainVersions_fetches self aS3FileInfo aOldS3Files n sBucket sPrefix :
  let fetches : list event :=
    (λ item : string * FileInfo.t,
       get_object sBucket (sPrefix +:+ "/" +:+ FileInfo.key item.2))
      <$> retained aS3FileInfo aOldS3Files n in
  let run := maintainVersions self aS3FileInfo aOldS3Files n sBucket sPrefix in
  run.1 `prefix_of` fetches
  ∧ (∀ r, run.2 = inr r → run.1 = fetches)
  ∧ (length run.1 ≤ Z.to_nat n)%nat.
Proof.
  intros fetches run.
  assert (run.1 `prefix_of` fetches ∧ (∀ r, run.2 = inr r → run.1 = fetches))
    as [Hpre Hall].
  { unfold run, fetches, maintainVersions. rewrite collect_manifests_retained.
    destruct (maintainVersions_loop_log self sBucket sPrefix
                (retained aS3FileInfo aOldS3Files n).*2 []) as [Hpre Hall].
    rewrite <-list_fmap_compose in Hpre, Hall.
    destruct (for_fold _ _ _) as [l1 [e|aExclude]]; simpl in *; [done|].
    rewrite app_nil_r. split; [done|]. intros _ _. by apply (Hall aExclude). }
  split_and!; [done..|].
  apply prefix_length in Hpre. unfold fetches, retained in Hpre.
  rewrite length_fmap, length_take in Hpre. lia.
Qed.

(** X13.  [maintainVersions] returns exactly when every retained
    manifest can be fetched. *)
Theorem maintainVersions_returns self aS3FileInfo aOldS3Files n sBucket sPrefix :
  (∃ log r, maintainVersions self aS3FileInfo aOldS3Files n sBucket sPrefix = (log, inr r))
  ↔ ∀ item, item ∈ retained aS3FileInfo aOldS3Files n →
      ∃ sBody, get_object_answer (oBoto self) sBucket
                 (sPrefix +:+ "/" +:+ FileInfo.key item.2) = inr sBody.
Proof.
  split; [|apply maintainVersions_total].
  intros (log & r & Hrun) item Hitem. unfold maintainVersions in Hrun.
  rewrite collect_manifests_retained in Hrun.
  apply bind_inr_inv in Hrun as (l1 & aExclude & l2 & Hloop & _ & _).
  apply maintainVersions_loop in Hloop as [_ Hall].
  apply Hall, list_elem_of_fmap. eauto.
Qed.

(** X14.  Keeping more versions never removes more: with a greater
    count, the list returned is within the list returned for the
    smaller one. *)
Theorem maintainVersions_monotone self aS3FileInfo aOldS3Files n n' sBucket sPrefix
    log r log' r' :
  (n ≤ n')%Z →
  maintainVersions self aS3FileInfo aOldS3Files n sBucket sPrefix = (log, inr r) →
  maintainVersions self aS3FileInfo aOldS3Files n' sBucket sPrefix = (log', inr r') →
  ∀ f, f ∈ r' → f ∈ r.
Proof.
  intros Hle Hrun Hrun' f.
  rewrite (maintainVersions_inr _ _ _ _ _ _ _ _ _ Hrun),
    (maintainVersions_inr _ _ _ _ _ _ _ _ _ Hrun').
  intros [Hold Hno]. split; [done|]. intros item Hitem. apply Hno.
  unfold retained in *. apply elem_of_take in Hitem as (i & Hi & Hlt).
  apply elem_of_take. exists i. split; [done|lia].
Qed.

(** X15.  With a count that covers every superseded manifest of an
    inventory whose records carry their keys, no candidate whose key
    starts with [precache-manifest] is left in the returned list. *)
Theorem maintainVersions_keeps_manifests self aS3FileInfo aOldS3Files n sBucket sPrefix
    log r :
  (∀ item, item ∈ aS3FileInfo → FileInfo.key item.2 = item.1) →
  (∀ f, f ∈ aOldS3Files → f ∈ Py.keys aS3FileInfo) →
  (length (List.filter (superseded_manifest aOldS3Files) aS3FileInfo) ≤ Z.to_nat n)%nat →
  maintainVersions self aS3FileInfo aOldS3Files n sBucket sPrefix = (log, inr r) →
  ∀ f, f ∈ r → Py.re_match "precache-manifest" f = false.
Proof.
  intros Hwf Hkeys Henough Hrun f.
  rewrite (maintainVersions_inr _ _ _ _ _ _ _ _ _ Hrun). intros [Hold Hno].
  destruct (Py.re_match "precache-manifest" f) eqn:Hpat; [|done].
  pose proof (Hkeys f Hold) as Hin.
  apply list_elem_of_fmap in Hin as ([k oInfo] & -> & Hin).
  simpl in *. destruct (Hno (k, oInfo)).
  - unfold retained. rewrite take_ge by done.
    apply list_elem_of_In, filter_In. split; [by apply list_elem_of_In|].
    unfold superseded_manifest. simpl. rewrite Hpat. simpl.
    by apply bool_decide_eq_true_2.
  - pose proof (Hwf (k, oInfo) Hin) as Hk. simpl in Hk.
    unfold kept_by. simpl. rewrite Hk. left.
Qed.

End VersionsMore.

Lemma maintainVersions_monotone_witness :
  (1 ≤ 2)%Z
  ∧ ∀ f, f ∈ ["service-worker.js"] →
         f ∈ ["service-worker.js"; "static/main.v1.js"; "precache-manifest.v1.js"].
Proof.
  split; [lia|].
  apply (maintainVersions_monotone (host := Sample.host)
           (Sample.deploy false false (Some 1%Z)) Sample.inventory
           ["static/main.v1.js"; "static/main.v2.js"; "service-worker.js";
            "precache-manifest.v1.js"; "precache-manifest.v2.js"] 1 2
           "bucket" Sample.prefix
           [get_object "bucket" "deployments/app/prod/precache-manifest.v2.js"] _
           [get_object "bucket" "deployments/app/prod/precache-manifest.v2.js";
            get_object "bucket" "deployments/app/prod/precache-manifest.v1.js"]).
  - lia.
  - vm_compute. reflexivity.
  - vm_compute. reflexivity.
Defined.

Lemma maintainVersions_keeps_manifests_witness :
  (length (List.filter
             (superseded_manifest
                ["static/main.v1.js"; "static/main.v2.js"; "service-worker.js";
                 "precache-manifest.v1.js"; "precache-manifest.v2.js"])
             Sample.inventory) ≤ Z.to_nat 2)%nat
  ∧ ∀ f, f ∈ ["service-worker.js"] → Py.re_match "precache-manifest" f = false.
Proof.
  split; [vm_compute; lia|].
  apply (maintainVersions_keeps_manifests (host := Sample.host)
           (Sample.deploy false false (Some 2%Z)) Sample.inventory
           ["static/main.v1.js"; "static/main.v2.js"; "service-worker.js";
            "precache-manifest.v1.js"; "precache-manifest.v2.js"] 2
           "bucket" Sample.prefix
           [get_object "bucket" "deployments/app/prod/precache-manifest.v2.js";
            get_object "bucket" "deployments/app/prod/precache-manifest.v1.js"]).
  - apply Forall_forall. compute_done.
  - apply Forall_forall. compute_done.
  - vm_compute. lia.
  - vm_compute. reflexivity.
Defined.

(** ** Runs of [removeS3Files] and [transferFiles] *)

(** A loop runs its rounds in order and stops at the first that
    raises. *)
Lemma for_each_run {A} (body : A → M ()) l log r :
  for_each body l = (log, r) →
  match r with
  | inr _ => (∀ x, x ∈ l → (body x).2 = inr ()) ∧ log = l ≫= (λ x, (body x).1)
  | inl e =>
      ∃ done x rest,
        l = done ++ x :: rest
        ∧ (∀ y, y ∈ done → (body y).2 = inr ())
        ∧ (body x).2 = inl e
        ∧ log = (done ++ [x]) ≫= (λ x, (body x).1)
  end.
Proof.
  revert log. induction l as [|x l IH]; intros log.
  - intros [= <- <-]. split; [|done]. intros x Hx. by apply elem_of_nil in Hx.
  - rewrite for_each_cons.
    intros [(e & Hx & ->)|(l1 & [] & l2 & Hx & Hl & ->)]%bind_inv.
    + exists [], x, l. split_and!; [done| |by rewrite Hx|].
      * intros y Hy. by apply elem_of_nil in Hy.
      * simpl. by rewrite Hx, app_nil_r.
    + apply IH in Hl. destruct r as [e|[]].
      * destruct Hl as (done & y & rest & -> & Hdone & Hy & ->).
        exists (x :: done), y, rest. split_and!; [done| |done|].
        -- intros z [-> |Hz]%elem_of_cons; [by rewrite Hx|by apply Hdone].
        -- simpl. by rewrite Hx.
      * destruct Hl as [Hall ->]. split.
        -- intros z [-> |Hz]%elem_of_cons; [by rewrite Hx|by apply Hall].
        -- simpl. by rewrite Hx.
Qed.

Section Runs.
Context {host : Host}.

Lemma removeS3Files_step_run self sBucket sPrefix sFile :
  (removeS3Files_step self sBucket sPrefix sFile).1
  = removal_events self sBucket sPrefix sFile
  ∧ (removeS3Files_step self sBucket sPrefix sFile).2
    = if bDryRun (oCmdOptions self) then inr ()
      else match delete_object_answer (oBoto self) sBucket (sPrefix +:+ "/" +:+ sFile) with
           | Some e => inl e
           | None => inr ()
           end.
Proof.
  unfold removeS3Files_step, removal_events, call_delete_object.
  destruct (bDryRun (oCmdOptions self)); [done|]. simpl.
  by destruct (delete_object_answer _ _ _).
Qed.

(** X16.  [removeS3Files] prints one line per file and, without
    [--dry-run], deletes it under prefix, slash and its name, in the order
    of the list; it stops at the first [delete_object] that raises, with
    the files before it deleted and those after it untouched; with
    [--dry-run] it always ends. *)
Theorem removeS3Files_run self sBucket sPrefix aFiles log r :
  removeS3Files self sBucket sPrefix aFiles = (log, r) →
  match r with
  | inr _ => log = aFiles ≫= removal_events self sBucket sPrefix
  | inl e =>
      ∃ done sFile rest,
        aFiles = done ++ sFile :: rest
        ∧ bDryRun (oCmdOptions self) = false
        ∧ (∀ f, f ∈ done →
             delete_object_answer (oBoto self) sBucket (sPrefix +:+ "/" +:+ f) = None)
        ∧ delete_object_answer (oBoto self) sBucket (sPrefix +:+ "/" +:+ sFile) = Some e
        ∧ log = (done ++ [sFile]) ≫= removal_events self sBucket sPrefix
  end.
Proof.
  intros Hrun%for_each_run.
  assert (∀ l : list string,
            l ≫= (λ x, (removeS3Files_step self sBucket sPrefix x).1)
            = l ≫= removal_events self sBucket sPrefix) as Hlog.
  { intros l. induction l as [|x l IH]; [done|].
    rewrite !bind_cons, IH. f_equal. apply removeS3Files_step_run. }
  destruct r as [e|[]].
  - destruct Hrun as (done & sFile & rest & -> & Hdone & Hfail & ->).
    rewrite (proj2 (removeS3Files_step_run _ _ _ _)) in Hfail.
    destruct (bDryRun (oCmdOptions self)) eqn:Hdry; [done|].
    exists done, sFile, rest. split_and!; [done..| | |apply Hlog].
    + intros f Hf. specialize (Hdone f Hf).
      rewrite (proj2 (removeS3Files_step_run _ _ _ _)), Hdry in Hdone.
      by destruct (delete_object_answer _ _ _).
    + destruct (delete_object_answer _ _ _); congruence.
  - destruct Hrun as [_ ->]. apply Hlog.
Qed.

Lemma transferFiles_step_run self sBucket sPrefix sFile :
  (transferFiles_step self sBucket sPrefix sFile).1
  = transfer_events self sBucket sPrefix sFile
  ∧ (transferFiles_step self sBucket sPrefix sFile).2
    = if bDryRun (oCmdOptions self) then inr ()
      else match open_rb sFile with
           | None => inl (IOError sFile)
           | Some _ =>
               match put_object_answer (oBoto self) sBucket (sPrefix +:+ "/" +:+ sFile) with
               | Some e => inl e
               | None => inr ()
               end
           end.
Proof.
  unfold transferFiles_step, transfer_events, call_put_object.
  destruct (bDryRun (oCmdOptions self)); [done|]. simpl.
  destruct (open_rb sFile) as [data|]; [|done].
  rewrite <-(negb_involutive (Py.is_False _)), searchList_not_False.
  case_bool_decide; simpl; by destruct (put_object_answer _ _ _).
Qed.

(** X17.  [transferFiles] prints one line per file and, without
    [--dry-run], puts it, in the order of the list; it stops at the first
    file that cannot be opened, with [IOError] and before any call for
    it, or at the first [put_object] that raises; the files before were
    put, those after are untouched. *)
Theorem transferFiles_run self sBucket sPrefix aFiles log r :
  transferFiles self sBucket sPrefix aFiles = (log, r) →
  match r with
  | inr _ => log = aFiles ≫= transfer_events self sBucket sPrefix
  | inl e =>
      ∃ done sFile rest,
        aFiles = done ++ sFile :: rest
        ∧ bDryRun (oCmdOptions self) = false
        ∧ (∀ f, f ∈ done →
             is_Some (open_rb f)
             ∧ put_object_answer (oBoto self) sBucket (sPrefix +:+ "/" +:+ f) = None)
        ∧ (open_rb sFile = None ∧ e = IOError sFile
           ∨ is_Some (open_rb sFile)
             ∧ put_object_answer (oBoto self) sBucket (sPrefix +:+ "/" +:+ sFile) = Some e)
        ∧ log = (done ++ [sFile]) ≫= transfer_events self sBucket sPrefix
  end.
Proof.
  intros Hrun%for_each_run.
  assert (∀ l : list string,
            l ≫= (λ x, (transferFiles_step self sBucket sPrefix x).1)
            = l ≫= transfer_events self sBucket sPrefix) as Hlog.
  { intros l. induction l as [|x l IH]; [done|].
    rewrite !bind_cons, IH. f_equal. apply transferFiles_step_run. }
  destruct r as [e|[]].
  - destruct Hrun as (done & sFile & rest & -> & Hdone & Hfail & ->).
    rewrite (proj2 (transferFiles_step_run _ _ _ _)) in Hfail.
    destruct (bDryRun (oCmdOptions self)) eqn:Hdry; [done|].
    exists done, sFile, rest. split_and!; [done..| | |apply Hlog].
    + intros f Hf. specialize (Hdone f Hf).
      rewrite (proj2 (transferFiles_step_run _ _ _ _)), Hdry in Hdone.
      destruct (open_rb f); [|done].
      split; [eauto|]. by destruct (put_object_answer _ _ _).
    + destruct (open_rb sFile) as [data|].
      * right. split; [eauto|]. destruct (put_object_answer _ _ _); congruence.
      * left. split; [done|congruence].
  - destruct Hrun as [_ ->]. apply Hlog.
Qed.

End Runs.

Lemma removeS3Files_run_witness :
  ∃ done sFile rest,
    ["a.js"; "b.js"; "c.js"] = done ++ sFile :: rest
    ∧ bDryRun (oCmdOptions (Collision.deploy false)) = false
    ∧ (∀ f, f ∈ done →
         delete_object_answer Collision.s3 "bucket" ("deployments/app/prod" +:+ "/" +:+ f)
         = None)
    ∧ delete_object_answer Collision.s3 "bucket" ("deployments/app/prod" +:+ "/" +:+ sFile)
      = Some (ClientError "AccessDenied")
    ∧ [ print " - removing s3://bucket/deployments/app/prod/a.js";
        delete_object "bucket" "deployments/app/prod/a.js";
        print " - removing s3://bucket/deployments/app/prod/b.js";
        delete_object "bucket" "deployments/app/prod/b.js" ]
      = (done ++ [sFile]) ≫= removal_events (Collision.deploy false) "bucket"
                                "deployments/app/prod".
Proof.
  apply (removeS3Files_run (Collision.deploy false) "bucket"
           "deployments/app/prod" ["a.js"; "b.js"; "c.js"] _
           (inl (ClientError "AccessDenied"))).
  vm_compute. reflexivity.
Defined.

Lemma transferFiles_run_witness :
  ∃ done sFile rest,
    ["index.html"; "service-worker.js"; "asset-manifest.json"] = done ++ sFile :: rest
    ∧ bDryRun (oCmdOptions (Sample.deploy false false None)) = false
    ∧ (∀ f, f ∈ done →
         is_Some (open_rb (Host := Broken.host) f)
         ∧ put_object_answer Sample.s3 "bucket" ("deployments/app/prod" +:+ "/" +:+ f)
           = None)
    ∧ (open_rb (Host := Broken.host) sFile = None ∧ IOError "service-worker.js" = IOError sFile
       ∨ is_Some (open_rb (Host := Broken.host) sFile)
         ∧ put_object_answer Sample.s3 "bucket" ("deployments/app/prod" +:+ "/" +:+ sFile)
           = Some (IOError "service-worker.js"))
    ∧ [ print " - transfering to s3://bucket/deployments/app/prod/index.html";
        put_object "content of index.html" "bucket" sCacheNever None
          "deployments/app/prod/index.html";
        print " - transfering to s3://bucket/deployments/app/prod/service-worker.js" ]
      = (done ++ [sFile]) ≫= transfer_events (host := Broken.host)
                                (Sample.deploy false false None) "bucket"
                                "deployments/app/prod".
Proof.
  apply (transferFiles_run (host := Broken.host) (Sample.deploy false false None) "bucket"
           "deployments/app/prod" ["index.html"; "service-worker.js"; "asset-manifest.json"]
           _ (inl (IOError "service-worker.js"))).
  vm_compute. reflexivity.
Defined.

(** ** The order of a run of [syncToS3] *)

Lemma run_log_all {A} (P : event → Prop) (m : M A) log r :
  log_all P m → m = (log, r) → ∀ ev, ev ∈ log → P ev.
Proof. intros Hall -> ev Hev. by apply Hall. Qed.

Section SyncMore.
Context {host : Host}.

(** Lines 298-300 of [syncToS3]. *)
#[local, warnings="-inconsistent-scopes"]
Abbreviation keep_step self aS3FileInfo aOldS3Files :=
  (match iVersions (oCmdOptions self) with
   | Some n =>
       if negb (n =? 0)%Z && (0 <? n)%Z
       then maintainVersions self aS3FileInfo aOldS3Files n (S3_BUCKET self)
              (deployment_prefix self)
       else mret aOldS3Files
   | None => mret aOldS3Files
   end).

(** What an event of a run of [syncToS3] can be. *)
Lemma syncToS3_event self log r ev :
  syncToS3 self = (log, r) → ev ∈ log →
  is_write ev = false
  ∨ ∃ l0 inv up del0 l2 del,
      getS3Files self (S3_BUCKET self) (deployment_prefix self) = (l0, inr inv)
      ∧ compareFiles self getCwdFiles inv = ([], inr (up, del0))
      ∧ keep_step self inv del0 = (l2, inr del)
      ∧ bDryRun (oCmdOptions self) = false
      ∧ ((∃ sFile data,
            sFile ∈ up ∧ open_rb sFile = Some data
            ∧ ev = put_object data (S3_BUCKET self)
                     (if bool_decide (sFile ∈ NO_CACHE_FILES)
                      then sCacheNever else sCacheAlways)
                     (guess_type sFile) (deployment_prefix self +:+ "/" +:+ sFile))
         ∨ (∃ l3 sFile,
              transferFiles self (S3_BUCKET self) (deployment_prefix self) up
              = (l3, inr ())
              ∧ sFile ∈ del
              ∧ ev = delete_object (S3_BUCKET self)
                       (deployment_prefix self +:+ "/" +:+ sFile))).
Proof.
  intros Hrun Hev.
  set (Q := λ ev, is_write ev = false
    ∨ ∃ l0 inv up del0 l2 del,
      getS3Files self (S3_BUCKET self) (deployment_prefix self) = (l0, inr inv)
      ∧ compareFiles self getCwdFiles inv = ([], inr (up, del0))
      ∧ keep_step self inv del0 = (l2, inr del)
      ∧ bDryRun (oCmdOptions self) = false
      ∧ ((∃ sFile data,
            sFile ∈ up ∧ open_rb sFile = Some data
            ∧ ev = put_object data (S3_BUCKET self)
                     (if bool_decide (sFile ∈ NO_CACHE_FILES)
                      then sCacheNever else sCacheAlways)
                     (guess_type sFile) (deployment_prefix self +:+ "/" +:+ sFile))
         ∨ (∃ l3 sFile,
              transferFiles self (S3_BUCKET self) (deployment_prefix self) up
              = (l3, inr ())
              ∧ sFile ∈ del
              ∧ ev = delete_object (S3_BUCKET self)
                       (deployment_prefix self +:+ "/" +:+ sFile)))).
  assert (log_all Q (syncToS3 self)) as Hall.
  { rewrite syncToS3_unfold. destruct (bInvalidCFOnly _); [apply log_all_ret|].
    apply log_all_bind; [apply getS3Files_log; by left|].
    intros inv Hinv%surjective_run.
    apply log_all_bind; [apply compareFiles_log|].
    intros [up del0] Hcmp%surjective_run.
    assert ((compareFiles self getCwdFiles inv).1 = []) as Hnil.
    { by apply compareFiles_inr in Hcmp as (? & _). }
    rewrite Hnil in Hcmp.
    apply log_all_bind; [apply keep_versions_log; by left|].
    intros del Hkeep%surjective_run.
    apply log_all_bind.
    { apply log_all_for_each. intros sFile Hfile ev' Hev'.
      rewrite (proj1 (transferFiles_step_run _ _ _ _)) in Hev'.
      unfold transfer_events in Hev'.
      apply elem_of_cons in Hev' as [-> |Hev']; [by left|].
      destruct (bDryRun (oCmdOptions self)) eqn:Hdry; [by apply elem_of_nil in Hev'|].
      destruct (open_rb sFile) as [data|] eqn:Hopen; [|by apply elem_of_nil in Hev'].
      apply list_elem_of_singleton in Hev' as ->.
      right. do 6 eexists. split_and!; [exact Hinv|exact Hcmp|exact Hkeep|done|].
      left. eauto. }
    intros [] Htr%surjective_run.
    apply log_all_bind; [|intros; apply log_all_ret].
    apply removeS3Files_log; [by left|].
    intros Hdry sFile Hfile.
    right. do 6 eexists. split_and!; [exact Hinv|exact Hcmp|exact Hkeep|done|].
    right. eauto. }
  apply (Hall ev). by rewrite Hrun.
Qed.

(** X18.  A run of [syncToS3] writes nothing before its plan is made:
    a [put_object] or [delete_object] in the log means that the listing,
    the comparison and, when versions are kept, the fetching of the
    retained manifests all returned. *)
Theorem syncToS3_plans_first self log r ev :
  syncToS3 self = (log, r) → ev ∈ log → is_write ev = true →
  ∃ l0 inv up del0,
    getS3Files self (S3_BUCKET self) (deployment_prefix self) = (l0, inr inv)
    ∧ compareFiles self getCwdFiles inv = ([], inr (up, del0))
    ∧ ∀ n, iVersions (oCmdOptions self) = Some n → (0 < n)%Z →
        ∃ l2 del,
          maintainVersions self inv del0 n (S3_BUCKET self) (deployment_prefix self)
          = (l2, inr del).
Proof.
  intros Hrun Hev Hwrite.
  destruct (syncToS3_event _ _ _ _ Hrun Hev)
    as [Hno|(l0 & inv & up & del0 & l2 & del & Hinv & Hcmp & Hkeep & _)]; [congruence|].
  exists l0, inv, up, del0. split_and!; [done..|].
  intros n Hn Hpos. rewrite Hn in Hkeep.
  destruct (Z.eqb_spec n 0) as [Hz|_]; [lia|].
  destruct (Z.ltb_spec 0 n) as [_|?]; [|lia]. simpl in Hkeep. eauto.
Qed.

(** X19.  Every [put_object] of a run of [syncToS3] writes a file of the
    build directory, with the content of that file, into the configured
    bucket under the prefix of the deployment. *)
Theorem syncToS3_puts_build_files self log r data sBucket sCache sMime sKey :
  syncToS3 self = (log, r) →
  put_object data sBucket sCache sMime sKey ∈ log →
  sBucket = S3_BUCKET self
  ∧ ∃ sFile,
      sFile ∈ getCwdFiles
      ∧ open_rb sFile = Some data
      ∧ sMime = guess_type sFile
      ∧ sKey = deployment_prefix self +:+ "/" +:+ sFile.
Proof.
  intros Hrun Hev.
  destruct (syncToS3_event _ _ _ _ Hrun Hev)
    as [[=]|(l0 & inv & up & del0 & l2 & del & _ & Hcmp & _ & _ & Hput)].
  destruct Hput as [(sFile & data' & Hup & Hopen & [= -> -> -> -> ->])
                   |(l3 & sFile & _ & _ & [=])].
  split; [done|]. exists sFile. split_and!; [|done..].
  apply (elem_of_upload _ _ _ _ _ _ _ Hcmp) in Hup. tauto.
Qed.

(** A [delete_object] of a run is logged by [removeS3Files], which
    runs once every stage before it has returned. *)
Lemma syncToS3_delete self log r sBucket sKey :
  syncToS3 self = (log, r) → delete_object sBucket sKey ∈ log →
  ∃ l0 inv up del0 l2 del l3 l4 r',
    getS3Files self (S3_BUCKET self) (deployment_prefix self) = (l0, inr inv)
    ∧ compareFiles self getCwdFiles inv = ([], inr (up, del0))
    ∧ keep_step self inv del0 = (l2, inr del)
    ∧ transferFiles self (S3_BUCKET self) (deployment_prefix self) up = (l3, inr ())
    ∧ removeS3Files self (S3_BUCKET self) (deployment_prefix self) del = (l4, r')
    ∧ log = l0 ++ l2 ++ l3 ++ l4
    ∧ delete_object sBucket sKey ∈ l4.
Proof.
  intros Hrun Hev. rewrite syncToS3_unfold in Hrun.
  set (Q := λ ev : event, is_delete_object ev = false).
  assert (∀ A (m : M A) l x, log_all Q m → m = (l, x) → delete_object sBucket sKey ∈ l → False)
    as Hno.
  { intros A m l x Hall -> Hin. by apply Hall in Hin. }
  assert (log_all Q (getS3Files self (S3_BUCKET self) (deployment_prefix self))) as Hq0
    by by apply getS3Files_log.
  assert (∀ inv del0, log_all Q (keep_step self inv del0)) as Hq2
    by (intros; by apply keep_versions_log).
  assert (∀ up, log_all Q (transferFiles self (S3_BUCKET self) (deployment_prefix self) up))
    as Hq3 by (intros; by apply transferFiles_log).
  destruct (bInvalidCFOnly (oCmdOptions self)).
  { injection Hrun as <- _. by apply elem_of_nil in Hev. }
  apply bind_inv in Hrun as [(e & Hinv & _)|(l0 & inv & la & Hinv & Hrun & ->)].
  { destruct (Hno _ _ _ _ Hq0 Hinv Hev). }
  apply bind_inv in Hrun as [(e & Hcmp & _)|(l1 & [up del0] & lb & Hcmp & Hrun & ->)].
  { apply elem_of_app in Hev as [Hev|Hev]; [destruct (Hno _ _ _ _ Hq0 Hinv Hev)|].
    destruct (Hno _ _ _ _ (compareFiles_log Q _ _ _) Hcmp Hev). }
  pose proof Hcmp as (-> & _)%compareFiles_inr. simpl in Hrun, Hev.
  apply bind_inv in Hrun as [(e & Hkeep & _)|(l2 & del & lc & Hkeep & Hrun & ->)].
  { apply elem_of_app in Hev as [Hev|Hev]; [destruct (Hno _ _ _ _ Hq0 Hinv Hev)|].
    destruct (Hno _ _ _ _ (Hq2 _ _) Hkeep Hev). }
  apply bind_inv in Hrun as [(e & Htr & _)|(l3 & [] & ld & Htr & Hrun & ->)].
  { apply elem_of_app in Hev as [Hev|[Hev|Hev]%elem_of_app];
      [destruct (Hno _ _ _ _ Hq0 Hinv Hev)|destruct (Hno _ _ _ _ (Hq2 _ _) Hkeep Hev)|].
    destruct (Hno _ _ _ _ (Hq3 _) Htr Hev). }
  assert (∃ l4 r', removeS3Files self (S3_BUCKET self) (deployment_prefix self) del = (l4, r')
                   ∧ ld = l4) as (l4 & r' & Hrm & ->).
  { apply bind_inv in Hrun as [(e & Hrm & _)|(l4 & [] & le & Hrm & [= <- _] & ->)];
      [by eexists _, _|].
    eexists _, _. split; [done|]. by rewrite app_nil_r. }
  exists l0, inv, up, del0, l2, del, l3, l4, r'. split_and!; try done.
  apply elem_of_app in Hev as [Hev|[Hev|[Hev|Hev]%elem_of_app]%elem_of_app];
    [destruct (Hno _ _ _ _ Hq0 Hinv Hev)|destruct (Hno _ _ _ _ (Hq2 _ _) Hkeep Hev)
    |destruct (Hno _ _ _ _ (Hq3 _) Htr Hev)|done].
Qed.

(** X20.  No file of the build directory is removed: every
    [delete_object] of a run of [syncToS3] is for a key of the inventory
    that is no build file.  It comes after [transferFiles] has returned
    for the files that [compareFiles] gave to transfer: the log is what
    came before the transfer, the log of the transfer, and the log of
    the removal that holds the call, and there is no [put_object]
    outside the log of the transfer. *)
Theorem syncToS3_keeps_build_files self log r sBucket sKey :
  syncToS3 self = (log, r) →
  delete_object sBucket sKey ∈ log →
  ∃ l0 inv up del0 sFile,
    getS3Files self (S3_BUCKET self) (deployment_prefix self) = (l0, inr inv)
    ∧ compareFiles self getCwdFiles inv = ([], inr (up, del0))
    ∧ sBucket = S3_BUCKET self
    ∧ sKey = deployment_prefix self +:+ "/" +:+ sFile
    ∧ sFile ∈ Py.keys inv
    ∧ (sFile ∉ getCwdFiles)
    ∧ ∃ before l3 l4,
        transferFiles self (S3_BUCKET self) (deployment_prefix self) up = (l3, inr ())
        ∧ log = before ++ l3 ++ l4
        ∧ delete_object sBucket sKey ∈ l4
        ∧ ∀ ev, ev ∈ before ++ l4 → is_put_object ev = false.
Proof.
  intros Hrun Hev.
  destruct (syncToS3_delete _ _ _ _ _ Hrun Hev)
    as (l0 & inv & up & del0 & l2 & del & l3 & l4 & r' & Hinv & Hcmp & Hkeep & Htr
        & Hrm & -> & Hin).
  set (Q := λ ev : event,
    is_put_object ev = false
    ∧ (is_delete_object ev = true →
       ∃ sFile, sFile ∈ del
                ∧ ev = delete_object (S3_BUCKET self) (deployment_prefix self +:+ "/" +:+ sFile))).
  assert (∀ ev, ev ∈ l4 → Q ev) as Hl4.
  { apply (run_log_all Q _ _ _ (removeS3Files_log Q _ _ _ _
             ltac:(by intros) ltac:(intros _ f Hf; split; [done|]; eauto)) Hrm). }
  destruct (Hl4 _ Hin) as [_ (sFile & Hdel & [= -> ->])]; [done|].
  pose proof (keep_versions_inr _ _ _ _ _ Hkeep) as [Hsub _]. apply Hsub in Hdel.
  apply (elem_of_delete _ _ _ _ _ _ _ Hcmp) in Hdel as [Hkey Hnot].
  exists l0, inv, up, del0, sFile. split_and!; [done..|].
  exists (l0 ++ l2), l3, l4. split_and!; [done|by rewrite <-(assoc_L (++))|done|].
  intros ev [[Hev'|Hev']%elem_of_app|Hev']%elem_of_app.
  - apply (run_log_all (λ ev, is_put_object ev = false) _ _ _
             (getS3Files_log _ _ _ _ eq_refl) Hinv _ Hev').
  - apply (run_log_all (λ ev, is_put_object ev = false) _ _ _
             (keep_versions_log _ _ _ _ (λ _, eq_refl)) Hkeep _ Hev').
  - by apply Hl4.
Qed.

End SyncMore.

Lemma syncToS3_plans_first_witness :
  ∃ l0 inv up del0,
    getS3Files (Sample.deploy false false (Some 1%Z)) "bucket" Sample.prefix = (l0, inr inv)
    ∧ compareFiles (host := Sample.host) (Sample.deploy false false (Some 1%Z))
        (getCwdFiles (host := Sample.host)) inv = ([], inr (up, del0))
    ∧ ∀ n, Some 1%Z = Some n → (0 < n)%Z →
        ∃ l2 del,
          maintainVersions (host := Sample.host) (Sample.deploy false false (Some 1%Z))
            inv del0 n "bucket" Sample.prefix = (l2, inr del).
Proof.
  apply (syncToS3_plans_first (host := Sample.host) (Sample.deploy false false (Some 1%Z))
           (syncToS3 (host := Sample.host) (Sample.deploy false false (Some 1%Z))).1
           (syncToS3 (host := Sample.host) (Sample.deploy false false (Some 1%Z))).2
           (delete_object "bucket" "deployments/app/prod/static/main.v1.js")).
  - vm_compute. reflexivity.
  - compute_done.
  - reflexivity.
Defined.

Lemma syncToS3_puts_build_files_witness :
  "bucket" = "bucket"
  ∧ ∃ sFile,
      sFile ∈ getCwdFiles (host := Sample.host)
      ∧ open_rb (Host := Sample.host) sFile = Some "content of asset-manifest.json"
      ∧ None = guess_type (Host := Sample.host) sFile
      ∧ "deployments/app/prod/asset-manifest.json" = Sample.prefix +:+ "/" +:+ sFile.
Proof.
  apply (syncToS3_puts_build_files (host := Sample.host)
           (Sample.deploy false false (Some 1%Z))
           (syncToS3 (host := Sample.host) (Sample.deploy false false (Some 1%Z))).1
           (syncToS3 (host := Sample.host) (Sample.deploy false false (Some 1%Z))).2
           _ _ sCacheNever).
  - vm_compute. reflexivity.
  - compute_done.
Defined.

Lemma syncToS3_keeps_build_files_witness :
  ∃ l0 inv up del0 sFile,
    getS3Files (Sample.deploy false false (Some 1%Z)) "bucket" Sample.prefix = (l0, inr inv)
    ∧ compareFiles (host := Sample.host) (Sample.deploy false false (Some 1%Z))
        (getCwdFiles (host := Sample.host)) inv = ([], inr (up, del0))
    ∧ "bucket" = "bucket"
    ∧ "deployments/app/prod/precache-manifest.v1.js" = Sample.prefix +:+ "/" +:+ sFile
    ∧ sFile ∈ Py.keys inv
    ∧ (sFile ∉ getCwdFiles (host := Sample.host))
    ∧ ∃ before l3 l4,
        transferFiles (host := Sample.host) (Sample.deploy false false (Some 1%Z))
          "bucket" Sample.prefix up = (l3, inr ())
        ∧ (syncToS3 (host := Sample.host) (Sample.deploy false false (Some 1%Z))).1
          = before ++ l3 ++ l4
        ∧ delete_object "bucket" "deployments/app/prod/precache-manifest.v1.js" ∈ l4
        ∧ ∀ ev, ev ∈ before ++ l4 → is_put_object ev = false.
Proof.
  apply (syncToS3_keeps_build_files (host := Sample.host)
           (Sample.deploy false false (Some 1%Z))
           (syncToS3 (host := Sample.host) (Sample.deploy false false (Some 1%Z))).1
           (syncToS3 (host := Sample.host) (Sample.deploy false false (Some 1%Z))).2).
  - vm_compute. reflexivity.
  - compute_done.
Defined.

(** ** The invalidation *)

Section Invalidation.
Context {host : Host}.

Lemma clearCloudFront_run self :
  clearCloudFront self
  = if bDryRun (oCmdOptions self) then ([], inr ())
    else ([ print "";
            print (" *** " +:+ ("Clearing CloudFront distribution: " +:+ CF_DIST_ID self)
                     +:+ " ***");
            create_invalidation (CF_DIST_ID self) ["/*"] ],
          match create_invalidation_answer (oBotoCF self) (CF_DIST_ID self) with
          | Some e => inl e
          | None => inr ()
          end).
Proof.
  unfold clearCloudFront, statusMsg, call_create_invalidation.
  destruct (bDryRun (oCmdOptions self)); [done|].
  by destruct (create_invalidation_answer _ _).
Qed.

(** X21.  [main] invalidates the distribution at most once, as the last
    thing it does: a [create_invalidation] in its log is for the
    configured distribution and the path [/*], the run is no dry run,
    [syncToS3] has returned, and nothing is logged after the call. *)
Theorem main_invalidates_last self log r sId aItems :
  main self = (log, r) →
  create_invalidation sId aItems ∈ log →
  bDryRun (oCmdOptions self) = false
  ∧ sId = CF_DIST_ID self
  ∧ aItems = ["/*"]
  ∧ ∃ l1 sets line,
      syncToS3 self = (l1, inr sets)
      ∧ (∀ ev, ev ∈ l1 → ev ≠ create_invalidation sId aItems)
      ∧ log = l1 ++ [print ""; print line; create_invalidation sId aItems].
Proof.
  unfold main. intros Hrun Hev.
  assert (∀ l r', syncToS3 self = (l, r') →
            ∀ ev, ev ∈ l → ev ≠ create_invalidation sId aItems) as Hsync.
  { intros l r' Hs ev Hin ->.
    destruct (syncToS3_event _ _ _ _ Hs Hin) as [[=]|Hw].
    destruct Hw as (? & ? & ? & ? & ? & ? & _ & _ & _ & _
                    & [(? & ? & _ & _ & [=])|(? & ? & _ & _ & [=])]). }
  apply bind_inv in Hrun as [(e & Hs & _)|(l1 & sets & l2 & Hs & Hrest & ->)].
  { by destruct (Hsync _ _ Hs _ Hev). }
  apply elem_of_app in Hev as [Hev|Hev]; [by destruct (Hsync _ _ Hs _ Hev)|].
  rewrite clearCloudFront_run in Hrest.
  destruct (bDryRun (oCmdOptions self)).
  { injection Hrest as <- _. by apply elem_of_nil in Hev. }
  assert (l2 = [ print "";
                 print (" *** " +:+ ("Clearing CloudFront distribution: " +:+ CF_DIST_ID self)
                          +:+ " ***");
                 create_invalidation (CF_DIST_ID self) ["/*"] ]) as ->.
  { destruct (create_invalidation_answer _ _); by injection Hrest as <- _. }
  apply elem_of_cons in Hev as [[=]|Hev].
  apply elem_of_cons in Hev as [[=]|Hev].
  apply list_elem_of_singleton in Hev as [= -> ->].
  split_and!; [done..|]. do 3 eexists. split_and!; [exact Hs|by eapply Hsync|done].
Qed.

(** X22.  With [--invalidation-only], [main] calls nothing on the
    bucket: it only invalidates the distribution, and with [--dry-run]
    as well it does nothing at all. *)
Theorem main_invalidation_only self :
  bInvalidCFOnly (oCmdOptions self) = true →
  main self
  = if bDryRun (oCmdOptions self) then ([], inr None)
    else ([ print "";
            print (" *** " +:+ ("Clearing CloudFront distribution: " +:+ CF_DIST_ID self)
                     +:+ " ***");
            create_invalidation (CF_DIST_ID self) ["/*"] ],
          match create_invalidation_answer (oBotoCF self) (CF_DIST_ID self) with
          | Some e => inl e
          | None => inr None
          end).
Proof.
  intros Honly. unfold main, syncToS3. rewrite Honly, clearCloudFront_run.
  destruct (bDryRun (oCmdOptions self)); [done|].
  by destruct (create_invalidation_answer _ _).
Qed.

End Invalidation.

Lemma main_invalidates_last_witness :
  false = false
  ∧ "E1" = "E1"
  ∧ ["/*"] = ["/*"]
  ∧ ∃ l1 sets line,
      syncToS3 (host := Sample.host) (Sample.deploy false false (Some 1%Z)) = (l1, inr sets)
      ∧ (∀ ev, ev ∈ l1 → ev ≠ create_invalidation "E1" ["/*"])
      ∧ (main (host := Sample.host) (Sample.deploy false false (Some 1%Z))).1
        = l1 ++ [print ""; print line; create_invalidation "E1" ["/*"]].
Proof.
  apply (main_invalidates_last (host := Sample.host) (Sample.deploy false false (Some 1%Z))
           _ (main (host := Sample.host) (Sample.deploy false false (Some 1%Z))).2).
  - vm_compute. reflexivity.
  - compute_done.
Defined.

Lemma main_invalidation_only_witness :
  main (host := Sample.host)
    {| oCmdOptions := {| sProduct := "app"; sDeployment := "prod"; sBuildDir := "build";
                         bDryRun := false; bForceTransfer := false;
                         bInvalidCFOnly := true; iVersions := None |};
       S3_BUCKET := "bucket"; CF_DIST_ID := "E1";
       oBoto := Sample.s3; oBotoCF := Sample.cloudfront |}
  = ([ print ""; print " *** Clearing CloudFront distribution: E1 ***";
       create_invalidation "E1" ["/*"] ], inr None).
Proof.
  apply (main_invalidation_only (host := Sample.host)). reflexivity.
Defined.

(** ** [getCwdFiles] and the scan of a manifest *)

Section Listing.
Context {host : Host}.

(** X23.  [getCwdFiles] names a file of the top directory by its bare
    name and a file below by the path from the build directory, without
    the leading dot and slash of [os.walk]. *)
Theorem getCwdFiles_paths sRoot aDirs aFiles sFile :
  (sRoot, aDirs, aFiles) ∈ walk →
  sFile ∈ aFiles →
  (sRoot = "." → sFile ∈ getCwdFiles)
  ∧ (∀ sDir, sRoot = "./" +:+ sDir → sDir +:+ "/" +:+ sFile ∈ getCwdFiles).
Proof.
  intros Hwalk Hfile.
  assert (Py.strip_dot_slash (sRoot +:+ "/" +:+ sFile) ∈ getCwdFiles) as Hin.
  { unfold getCwdFiles. apply list_elem_of_In, in_flat_map.
    exists (sRoot, aDirs, aFiles). split; [by apply list_elem_of_In|].
    apply (in_map (λ sFile, Py.strip_dot_slash (sRoot +:+ "/" +:+ sFile))).
    by apply list_elem_of_In. }
  split.
  - intros ->. exact Hin.
  - intros sDir ->. exact Hin.
Qed.

End Listing.

Lemma getCwdFiles_paths_witness :
  ("./static" = "." → "main.v3.js" ∈ getCwdFiles (host := Sample.host))
  ∧ (∀ sDir, "./static" = "./" +:+ sDir →
             sDir +:+ "/" +:+ "main.v3.js" ∈ getCwdFiles (host := Sample.host)).
Proof.
  apply (getCwdFiles_paths (host := Sample.host) "./static" []
           ["main.v3.js"; "precache-manifest.x.js"] "main.v3.js").
  - compute_done.
  - compute_done.
Defined.

Lemma strip_prefix_app p s : Py.strip_prefix p (p +:+ s) = Some s.
Proof.
  induction p as [|a p IH]; [done|].
  change (String a p +:+ s) with (String a (p +:+ s)).
  cbn [Py.strip_prefix]. by rewrite Ascii.eqb_refl.
Qed.

Lemma lazy_group_closed sPath rest :
  Py.dot_star sPath = true → occurs Py.DQ sPath = false →
  Py.lazy_group (sPath +:+ Py.DQ +:+ rest) = Some (sPath, S (String.length sPath)).
Proof.
  induction sPath as [|c p IH].
  - intros _ _. change ("" +:+ Py.DQ +:+ rest) with (String Py.dquote rest).
    cbn [Py.lazy_group]. by rewrite Ascii.eqb_refl.
  - change (String c p +:+ Py.DQ +:+ rest) with (String c (p +:+ Py.DQ +:+ rest)).
    cbn [Py.dot_star occurs Py.lazy_group String.prefix Py.DQ].
    intros [Hnl Hp]%andb_prop [Hq Hq']%orb_false_elim.
    destruct (ascii_dec Py.dquote c) as [<-|Hne]; [by destruct p|].
    destruct (Ascii.eqb_spec c Py.dquote) as [->|_]; [done|].
    destruct (Ascii.eqb_spec c Py.newline) as [->|_]; [done|].
    by rewrite IH.
Qed.

Lemma string_length_app (a b : string) :
  String.length (a +:+ b) = String.length a + String.length b.
Proof.
  induction a as [|x a IH]; [done|].
  change (String x a +:+ b) with (String x (a +:+ b)). simpl. by rewrite IH.
Qed.

Lemma findall_from_skip p s :
  Py.findall_from (String.length p) (p +:+ s) = Py.findall_from 0 s.
Proof. induction p as [|a p IH]; [done|exact IH]. Qed.

(** X24.  The scan of a manifest: an entry at the front, that is the
    opening, a path without double quote or line feed, and a closing
    double quote, yields the path, and the scan goes on behind the
    closing quote; a character other than a double quote at the front is
    passed over. *)
Theorem findall_url_entry sPath rest :
  Py.dot_star sPath = true → occurs Py.DQ sPath = false →
  Py.findall_url (Py.url_open +:+ sPath +:+ Py.DQ +:+ rest)
  = sPath :: Py.findall_url rest
  ∧ ∀ c, c ≠ Py.dquote → Py.findall_url (String c rest) = Py.findall_url rest.
Proof.
  intros Hnl Hq. split.
  - unfold Py.findall_url.
    assert (Py.url_match (Py.url_open +:+ sPath +:+ Py.DQ +:+ rest)
            = Some (sPath, String.length Py.url_open + S (String.length sPath))) as Hm.
    { unfold Py.url_match. by rewrite strip_prefix_app, lazy_group_closed. }
    set (tail := "url" +:+ Py.DQ +:+ ": " +:+ Py.DQ +:+ "/").
    change (Py.url_open +:+ sPath +:+ Py.DQ +:+ rest)
      with (String Py.dquote (tail +:+ sPath +:+ Py.DQ +:+ rest)) in *.
    cbn [Py.findall_from]. rewrite Hm. f_equal.
    rewrite <-(append_assoc sPath), <-(append_assoc tail).
    rewrite <-(findall_from_skip (tail +:+ sPath +:+ Py.DQ) rest). f_equal.
    rewrite !string_length_app. simpl. lia.
  - intros c Hc. unfold Py.findall_url. cbn [Py.findall_from].
    assert (Py.url_match (String c rest) = None) as ->; [|done].
    unfold Py.url_match, Py.url_open, Py.DQ.
    change (String Py.dquote "" +:+ "url" +:+ String Py.dquote ""
              +:+ ": " +:+ String Py.dquote "" +:+ "/")
      with (String Py.dquote ("url" +:+ String Py.dquote ""
                                +:+ ": " +:+ String Py.dquote "" +:+ "/")).
    cbn [Py.strip_prefix].
    destruct (Ascii.eqb_spec Py.dquote c) as [<-|_]; done.
Qed.

Lemma findall_url_entry_witness :
  Py.findall_url (Py.url_open +:+ "static/js/main.js" +:+ Py.DQ +:+ "}, {")
  = "static/js/main.js" :: Py.findall_url "}, {"
  ∧ ∀ c, c ≠ Py.dquote → Py.findall_url (String c "}, {") = Py.findall_url "}, {".
Proof. apply findall_url_entry; reflexivity. Defined.

(** ** From the validation to the invalidation *)

Lemma Prog_bind_inv {A B} (m : Prog A) (f : A → Prog B) steps r :
  m ≫= f = (steps, r) →
  (∃ e, m = (steps, inl e) ∧ r = inl e)
  ∨ (∃ s1 a s2, m = (s1, inr a) ∧ f a = (s2, r) ∧ steps = s1 ++ s2).
Proof.
  unfold mbind, Prog_bind. destruct m as [s1 [e|a]].
  - intros [= <- <-]. left. eauto.
  - destruct (f a) as [s2 r'] eqn:Hf. intros [= <- <-]. right. eauto 6.
Qed.

Lemma Prog_bind_inr_inv {A B} (m : Prog A) (f : A → Prog B) steps b :
  m ≫= f = (steps, inr b) →
  ∃ s1 a s2, m = (s1, inr a) ∧ f a = (s2, inr b) ∧ steps = s1 ++ s2.
Proof.
  intros [(e & _ & [=])|Hm]%Prog_bind_inv. exact Hm.
Qed.

Lemma Prog_bind_inr {A B} (m : Prog A) (f : A → Prog B) s1 a :
  m = (s1, inr a) → m ≫= f = (s1 ++ (f a).1, (f a).2).
Proof.
  intros ->. unfold mbind, Prog_bind. by destruct (f a).
Qed.

Lemma Prog_bind_inl {A B} (m : Prog A) (f : A → Prog B) s1 e :
  m = (s1, inl e) → m ≫= f = (s1, inl e).
Proof. by intros ->. Qed.

(** *** Computations that change nothing *)

Lemma quiet_ret {A} (a : A) : quiet (mret a : Prog A).
Proof. split; [by intros st ?%elem_of_nil|done]. Qed.

Lemma quiet_bind {A B} (m : Prog A) (f : A → Prog B) :
  quiet m → (∀ a, quiet (f a)) → quiet (m ≫= f).
Proof.
  intros [Hm1 Hm2] Hf. destruct (m ≫= f) as [steps r] eqn:Hrun.
  apply Prog_bind_inv in Hrun
    as [(e & -> & ->)|(s1 & a & s2 & -> & Hfa & ->)]; 
    [split; [exact Hm1|]; intros code [= ->]; by apply (Hm2 code)|].
  destruct (Hf a) as [Hf1 Hf2]. rewrite Hfa in Hf1, Hf2. simpl in *. split.
  - intros st [?|?]%elem_of_app; auto.
  - intros code (-> & pre & sMsg & ->)%Hf2. split; [done|].
    exists (s1 ++ pre), sMsg. by rewrite <-(assoc_L (++)).
Qed.

Lemma quiet_errorMsg sMsg bExit : quiet (errorMsg sMsg bExit).
Proof.
  destruct bExit; (split; simpl;
    [by intros st ->%list_elem_of_singleton|]); [|done].
  intros code [= <-]. split; [done|]. by exists [], sMsg.
Qed.

Lemma quiet_getConfigValue oConfig sSection sKey bRequired :
  quiet (getConfigValue oConfig sSection sKey bRequired).
Proof.
  unfold getConfigValue.
  destruct (has_section oConfig sSection), (has_option oConfig sSection sKey), bRequired;
    try apply quiet_ret;
    (apply quiet_bind; [apply quiet_errorMsg|intros; apply quiet_ret]).
Qed.

Lemma quiet_required o : quiet (PyStr.required o).
Proof. destruct o; [apply quiet_ret|]. split; [by intros st ?%elem_of_nil|done]. Qed.

Lemma quiet_or_else a b : quiet b → quiet (PyStr.or_else a b).
Proof.
  intros Hb. destruct a as [s|]; [|done]. simpl.
  destruct (String.eqb s ""); [done|apply quiet_ret].
Qed.

Lemma quiet_for_all {A} (body : A → Prog ()) l :
  (∀ x, quiet (body x)) → quiet (for_all body l).
Proof.
  intros Hbody. induction l as [|x l IH]; [apply quiet_ret|].
  apply quiet_bind; [apply Hbody|done].
Qed.

Lemma quiet_validateTarget oOptions oConfig os boto3 :
  quiet (validateTarget oOptions oConfig os boto3).
Proof.
  unfold validateTarget.
  repeat first
    [ apply quiet_getConfigValue | apply quiet_required | apply quiet_errorMsg
    | apply quiet_ret | apply quiet_or_else
    | apply quiet_bind; [|intros ?]
    | match goal with |- quiet (if ?b then _ else _) => destruct b end ].
  - split; simpl; [|done].
    by intros st ->%list_elem_of_singleton.
  - split; simpl; [|done].
    by intros st ->%list_elem_of_singleton.
  - destruct (max_keys_answer _ _ _ _) as [[message| |]|];
      [apply quiet_errorMsg| | |apply quiet_ret];
      (split; [by intros st ?%elem_of_nil|done]).
Qed.

Lemma quiet_goToBuildDir oOptions os : quiet (goToBuildDir oOptions os).
Proof.
  unfold goToBuildDir.
  apply quiet_bind; [destruct (negb _); [apply quiet_errorMsg|apply quiet_ret]|].
  intros _. apply quiet_bind.
  { split; simpl; [|done]. by intros st ->%list_elem_of_singleton. }
  intros _. apply quiet_for_all. intros sFile.
  destruct (negb _); [apply quiet_errorMsg|apply quiet_ret].
Qed.

(** *** What a validation that returns has seen *)

Lemma getConfigValue_present oConfig sSection sKey bRequired :
  has_section oConfig sSection = true → has_option oConfig sSection sKey = true →
  getConfigValue oConfig sSection sKey bRequired
  = ([], inr (Some (option_value oConfig sSection sKey))).
Proof. unfold getConfigValue. by intros -> ->. Qed.

Lemma getConfigValue_inr oConfig sSection sKey steps v :
  getConfigValue oConfig sSection sKey true = (steps, inr v) →
  steps = [] ∧ v = Some (option_value oConfig sSection sKey)
  ∧ has_section oConfig sSection = true ∧ has_option oConfig sSection sKey = true.
Proof.
  unfold getConfigValue.
  destruct (has_section oConfig sSection), (has_option oConfig sSection sKey);
    try discriminate.
  by intros [= <- <-].
Qed.

Lemma required_inr oConfig sSection sKey steps s :
  getConfigValue oConfig sSection sKey true ≫= PyStr.required = (steps, inr s) →
  steps = [] ∧ s = option_value oConfig sSection sKey
  ∧ has_section oConfig sSection = true ∧ has_option oConfig sSection sKey = true.
Proof.
  intros (s1 & v & s2 & (-> & -> & Hs & Ho)%getConfigValue_inr & Hreq & ->)%Prog_bind_inr_inv.
  simpl in Hreq. by injection Hreq as <- <-.
Qed.

Lemma or_else_inr a oConfig sSection sKey steps v :
  PyStr.or_else a (getConfigValue oConfig sSection sKey true) = (steps, inr v) →
  steps = [].
Proof.
  destruct a as [s|]; simpl; [destruct (String.eqb s "")|].
  - by intros (-> & _)%getConfigValue_inr.
  - by intros [= <- _].
  - by intros (-> & _)%getConfigValue_inr.
Qed.

Lemma known_inr sNeedle aHaystack sMsg steps u :
  (if Py.is_False (searchList sNeedle aHaystack)
   then errorMsg sMsg true else mret ()) = (steps, inr u) →
  steps = [] ∧ sNeedle ∈ aHaystack.
Proof.
  pose proof (searchList_not_False sNeedle aHaystack) as Hs.
  destruct (Py.is_False _); [discriminate|].
  intros [= <-]. split; [done|].
  symmetry in Hs. by apply bool_decide_eq_true in Hs.
Qed.

Lemma validateTarget_inr oOptions oConfig os boto3 steps self :
  validateTarget oOptions oConfig os boto3 = (steps, inr self) →
  sProduct oOptions ∈ PyStr.split (option_value oConfig "general" "products")
  ∧ sDeployment oOptions ∈ PyStr.split (option_value oConfig "general" "deployments")
  ∧ oOptions = oCmdOptions self
  ∧ S3_BUCKET self = option_value oConfig "general" "s3_bucket"
  ∧ CF_DIST_ID self = option_value oConfig ("cloudfront-" +:+ sProduct oOptions)
                        (sDeployment oOptions +:+ "-dist-id")
  ∧ (∃ sId sKey,
       PyStr.or_else (environ_get os "AWS_S3_DEPLOY_ACCESS_ID")
         (getConfigValue oConfig "aws-credentials" "access_id" true) = ([], inr sId)
       ∧ PyStr.or_else (environ_get os "AWS_S3_DEPLOY_SECRET_KEY")
           (getConfigValue oConfig "aws-credentials" "secret_key" true) = ([], inr sKey)
       ∧ oBoto self = client_s3 boto3 sId sKey
       ∧ oBotoCF self = client_cloudfront boto3 sId sKey
       ∧ max_keys_answer boto3 sId sKey (S3_BUCKET self) = None)
  ∧ steps = [call (print " *** Validating AWS credentials ***");
             list_objects_v2_max_keys (S3_BUCKET self) 1].
Proof.
  unfold validateTarget.
  intros (s1 & sProducts & ? & (-> & -> & _)%required_inr & Hrun & ->)%Prog_bind_inr_inv.
  apply Prog_bind_inr_inv in Hrun
    as (s1 & sDeployments & ? & (-> & -> & _)%required_inr & Hrun & ->).
  apply Prog_bind_inr_inv in Hrun
    as (s1 & sBucket & ? & (-> & -> & _)%required_inr & Hrun & ->).
  apply Prog_bind_inr_inv in Hrun
    as (s1 & [] & ? & (-> & Hproduct)%known_inr & Hrun & ->).
  apply Prog_bind_inr_inv in Hrun
    as (s1 & [] & ? & (-> & Hdeployment)%known_inr & Hrun & ->).
  apply Prog_bind_inr_inv in Hrun
    as (s1 & sDist & ? & (-> & -> & _)%required_inr & Hrun & ->).
  apply Prog_bind_inr_inv in Hrun as (s1 & sId & ? & HsId & Hrun & ->).
  pose proof (or_else_inr _ _ _ _ _ _ HsId) as ->.
  apply Prog_bind_inr_inv in Hrun as (s1 & sKey & ? & HsKey & Hrun & ->).
  pose proof (or_else_inr _ _ _ _ _ _ HsKey) as ->.
  apply Prog_bind_inr_inv in Hrun as (s1 & [] & ? & [= <-] & Hrun & ->).
  apply Prog_bind_inr_inv in Hrun as (s1 & [] & ? & [= <-] & Hrun & ->).
  apply Prog_bind_inr_inv in Hrun as (s1 & [] & ? & Hanswer & [= <- <-] & ->).
  destruct (max_keys_answer boto3 sId sKey _) as [[message| |]|] eqn:Hmax;
    try discriminate.
  injection Hanswer as <-. simpl. split_and!; try done.
  by exists sId, sKey.
Qed.

(** *** The build directory *)

Lemma goToBuildDir_run oOptions os :
  goToBuildDir oOptions os
  = if negb (isdir os (sBuildDir oOptions))
    then ([stderr_write
             (error_line ("Build directory does not exist: " +:+ sBuildDir oOptions))],
          inl (SystemExit (-1)))
    else if isfile os "index.html" && isfile os "asset-manifest.json"
    then ([chdir (sBuildDir oOptions)], inr ())
    else ([chdir (sBuildDir oOptions);
           stderr_write
             (error_line ("Build directory is missing files: " +:+ sBuildDir oOptions))],
          inl (SystemExit (-1))).
Proof.
  unfold goToBuildDir, NO_CACHE_FILES. simpl.
  by destruct (isdir _ _), (isfile os "index.html"), (isfile os "asset-manifest.json").
Qed.

Lemma goToBuildDir_inr oOptions os steps u :
  goToBuildDir oOptions os = (steps, inr u) →
  isdir os (sBuildDir oOptions) = true
  ∧ (∀ sFile, sFile ∈ NO_CACHE_FILES → isfile os sFile = true)
  ∧ steps = [chdir (sBuildDir oOptions)].
Proof.
  rewrite goToBuildDir_run.
  destruct (isdir _ _); [|discriminate]. simpl.
  destruct (isfile os "index.html") eqn:Hindex; [|discriminate].
  destruct (isfile os "asset-manifest.json") eqn:Hasset; [|discriminate].
  intros [= <-]. split_and!; [done| |done].
  unfold NO_CACHE_FILES.
  by intros sFile [-> | [-> | ?%elem_of_nil]%elem_of_cons]%elem_of_cons.
Qed.

(** *** The steps of the program *)

Section Program.
Context {host : Host}.

Lemma Deploy_main_inv oOptions oConfig os boto3 steps r :
  Deploy_main oOptions oConfig os boto3 = (steps, r) →
  (∃ e, validateTarget oOptions oConfig os boto3 = (steps, inl e) ∧ r = inl e)
  ∨ ∃ s1 self,
      validateTarget oOptions oConfig os boto3 = (s1, inr self)
      ∧ ((∃ s2 e, goToBuildDir oOptions os = (s2, inl e)
                  ∧ steps = s1 ++ s2 ∧ r = inl e)
         ∨ (∃ s2, goToBuildDir oOptions os = (s2, inr ())
                  ∧ (steps, r) = (s1 ++ s2 ++ (lift (main self)).1, (lift (main self)).2))).
Proof.
  unfold Deploy_main.
  intros [(e & ? & ?)|(s1 & self & ? & Hv & Hrun & ->)]%Prog_bind_inv; [left; eauto|].
  right. exists s1, self. split; [done|].
  apply Prog_bind_inv in Hrun as [(e & ? & ?)|(s2 & [] & ? & Hg & Hrun & ->)].
  - left. eauto.
  - right. exists s2. split; [done|]. by rewrite Hrun.
Qed.

(** A write of the last two steps. *)
Lemma main_write self ev :
  ev ∈ (main self).1 → is_write ev = true →
  bDryRun (oCmdOptions self) = false
  ∧ ((∃ sFile,
        (∃ Body CacheControl ContentType,
           ev = put_object Body (S3_BUCKET self) CacheControl ContentType
                  (deployment_prefix self +:+ "/" +:+ sFile))
        ∨ ev = delete_object (S3_BUCKET self) (deployment_prefix self +:+ "/" +:+ sFile))
     ∨ ev = create_invalidation (CF_DIST_ID self) ["/*"]).
Proof.
  unfold main. intros [Hev|(sets & _ & Hev)]%bind_log Hw.
  - destruct (syncToS3_event self _ _ ev (surjective_run _ _ eq_refl) Hev)
      as [Hn|(l0 & inv & up & del0 & l2 & del & _ & _ & _ & Hdry & Hcase)];
      [congruence|].
    split; [done|]. left.
    destruct Hcase as [(sFile & data & _ & _ & ->)|(l3 & sFile & _ & _ & ->)];
      exists sFile; [left; eauto|by right].
  - apply bind_log in Hev as [Hev|(? & _ & ?%elem_of_nil)]; [|done].
    rewrite clearCloudFront_run in Hev.
    destruct (bDryRun (oCmdOptions self)); [by apply elem_of_nil in Hev|].
    split; [done|]. right. simpl in Hev.
    apply elem_of_cons in Hev as [Hev|Hev]; [by subst|].
    apply elem_of_cons in Hev as [Hev|Hev]; [by subst|].
    by apply list_elem_of_singleton in Hev.
Qed.

End Program.

(** X25.  With the three options of the section general present, a
    product that is not among the configured ones stops [validateTarget]
    at once: one error line naming it and the valid products, exit
    status -1, and no call to AWS.  A known product with an unknown
    deployment stops it the same way. *)
Theorem validateTarget_unknown_target oOptions oConfig os boto3 :
  has_section oConfig "general" = true →
  has_option oConfig "general" "products" = true →
  has_option oConfig "general" "deployments" = true →
  has_option oConfig "general" "s3_bucket" = true →
  let PRODUCTS := PyStr.split (option_value oConfig "general" "products") in
  let DEPLOYMENTS := PyStr.split (option_value oConfig "general" "deployments") in
  (sProduct oOptions ∉ PRODUCTS →
   validateTarget oOptions oConfig os boto3
   = ([stderr_write
         (error_line ("invalid product: " +:+ sProduct oOptions
                        +:+ ", valid products are: " +:+ PyStr.join ", " PRODUCTS))],
      inl (SystemExit (-1))))
  ∧ (sProduct oOptions ∈ PRODUCTS → sDeployment oOptions ∉ DEPLOYMENTS →
     validateTarget oOptions oConfig os boto3
     = ([stderr_write
           (error_line ("invalid deployment: " +:+ sDeployment oOptions
                          +:+ ", valid deployments are: "
                          +:+ PyStr.join ", " DEPLOYMENTS))],
        inl (SystemExit (-1)))).
Proof.
  intros Hs Hp Hd Hb PRODUCTS DEPLOYMENTS. unfold validateTarget.
  rewrite !(getConfigValue_present _ "general") by done.
  split.
  - intros Hn%searchList_is_False. simpl. fold PRODUCTS. by rewrite Hn.
  - intros Hin Hn%searchList_is_False.
    assert (Py.is_False (searchList (sProduct oOptions) PRODUCTS) = false) as Hk.
    { apply negb_true_iff. rewrite searchList_not_False. by apply bool_decide_eq_true. }
    simpl. fold PRODUCTS DEPLOYMENTS. by rewrite Hk, Hn.
Qed.

Lemma validateTarget_unknown_target_witness :
  validateTarget
    {| sProduct := "shop"; sDeployment := "prod"; sBuildDir := "build";
       bDryRun := false; bForceTransfer := false; bInvalidCFOnly := false;
       iVersions := None |} Setup.config Setup.os Setup.boto3
  = ([stderr_write (error_line "invalid product: shop, valid products are: app, site")],
     inl (SystemExit (-1)))
  ∧ validateTarget
      {| sProduct := "site"; sDeployment := "live"; sBuildDir := "build";
         bDryRun := false; bForceTransfer := false; bInvalidCFOnly := false;
         iVersions := None |} Setup.config Setup.os Setup.boto3
    = ([stderr_write
          (error_line "invalid deployment: live, valid deployments are: test, prod")],
       inl (SystemExit (-1))).
Proof.
  split.
  - apply (validateTarget_unknown_target
             {| sProduct := "shop"; sDeployment := "prod"; sBuildDir := "build";
                bDryRun := false; bForceTransfer := false; bInvalidCFOnly := false;
                iVersions := None |} Setup.config Setup.os Setup.boto3);
      [reflexivity..|compute_done].
  - apply (validateTarget_unknown_target
             {| sProduct := "site"; sDeployment := "live"; sBuildDir := "build";
                bDryRun := false; bForceTransfer := false; bInvalidCFOnly := false;
                iVersions := None |} Setup.config Setup.os Setup.boto3);
      [reflexivity..|compute_done|compute_done].
Defined.

(** X26.  When [validateTarget] returns, the product and the deployment
    of the command line are among the configured ones, the bucket and
    the distribution are the configured values, both clients were made
    with the same pair of credentials, the listing made with them was
    answered, and nothing was done but to print the status line and
    make that listing of one key. *)
Theorem validateTarget_returns oOptions oConfig os boto3 steps self :
  validateTarget oOptions oConfig os boto3 = (steps, inr self) →
  sProduct oOptions ∈ PyStr.split (option_value oConfig "general" "products")
  ∧ sDeployment oOptions ∈ PyStr.split (option_value oConfig "general" "deployments")
  ∧ oCmdOptions self = oOptions
  ∧ S3_BUCKET self = option_value oConfig "general" "s3_bucket"
  ∧ CF_DIST_ID self = option_value oConfig ("cloudfront-" +:+ sProduct oOptions)
                        (sDeployment oOptions +:+ "-dist-id")
  ∧ (∃ sId sKey,
       oBoto self = client_s3 boto3 sId sKey
       ∧ oBotoCF self = client_cloudfront boto3 sId sKey
       ∧ max_keys_answer boto3 sId sKey (S3_BUCKET self) = None)
  ∧ steps = [call (print " *** Validating AWS credentials ***");
             list_objects_v2_max_keys (S3_BUCKET self) 1].
Proof.
  intros (? & ? & ? & ? & ? & (sId & sKey & _ & _ & ?) & ?)%validateTarget_inr.
  split_and!; try done. by exists sId, sKey.
Qed.

Lemma validateTarget_returns_witness :
  "app" ∈ PyStr.split (option_value Setup.config "general" "products")
  ∧ "prod" ∈ PyStr.split (option_value Setup.config "general" "deployments")
  ∧ oCmdOptions (Sample.deploy false false None) = Sample.cmdline false false None
  ∧ "bucket" = option_value Setup.config "general" "s3_bucket"
  ∧ "E1" = option_value Setup.config "cloudfront-app" "prod-dist-id"
  ∧ (∃ sId sKey,
       Sample.s3 = client_s3 Setup.boto3 sId sKey
       ∧ Sample.cloudfront = client_cloudfront Setup.boto3 sId sKey
       ∧ max_keys_answer Setup.boto3 sId sKey "bucket" = None)
  ∧ [call (print " *** Validating AWS credentials ***");
     list_objects_v2_max_keys "bucket" 1]
    = [call (print " *** Validating AWS credentials ***");
       list_objects_v2_max_keys "bucket" 1].
Proof.
  apply (validateTarget_returns (Sample.cmdline false false None)
           Setup.config Setup.os Setup.boto3 _ (Sample.deploy false false None)).
  reflexivity.
Defined.

(** X27.  With both credentials in the environment and not empty,
    [validateTarget] does not look at the section aws-credentials: two
    configurations that agree on every other section give the same run,
    and the clients of a run that returns are made with the credentials
    of the environment. *)
Theorem validateTarget_environment oOptions oConfig oConfig' os boto3 sId sKey :
  environ_get os "AWS_S3_DEPLOY_ACCESS_ID" = Some sId → sId ≠ "" →
  environ_get os "AWS_S3_DEPLOY_SECRET_KEY" = Some sKey → sKey ≠ "" →
  (∀ sSection, sSection ≠ "aws-credentials" →
     has_section oConfig sSection = has_section oConfig' sSection
     ∧ ∀ sOption,
         has_option oConfig sSection sOption = has_option oConfig' sSection sOption
         ∧ option_value oConfig sSection sOption = option_value oConfig' sSection sOption) →
  validateTarget oOptions oConfig os boto3 = validateTarget oOptions oConfig' os boto3
  ∧ ∀ steps self,
      validateTarget oOptions oConfig os boto3 = (steps, inr self) →
      oBoto self = client_s3 boto3 (Some sId) (Some sKey)
      ∧ oBotoCF self = client_cloudfront boto3 (Some sId) (Some sKey).
Proof.
  intros HsId Hid HsKey Hkey Hagree.
  assert (∀ s a, s ≠ "" → PyStr.or_else (Some s) a = ([], inr (Some s))) as Hor.
  { intros s a Hs. simpl. by destruct (String.eqb_spec s ""). }
  split.
  - assert (∀ sSection sOption, sSection ≠ "aws-credentials" →
            getConfigValue oConfig sSection sOption true
            = getConfigValue oConfig' sSection sOption true) as Hget.
    { intros sSection sOption [Hs Ho]%Hagree. destruct (Ho sOption) as [Hh Hv].
      unfold getConfigValue. by rewrite Hs, Hh, Hv. }
    unfold validateTarget. rewrite HsId, HsKey.
    rewrite !(Hget "general") by done.
    rewrite (Hget ("cloudfront-" +:+ sProduct oOptions)) by done.
    by rewrite !(Hor sId), !(Hor sKey).
  - intros steps self (_ & _ & _ & _ & _ & (i & k & Hi & Hk & -> & -> & _) & _)%validateTarget_inr.
    rewrite HsId in Hi. rewrite HsKey in Hk.
    rewrite Hor in Hi by done. rewrite Hor in Hk by done.
    by injection Hi as <-; injection Hk as <-.
Qed.

Lemma validateTarget_environment_witness :
  validateTarget (Sample.cmdline false false None) Setup.config Setup.ci Setup.boto3
  = validateTarget (Sample.cmdline false false None) Setup.bare Setup.ci Setup.boto3
  ∧ ∀ steps self,
      validateTarget (Sample.cmdline false false None) Setup.config Setup.ci Setup.boto3
      = (steps, inr self) →
      oBoto self
      = client_s3 Setup.boto3 (Some "id-of-environment") (Some "key-of-environment")
      ∧ oBotoCF self
        = client_cloudfront Setup.boto3 (Some "id-of-environment")
            (Some "key-of-environment").
Proof.
  apply (validateTarget_environment (Sample.cmdline false false None)
           Setup.config Setup.bare Setup.ci Setup.boto3
           "id-of-environment" "key-of-environment");
    [reflexivity|done|reflexivity|done|].
  intros sSection Hs. simpl.
  by destruct (String.eqb_spec sSection "aws-credentials").
Defined.



Section ProgramProperties.
Context {host : Host}.

(** X29.  Whatever the whole program changes, it changes within a
    validated target: a [put_object], a [delete_object] or a
    [create_invalidation] among its steps means that the product and the
    deployment are among the configured ones, that the credentials were
    accepted, that the build directory exists and holds both files of
    [NO_CACHE_FILES], and that this is no dry run; and the call is on
    the configured bucket under the prefix of the deployment, or
    invalidates every path of the distribution configured for it. *)
Theorem Deploy_main_writes oOptions oConfig os boto3 steps r ev :
  Deploy_main oOptions oConfig os boto3 = (steps, r) →
  call ev ∈ steps → is_write ev = true →
  sProduct oOptions ∈ PyStr.split (option_value oConfig "general" "products")
  ∧ sDeployment oOptions ∈ PyStr.split (option_value oConfig "general" "deployments")
  ∧ (∃ sId sKey,
       max_keys_answer boto3 sId sKey (option_value oConfig "general" "s3_bucket") = None)
  ∧ isdir os (sBuildDir oOptions) = true
  ∧ (∀ sFile, sFile ∈ NO_CACHE_FILES → isfile os sFile = true)
  ∧ bDryRun oOptions = false
  ∧ target_write oOptions oConfig ev.
Proof.
  intros Hrun Hev Hw.
  assert (∀ A (m : Prog A) s x, quiet m → m = (s, x) → call ev ∉ s) as Hquiet.
  { intros A m s x [Hq _] -> Hin. apply Hq in Hin. simpl in Hin. congruence. }
  apply Deploy_main_inv in Hrun
    as [(e & Hv & _)|(s1 & self & Hv & [(s2 & e & Hg & -> & _)|(s2 & Hg & [= -> _])])].
  - by destruct (Hquiet _ _ _ _ (quiet_validateTarget _ _ _ _) Hv).
  - apply elem_of_app in Hev as [Hev|Hev].
    + by destruct (Hquiet _ _ _ _ (quiet_validateTarget _ _ _ _) Hv).
    + by destruct (Hquiet _ _ _ _ (quiet_goToBuildDir _ _) Hg).
  - apply elem_of_app in Hev as [Hev|[Hev|Hev]%elem_of_app].
    { by destruct (Hquiet _ _ _ _ (quiet_validateTarget _ _ _ _) Hv). }
    { by destruct (Hquiet _ _ _ _ (quiet_goToBuildDir _ _) Hg). }
    apply list_elem_of_fmap in Hev as (ev' & [= <-] & Hev).
    apply validateTarget_inr in Hv
      as (Hp & Hd & Hopts & Hbucket & Hdist & (sId & sKey & _ & _ & _ & _ & Hmax) & _).
    apply goToBuildDir_inr in Hg as (Hdir & Hfiles & _).
    destruct (main_write self ev Hev Hw) as [Hdry Hcase].
    rewrite Hbucket in Hmax. rewrite <-Hopts in Hdry.
    split_and!; try done; [by exists sId, sKey|].
    assert (deployment_prefix self = target_prefix oOptions) as Hprefix
      by by rewrite Hopts.
    rewrite Hprefix, Hbucket, Hdist in Hcase.
    destruct Hcase
      as [(sFile & [(Body & CacheControl & ContentType & ->)| ->])| ->]; simpl; eauto.
Qed.

(** X30.  Once the command line and the configuration are read, the
    four steps that follow ([validateTarget], [goToBuildDir],
    [syncToS3], [clearCloudFront]) leave through [sys.exit] only with
    status -1; the last thing they did then was to write an error line
    to the standard error, and they have changed nothing on S3 or
    CloudFront.  What [argparse] does with a command line it refuses
    comes before and is not part of this. *)
Theorem Deploy_main_exit oOptions oConfig os boto3 steps code :
  Deploy_main oOptions oConfig os boto3 = (steps, inl (SystemExit code)) →
  code = (-1)%Z
  ∧ (∃ pre sMsg, steps = pre ++ [stderr_write (error_line sMsg)])
  ∧ ∀ st, st ∈ steps → writes st = false.
Proof.
  intros Hrun.
  pose proof (quiet_validateTarget oOptions oConfig os boto3) as [Hv1 Hv2].
  pose proof (quiet_goToBuildDir oOptions os) as [Hg1 Hg2].
  apply Deploy_main_inv in Hrun
    as [(e & Hv & [= <-])
       |(s1 & self & Hv & [(s2 & e & Hg & -> & [= <-])|(s2 & Hg & [= -> Hr])])].
  - rewrite Hv in Hv1, Hv2. destruct (Hv2 code eq_refl) as [-> Hlast].
    by split_and!.
  - rewrite Hv in Hv1. rewrite Hg in Hg1, Hg2.
    destruct (Hg2 code eq_refl) as (-> & pre & sMsg & Hlast). simpl in *.
    split_and!; [done| |].
    + exists (s1 ++ pre), sMsg. by rewrite Hlast, (assoc_L (++)).
    + intros st [?|?]%elem_of_app; auto.
  - simpl in Hr. by destruct ((main self).2).
Qed.

End ProgramProperties.

Lemma Deploy_main_writes_witness :
  "app" ∈ PyStr.split (option_value Setup.config "general" "products")
  ∧ "prod" ∈ PyStr.split (option_value Setup.config "general" "deployments")
  ∧ (∃ sId sKey,
       max_keys_answer Setup.boto3 sId sKey
         (option_value Setup.config "general" "s3_bucket") = None)
  ∧ isdir Setup.os "build" = true
  ∧ (∀ sFile, sFile ∈ NO_CACHE_FILES → isfile Setup.os sFile = true)
  ∧ false = false
  ∧ target_write (Sample.cmdline false false (Some 1%Z)) Setup.config
      (delete_object "bucket" "deployments/app/prod/static/main.v1.js").
Proof.
  apply (Deploy_main_writes (host := Sample.host)
           (Sample.cmdline false false (Some 1%Z)) Setup.config Setup.os Setup.boto3
           (Deploy_main (host := Sample.host) (Sample.cmdline false false (Some 1%Z))
              Setup.config Setup.os Setup.boto3).1
           (Deploy_main (host := Sample.host) (Sample.cmdline false false (Some 1%Z))
              Setup.config Setup.os Setup.boto3).2
           (delete_object "bucket" "deployments/app/prod/static/main.v1.js"));
    [by destruct (Deploy_main _ _ _ _)|compute_done|reflexivity].
Defined.

Lemma Deploy_main_exit_witness :
  (-1)%Z = (-1)%Z
  ∧ (∃ pre sMsg,
       [call (print " *** Validating AWS credentials ***");
        list_objects_v2_max_keys "bucket" 1;
        stderr_write (error_line "Build directory does not exist: dist")]
       = pre ++ [stderr_write (error_line sMsg)])
  ∧ ∀ st,
      st ∈ [call (print " *** Validating AWS credentials ***");
            list_objects_v2_max_keys "bucket" 1;
            stderr_write (error_line "Build directory does not exist: dist")] →
      writes st = false.
Proof.
  apply (Deploy_main_exit (host := Sample.host)
           {| sProduct := "app"; sDeployment := "prod"; sBuildDir := "dist";
              bDryRun := false; bForceTransfer := false; bInvalidCFOnly := false;
              iVersions := None |} Setup.config Setup.os Setup.boto3).
  reflexivity.
Defined.
